(** * Energy demand forecasting agent: forecasting ensemble and anomaly engine

    A shallow embedding of the numerical core of the repository:
    - [utils/preprocessor.py]: the target scaler;
    - [models/lstm_model.py], [models/lstm_model_lite.py]: the autoregressive
      multi-step rollout of the two sequence forecasters;
    - [models/prophet_model.py]: the trend forecaster;
    - [models/ensemble_predictor.py]: the combiner and its confidence score;
    - [utils/anomaly_detector.py]: the three detectors and the report;
    - [models/ensemble_predictor_simple.py]: the statistical ensemble.

    Numbers.  A finite Python/numpy float is modelled by an exact rational
    ([Q], compared with [==]); rounding is not modelled.  Where the source
    can leave the finite range (a division by zero, an undefined rolling
    statistic) values live in [xfloat], the rationals extended with the
    IEEE 754 special values.  There is a single zero, read as [+0].

    Black boxes.  The fitted networks (keras, MLP), the fitted Prophet
    model, the feature engineering of [prepare_lstm_data], the square root
    and the random generator are parameters: a function, a record of
    functions or a section variable.  Every statement holds for all of
    them; the examples instantiate them with small concrete functions.

    Time.  A timestamp is a number of hours since the epoch. *)

From Stdlib Require Import String QArith Qabs Qround Qminmax Lqa Lia ZArith Bool List.
Import ListNotations.
Local Open Scope string_scope.
Local Open Scope list_scope.
Local Open Scope Q_scope.

(* ================================================================= *)
(** ** Python exceptions and fallible computations *)

Inductive exn : Type :=
| ValueError (msg : string)
| IndexError (msg : string)
| AttributeError (msg : string)
| TypeError (msg : string)
| ZeroDivisionError
| NotFittedError.

Inductive result (A : Type) : Type :=
| Ok (a : A)
| Raise (e : exn).

Arguments Ok {A} a.
Arguments Raise {A} e.

Definition bind {A B : Type} (c : result A) (k : A -> result B) : result B :=
  match c with
  | Ok a => k a
  | Raise e => Raise e
  end.

Notation "x <- c ;; k" := (bind c (fun x => k))
  (at level 61, c at next level, right associativity).
Notation "' pat <- c ;; k" := (bind c (fun x => match x with pat => k end))
  (at level 61, pat pattern, c at next level, right associativity).

Definition is_raise {A : Type} (c : result A) : bool :=
  match c with Ok _ => false | Raise _ => true end.

(** [for i in range(n): st = body(i, st)], started at index [i]. *)
Fixpoint for_range {St : Type} (body : nat -> St -> result St) (i n : nat) (st : St)
  : result St :=
  match n with
  | O => Ok st
  | S n' => st' <- body i st ;; for_range body (S i) n' st'
  end.

(* ================================================================= *)
(** ** Floats that may be infinite or NaN *)

Inductive xfloat : Type :=
| Fin (q : Q)
| PInf
| NInf
| NaN.

Definition inf_of_sign (c : comparison) : xfloat :=
  match c with Gt => PInf | Lt => NInf | Eq => NaN end.

Definition xsign (x : xfloat) : comparison :=
  match x with Fin q => q ?= 0 | PInf => Gt | NInf => Lt | NaN => Eq end.

Definition sign_mul (a b : comparison) : comparison :=
  match a, b with
  | Eq, _ | _, Eq => Eq
  | Gt, Gt | Lt, Lt => Gt
  | _, _ => Lt
  end.

Definition xopp (x : xfloat) : xfloat :=
  match x with Fin q => Fin (- q) | PInf => NInf | NInf => PInf | NaN => NaN end.

Definition xadd (x y : xfloat) : xfloat :=
  match x, y with
  | NaN, _ | _, NaN => NaN
  | Fin a, Fin b => Fin (a + b)
  | PInf, NInf | NInf, PInf => NaN
  | PInf, _ | _, PInf => PInf
  | NInf, _ | _, NInf => NInf
  end.

Definition xsub (x y : xfloat) : xfloat := xadd x (xopp y).

Definition xmul (x y : xfloat) : xfloat :=
  match x, y with
  | NaN, _ | _, NaN => NaN
  | Fin a, Fin b => Fin (a * b)
  | _, _ => inf_of_sign (sign_mul (xsign x) (xsign y))
  end.

(** numpy/pandas division: no exception, [x / 0] is an infinity of the sign
    of [x], and [0 / 0] is NaN. *)
Definition xdiv (x y : xfloat) : xfloat :=
  match x, y with
  | NaN, _ | _, NaN => NaN
  | Fin a, Fin b => if Qeq_bool b 0 then inf_of_sign (a ?= 0) else Fin (a / b)
  | Fin _, _ => Fin 0
  | _, Fin b => match b ?= 0 with Lt => xopp x | _ => x end
  | _, _ => NaN
  end.

Definition xabs (x : xfloat) : xfloat :=
  match x with Fin q => Fin (Qabs q) | PInf | NInf => PInf | NaN => NaN end.

Definition isnan (x : xfloat) : bool :=
  match x with NaN => true | _ => false end.

Definition Qltb (a b : Q) : bool := negb (Qle_bool b a).

(** [x > y]; every comparison with NaN is false. *)
Definition xgtb (x y : xfloat) : bool :=
  match x, y with
  | NaN, _ | _, NaN => false
  | Fin a, Fin b => Qltb b a
  | PInf, PInf => false
  | PInf, _ => true
  | _, NInf => match x with NInf => false | _ => true end
  | _, _ => false
  end.

(** [Series.clip(lo, hi)]: [minimum(maximum(x, lo), hi)], NaN is kept. *)
Definition xclip (lo hi : Q) (x : xfloat) : xfloat :=
  match x with
  | NaN => NaN
  | PInf => Fin hi
  | NInf => Fin (Qmin lo hi)
  | Fin q => Fin (Qmin (Qmax q lo) hi)
  end.

(** The value is a finite number inside [[lo, hi]]. *)
Definition xin_range (lo hi : Q) (x : xfloat) : Prop :=
  match x with Fin q => lo <= q /\ q <= hi | _ => False end.

(** Equality of floats up to the representation of the rational. *)
Definition xeq (x y : xfloat) : Prop :=
  match x, y with
  | Fin a, Fin b => a == b
  | PInf, PInf | NInf, NInf | NaN, NaN => True
  | _, _ => False
  end.

Example xfloat_division_examples :
  xdiv (Fin 1) (Fin 0) = PInf /\ xdiv (Fin (-1)) (Fin 0) = NInf /\
  xdiv (Fin 0) (Fin 0) = NaN /\
  xsub (Fin 1) PInf = NInf /\ xmul (Fin 100) NInf = NInf /\
  xclip 0 100 NInf = Fin 0 /\ xclip 0 100 PInf = Fin 100 /\
  xclip 0 100 NaN = NaN /\
  xgtb NaN (Fin 3) = false /\ xgtb PInf (Fin 3) = true.
Proof. repeat split. Qed.

(* ================================================================= *)
(** ** numpy one-dimensional arrays *)

Fixpoint zip_with {A B C : Type} (f : A -> B -> C) (xs : list A) (ys : list B)
  : list C :=
  match xs, ys with
  | x :: xs', y :: ys' => f x y :: zip_with f xs' ys'
  | _, _ => []
  end.

(** Elementwise binary operation with numpy's broadcasting rule for two
    one-dimensional operands: equal lengths, or one operand of length one. *)
Definition np_binop (f : Q -> Q -> Q) (a b : list Q) : result (list Q) :=
  if Nat.eqb (length a) (length b) then Ok (zip_with f a b)
  else if Nat.eqb (length b) 1 then Ok (map (fun x => f x (hd 0 b)) a)
  else if Nat.eqb (length a) 1 then Ok (map (fun y => f (hd 0 a) y) b)
  else Raise (ValueError "operands could not be broadcast together").

(** [c * a] and [a * c] for a scalar [c]. *)
Definition np_scale (c : Q) (a : list Q) : list Q := map (fun x => c * x) a.
Definition np_rscale (a : list Q) (c : Q) : list Q := map (fun x => x * c) a.
Definition np_abs (a : list Q) : list Q := map Qabs a.

Definition sumQ (l : list Q) : Q := fold_left Qplus l 0.

(** pandas [mean()] and sample variance ([ddof = 1]) of a column. *)
Definition mean (l : list Q) : Q := sumQ l / inject_Z (Z.of_nat (length l)).

Definition var (l : list Q) : Q :=
  let m := mean l in
  sumQ (map (fun x => (x - m) * (x - m)) l) / inject_Z (Z.of_nat (length l - 1)).

(** [series.iloc[-1]] *)
Definition iloc_last {A : Type} (l : list A) (d : A) : result A :=
  match l with
  | [] => Raise (IndexError "single positional indexer is out-of-bounds")
  | _ => Ok (last l d)
  end.

(** [frame.tail(n)]: the last [n] rows. *)
Definition tail {A : Type} (n : nat) (l : list A) : list A :=
  skipn (length l - n) l.

(** The input table, as far as the core reads it: the [timestamp] column, in
    hours since the epoch, and the target column selected by
    [target_column]. *)
Record DataFrame : Type := mkDF {
  timestamp : list Z;
  target : list Q
}.

(** config.py *)
Module Config.
Record Weights : Type := mkWeights { lstm : Q; prophet : Q }.
Definition ENSEMBLE_WEIGHTS : Weights := {| lstm := 0.6; prophet := 0.4 |}.
Definition ANOMALY_THRESHOLD : Q := 3.
Definition ANOMALY_WINDOW : nat := 24.
End Config.

Lemma zip_with_length {A B C : Type} (f : A -> B -> C) (xs : list A) (ys : list B) :
  length xs = length ys -> length (zip_with f xs ys) = length xs.
Proof.
  revert ys. induction xs as [|x xs IH]; intros [|y ys] H; simpl in *;
    try reflexivity; try discriminate.
  f_equal. apply IH. now injection H.
Qed.

Lemma nth_error_zip_with {A B C : Type} (f : A -> B -> C) (xs : list A)
  (ys : list B) (i : nat) (x : A) (y : B) :
  nth_error xs i = Some x -> nth_error ys i = Some y ->
  nth_error (zip_with f xs ys) i = Some (f x y).
Proof.
  revert ys i. induction xs as [|a xs IH]; intros [|b ys] [|i] Hx Hy;
    simpl in *; try discriminate.
  - now injection Hx as ->; injection Hy as ->.
  - now apply IH.
Qed.

Lemma np_binop_same_length (f : Q -> Q -> Q) (a b : list Q) :
  length a = length b -> np_binop f a b = Ok (zip_with f a b).
Proof.
  intro H. unfold np_binop. now rewrite H, Nat.eqb_refl.
Qed.

Lemma nth_error_lt_Some {A : Type} (l : list A) (i : nat) :
  (i < length l)%nat -> exists x, nth_error l i = Some x.
Proof.
  intro H. destruct (nth_error l i) as [x|] eqn:E; [now exists x|].
  apply nth_error_None in E. lia.
Qed.

(* ================================================================= *)
(** ** utils/preprocessor.py: the target scaler *)

Module Preprocessor.

(** Fitted state of sklearn's [MinMaxScaler(feature_range=(0, 1))] on one
    column: [scale_ = (1 - 0) / handle_zeros(data_max - data_min)] and
    [min_ = 0 - data_min * scale_]. *)
Record MinMaxScaler : Type := mkScaler {
  data_min_ : Q;
  data_max_ : Q;
  scale_ : Q;
  min_ : Q
}.

Definition list_min (x : Q) (xs : list Q) : Q := fold_left Qmin xs x.
Definition list_max (x : Q) (xs : list Q) : Q := fold_left Qmax xs x.

(** sklearn's [_handle_zeros_in_scale]: a constant column is scaled by 1. *)
Definition handle_zeros_in_scale (r : Q) : Q := if Qeq_bool r 0 then 1 else r.

(** sklearn's input validation ([check_array]): at least one sample. *)
Definition check_array (data : list Q) : result (list Q) :=
  match data with
  | [] => Raise (ValueError "Found array with 0 sample(s) while a minimum of 1 is required")
  | _ => Ok data
  end.

Definition fit (data : list Q) : result MinMaxScaler :=
  X <- check_array data ;;
  match X with
  | [] => Raise (ValueError "Found array with 0 sample(s) while a minimum of 1 is required")
  | x :: xs =>
      let lo := list_min x xs in
      let hi := list_max x xs in
      let sc := (1 - 0) / handle_zeros_in_scale (hi - lo) in
      Ok {| data_min_ := lo; data_max_ := hi; scale_ := sc; min_ := 0 - lo * sc |}
  end.

(** [X * scale_ + min_] *)
Definition transform (s : MinMaxScaler) (data : list Q) : result (list Q) :=
  X <- check_array data ;;
  Ok (map (fun x => x * scale_ s + min_ s) X).

(** [(X - min_) / scale_] *)
Definition inverse_transform (s : MinMaxScaler) (data : list Q) : result (list Q) :=
  X <- check_array data ;;
  Ok (map (fun x => (x - min_ s) / scale_ s) X).

(** [DataPreprocessor]: [scaler] is the target scaler; [None] until fitted. *)
Record DataPreprocessor : Type := mkPre {
  scaler : option MinMaxScaler
}.

Definition init : DataPreprocessor := {| scaler := None |}.

(** [scale_features(data, fit)]: returns the updated preprocessor and the
    scaled column. *)
Definition scale_features (self : DataPreprocessor) (data : list Q) (do_fit : bool)
  : result (DataPreprocessor * list Q) :=
  if do_fit then
    s <- fit data ;;
    scaled <- transform s data ;;
    Ok ({| scaler := Some s |}, scaled)
  else
    match scaler self with
    | None => Raise NotFittedError
    | Some s => scaled <- transform s data ;; Ok (self, scaled)
    end.

Definition inverse_scale (self : DataPreprocessor) (data : list Q) : result (list Q) :=
  match scaler self with
  | None => Raise NotFittedError
  | Some s => inverse_transform s data
  end.

Lemma handle_zeros_nonzero (r : Q) : ~ handle_zeros_in_scale r == 0.
Proof.
  unfold handle_zeros_in_scale.
  destruct (Qeq_bool r 0) eqn:E.
  - intro H. discriminate H.
  - apply Qeq_bool_neq. exact E.
Qed.

Lemma fit_scale_nonzero (data : list Q) (s : MinMaxScaler) :
  fit data = Ok s -> ~ scale_ s == 0.
Proof.
  destruct data as [|x xs]; simpl; intro H; [discriminate|].
  injection H as <-. simpl.
  set (r := handle_zeros_in_scale _).
  pose proof (handle_zeros_nonzero (list_max x xs - list_min x xs)) as Hr.
  fold r in Hr. intro H0.
  apply Hr.
  assert (Hq : (1 - 0) / r * r == 1) by (field; exact Hr).
  rewrite H0 in Hq. lra.
Qed.

Lemma fit_nonempty (data : list Q) :
  data <> [] -> exists s, fit data = Ok s.
Proof.
  destruct data as [|x xs]; [congruence|]. intros _. simpl. now eexists.
Qed.

Lemma transform_length (s : MinMaxScaler) (data scaled : list Q) :
  transform s data = Ok scaled -> length scaled = length data.
Proof.
  unfold transform. destruct data; simpl; [discriminate|].
  intro H. injection H as <-. simpl. now rewrite length_map.
Qed.

Lemma inverse_transform_length (s : MinMaxScaler) (data back : list Q) :
  inverse_transform s data = Ok back -> length back = length data.
Proof.
  unfold inverse_transform. destruct data; simpl; [discriminate|].
  intro H. injection H as <-. simpl. now rewrite length_map.
Qed.

Lemma inverse_transform_transform (s : MinMaxScaler) (data : list Q) :
  ~ scale_ s == 0 ->
  data <> [] ->
  exists scaled back,
    transform s data = Ok scaled /\
    inverse_transform s scaled = Ok back /\
    Forall2 Qeq back data.
Proof.
  intros Hs Hne.
  assert (Hmap : Forall2 Qeq
            (map (fun x => (x - min_ s) / scale_ s)
                 (map (fun x => x * scale_ s + min_ s) data)) data).
  { clear Hne. induction data as [|x xs IH]; simpl; constructor; [|exact IH].
    field. exact Hs. }
  destruct data as [|x xs]; [congruence|].
  do 2 eexists. split; [reflexivity|]. split; [reflexivity|]. exact Hmap.
Qed.

(** C9.  A target scaler fitted on a (non-empty) series maps the series back
    to itself: [inverse_scale] after [scale_features(series, fit=True)]
    returns every element of the series (exactly, in rational arithmetic). *)
Theorem scaler_round_trip (self : DataPreprocessor) (series : list Q) :
  series <> [] ->
  exists self' scaled back,
    scale_features self series true = Ok (self', scaled) /\
    inverse_scale self' scaled = Ok back /\
    length back = length series /\
    Forall2 Qeq back series.
Proof.
  intro Hne. unfold scale_features.
  destruct (fit_nonempty series Hne) as [s Hfit]. rewrite Hfit. cbn [bind].
  pose proof (fit_scale_nonzero series s Hfit) as Hs.
  destruct (inverse_transform_transform s series Hs Hne) as (scaled & back & Ht & Hi & Heq).
  exists {| scaler := Some s |}, scaled, back.
  rewrite Ht. cbn [bind]. unfold inverse_scale. cbn [scaler].
  repeat split; try assumption.
  rewrite (inverse_transform_length s scaled back Hi).
  apply (transform_length s series scaled Ht).
Qed.

Lemma scaler_round_trip_witness :
  exists self' scaled back,
    scale_features init [100; 250; 175] true = Ok (self', scaled) /\
    inverse_scale self' scaled = Ok back /\
    length back = length [100; 250; 175] /\
    Forall2 Qeq back [100; 250; 175].
Proof.
  apply (scaler_round_trip init [100; 250; 175]). discriminate.
Defined.

(** A constant series is scaled to zeros and comes back unchanged. *)
Example constant_series_example :
  exists self' scaled back,
    scale_features init [7; 7] true = Ok (self', scaled) /\
    Forall2 Qeq scaled [0; 0] /\
    inverse_scale self' scaled = Ok back /\
    Forall2 Qeq back [7; 7].
Proof.
  do 3 eexists.
  split; [vm_compute; reflexivity|].
  split; [repeat constructor|].
  split; [vm_compute; reflexivity | repeat constructor].
Qed.

(** The scaler cannot be used before it is fitted, nor on an empty column. *)
Example unfitted_scaler_example :
  scale_features init [1; 2] false = Raise NotFittedError /\
  inverse_scale init [1; 2] = Raise NotFittedError /\
  is_raise (scale_features init [] true) = true.
Proof. repeat split. Qed.

End Preprocessor.

(* ================================================================= *)
(** ** models/lstm_model.py, models/lstm_model_lite.py: multi-step rollout *)

Module Rollout.

(** A numpy two-dimensional array.  numpy arrays are rectangular, so the
    column count is part of the value (also when there is no row). *)
Record ndarray2 : Type := mk2d {
  ncols : nat;
  rows : list (list Q)
}.

Definition wf2d (a : ndarray2) : Prop :=
  Forall (fun r => length r = ncols a) (rows a).

Definition has_shape (a : ndarray2) (r c : nat) : Prop :=
  length (rows a) = r /\ ncols a = c /\ wf2d a.

Definition size (a : ndarray2) : nat := (length (rows a) * ncols a)%nat.

(** Row-major contents, as [reshape] reads them. *)
Definition flatten (a : ndarray2) : list Q := concat (rows a).

(** [new_row[0, 1:] = v] on a row of [nf] columns: [v] must have [nf - 1]
    entries, or a single one that numpy broadcasts. *)
Definition assign_tail (nf : nat) (v : list Q) : result (list Q) :=
  let k := (nf - 1)%nat in
  if Nat.eqb (length v) k then Ok v
  else if Nat.eqb (length v) 1 then Ok (repeat (hd 0 v) k)
  else Raise (ValueError "could not broadcast input array").

(** [current_sequence[-1, 1:]]. *)
Definition last_row_tail (cur : ndarray2) : result (list Q) :=
  match rows cur with
  | [] => Raise (IndexError "index -1 is out of bounds for axis 0 with size 0")
  | _ => Ok (tl (last (rows cur) []))
  end.

(** One iteration of the loop of [predict_sequence]; the loop state is the
    current window and the predictions made so far.  [predict_one] is the
    one-step prediction of the variant at hand. *)
Definition rollout_body (predict_one : ndarray2 -> result Q) (nf : nat)
  (features : option (list (list Q))) (i : nat) (st : ndarray2 * list Q)
  : result (ndarray2 * list Q) :=
  let '(cur, preds) := st in
  pred <- predict_one cur ;;
  if Nat.eqb nf 0 then Raise (IndexError "index 0 is out of bounds for axis 1 with size 0")
  else
    cov <- match features with
           | Some fs =>
               if Nat.ltb i (length fs) then assign_tail nf (nth i fs [])
               else (v <- last_row_tail cur ;; assign_tail nf v)
           | None => v <- last_row_tail cur ;; assign_tail nf v
           end ;;
    if Nat.eqb (ncols cur) nf
    then Ok (mk2d nf (tl (rows cur) ++ [pred :: cov]), preds ++ [pred])
    else Raise (ValueError "all the input array dimensions except for the concatenation axis must match exactly").

Definition rollout_state (predict_one : ndarray2 -> result Q) (nf : nat)
  (features : option (list (list Q))) (n : nat) (init : ndarray2)
  : result (ndarray2 * list Q) :=
  for_range (rollout_body predict_one nf features) 0 n (init, []).

(** The rollout in the words of the specification (section 4.2): predict one
    step, append the prediction as the new last row of the window (with the
    provided future covariates if there are any for that step, otherwise
    with the covariates of the last row), drop the oldest row, repeat. *)
Definition covariates_spec (features : option (list (list Q))) (i : nat)
  (w : list (list Q)) : list Q :=
  let known := tl (last w []) in
  match features with
  | Some fs => match nth_error fs i with Some c => c | None => known end
  | None => known
  end.

Definition next_window_spec (f : list (list Q) -> Q)
  (features : option (list (list Q))) (i : nat) (w : list (list Q))
  : list (list Q) :=
  tl w ++ [f w :: covariates_spec features i w].

(** The values forecast in [n] steps from the window [w], at step index [i]. *)
Fixpoint rollout_spec (f : list (list Q) -> Q) (features : option (list (list Q)))
  (i n : nat) (w : list (list Q)) : list Q :=
  match n with
  | O => []
  | S n' => f w :: rollout_spec f features (S i) n' (next_window_spec f features i w)
  end.

(** The window after those [n] steps. *)
Fixpoint window_spec (f : list (list Q) -> Q) (features : option (list (list Q)))
  (i n : nat) (w : list (list Q)) : list (list Q) :=
  match n with
  | O => w
  | S n' => window_spec f features (S i) n' (next_window_spec f features i w)
  end.

Definition features_ok (nf : nat) (features : option (list (list Q))) : Prop :=
  match features with
  | Some fs => Forall (fun c => length c = (nf - 1)%nat) fs
  | None => True
  end.

End Rollout.

Module LSTM.
Import Rollout.

(** [LSTMForecaster] of lstm_model.py.  [model] is the compiled keras network,
    read as a function of the row-major contents of a
    [(1, sequence_length, n_features)] input; [None] before training. *)
Record LSTMForecaster : Type := mkLSTM {
  sequence_length : nat;
  n_features : nat;
  model : option (list Q -> Q)
}.

(** [self.model.predict(current_sequence.reshape(1, sequence_length, n_features))[0, 0]] *)
Definition predict_one (self : LSTMForecaster) (net : list Q -> Q) (cur : ndarray2)
  : result Q :=
  if Nat.eqb (size cur) (sequence_length self * n_features self)
  then Ok (net (flatten cur))
  else Raise (ValueError "cannot reshape array").

Definition predict_sequence (self : LSTMForecaster) (initial_sequence : ndarray2)
  (n_steps : nat) (features : option (list (list Q))) : result (list Q) :=
  match model self with
  | None => Raise (ValueError "Model not trained yet!")
  | Some net =>
      st <- rollout_state (predict_one self net) (n_features self) features
              n_steps initial_sequence ;;
      Ok (snd st)
  end.

(** [predict(X)] on a batch of windows. *)
Definition predict (self : LSTMForecaster) (X : list ndarray2) : result (list Q) :=
  match model self with
  | None => Raise (ValueError "Model not trained yet!")
  | Some net => Ok (map (fun w => net (flatten w)) X)
  end.

End LSTM.

Module LSTMLite.
Import Rollout.

(** sklearn's fitted [StandardScaler]: per-column mean and scale. *)
Record StandardScaler : Type := mkStd {
  mean_ : list Q;
  std_scale_ : list Q
}.

(** [(x - mean_) / scale_], column by column. *)
Definition standardise (sc : StandardScaler) (x : list Q) : list Q :=
  zip_with (fun xi ms => (xi - fst ms) / snd ms) x (combine (mean_ sc) (std_scale_ sc)).

(** [scaler.transform] on one row: the row must have the width seen by [fit]. *)
Definition std_transform (s : StandardScaler) (x : list Q) : result (list Q) :=
  if Nat.eqb (length x) 0
  then Raise (ValueError "Found array with 0 feature(s) while a minimum of 1 is required")
  else if Nat.eqb (length x) (length (mean_ s))
  then Ok (standardise s x)
  else Raise (ValueError "X has a different number of features than StandardScaler is expecting").

(** [LSTMForecaster] of lstm_model_lite.py: an MLP regressor over the
    flattened, standardised window. *)
Record LSTMForecaster : Type := mkLite {
  sequence_length : nat;
  n_features : nat;
  model : option (list Q -> Q);
  scaler : option StandardScaler
}.

(** [self.model.predict(self.scaler.transform(current_sequence.reshape(1, -1)))[0]] *)
Definition predict_one (self : LSTMForecaster) (mlp : list Q -> Q) (cur : ndarray2)
  : result Q :=
  match scaler self with
  | None => Raise NotFittedError
  | Some sc => x <- std_transform sc (flatten cur) ;; Ok (mlp x)
  end.

Definition predict_sequence (self : LSTMForecaster) (initial_sequence : ndarray2)
  (n_steps : nat) (features : option (list (list Q))) : result (list Q) :=
  match model self with
  | None => Raise (ValueError "Model not trained yet!")
  | Some mlp =>
      st <- rollout_state (predict_one self mlp) (n_features self) features
              n_steps initial_sequence ;;
      Ok (snd st)
  end.

Definition predict (self : LSTMForecaster) (X : list ndarray2) : result (list Q) :=
  match model self with
  | None => Raise (ValueError "Model not trained yet!")
  | Some mlp =>
      match scaler self with
      | None => Raise NotFittedError
      | Some sc =>
          match X with
          | [] => Raise (ValueError "Found array with 0 sample(s) while a minimum of 1 is required")
          | _ =>
              fold_right (fun w acc => x <- std_transform sc (flatten w) ;;
                                       r <- acc ;; Ok (mlp x :: r)) (Ok []) X
          end
      end
  end.

End LSTMLite.

(** *** The rollout computes what the specification describes *)

Module RolloutFacts.
Import Rollout.

Section Generic.
Variable predict_one : ndarray2 -> result Q.
Variable f : list (list Q) -> Q.
Variables seq nf : nat.
Variable features : option (list (list Q)).
Hypothesis seq_pos : (1 <= seq)%nat.
Hypothesis nf_pos : (1 <= nf)%nat.
Hypothesis feats : features_ok nf features.
Hypothesis predict_one_shape :
  forall c, has_shape c seq nf -> predict_one c = Ok (f (rows c)).

Lemma assign_tail_exact (v : list Q) :
  length v = (nf - 1)%nat -> assign_tail nf v = Ok v.
Proof.
  intro H. unfold assign_tail. now rewrite H, Nat.eqb_refl.
Qed.

Lemma last_in_Forall {A : Type} (P : A -> Prop) (l : list A) (d : A) :
  l <> [] -> Forall P l -> P (last l d).
Proof.
  intros Hne HF. induction l as [|x l IH]; [congruence|].
  inversion HF as [|? ? Hx Hl]; subst.
  destruct l as [|y l']; [exact Hx|].
  change (P (last (y :: l') d)). apply IH; [discriminate | exact Hl].
Qed.

Lemma last_row_tail_shape (cur : ndarray2) :
  has_shape cur seq nf ->
  last_row_tail cur = Ok (tl (last (rows cur) [])) /\
  length (tl (last (rows cur) [])) = (nf - 1)%nat.
Proof.
  intros (Hr & Hc & Hwf). unfold last_row_tail.
  destruct (rows cur) as [|r rs] eqn:E.
  - simpl in Hr. lia.
  - split; [reflexivity|].
    assert (Hl : length (last (r :: rs) []) = ncols cur).
    { apply (last_in_Forall (fun r => length r = ncols cur)); [discriminate|].
      unfold wf2d in Hwf. now rewrite E in Hwf. }
    destruct (last (r :: rs) []); simpl in *; lia.
Qed.

Lemma spec_cov_length (i : nat) (cur : ndarray2) :
  has_shape cur seq nf -> length (covariates_spec features i (rows cur)) = (nf - 1)%nat.
Proof.
  intro Hs. unfold covariates_spec.
  destruct features as [fs|]; [|apply (last_row_tail_shape cur Hs)].
  destruct (nth_error fs i) as [c|] eqn:E; [|apply (last_row_tail_shape cur Hs)].
  simpl in feats. rewrite Forall_forall in feats.
  apply feats. eapply nth_error_In; eauto.
Qed.

Lemma spec_next_shape (i : nat) (cur : ndarray2) :
  has_shape cur seq nf -> has_shape (mk2d nf (next_window_spec f features i (rows cur))) seq nf.
Proof.
  intro Hs. pose proof (spec_cov_length i cur Hs) as Hcov.
  destruct Hs as (Hr & Hc & Hwf).
  unfold has_shape, wf2d, next_window_spec; simpl. repeat split.
  - rewrite length_app. simpl.
    destruct (rows cur); simpl in *; lia.
  - apply Forall_app. split.
    + unfold wf2d in Hwf. rewrite Hc in Hwf.
      destruct (rows cur); simpl; [constructor|]. now inversion Hwf.
    + constructor; [|constructor]. simpl. lia.
Qed.

Lemma rollout_body_step (i : nat) (cur : ndarray2) (preds : list Q) :
  has_shape cur seq nf ->
  rollout_body predict_one nf features i (cur, preds)
  = Ok (mk2d nf (next_window_spec f features i (rows cur)), preds ++ [f (rows cur)]).
Proof.
  intro Hs. unfold rollout_body.
  rewrite (predict_one_shape cur Hs). simpl.
  destruct (Nat.eqb_spec nf 0) as [H0|_]; [lia|].
  destruct (last_row_tail_shape cur Hs) as [Hlast Hlen].
  assert (Hcov : match features with
                 | Some fs =>
                     if Nat.ltb i (length fs) then assign_tail nf (nth i fs [])
                     else (v <- last_row_tail cur ;; assign_tail nf v)
                 | None => v <- last_row_tail cur ;; assign_tail nf v
                 end = Ok (covariates_spec features i (rows cur))).
  { unfold covariates_spec. destruct features as [fs|].
    - destruct (Nat.ltb_spec i (length fs)) as [Hlt|Hge].
      + rewrite (nth_error_nth' fs [] Hlt).
        apply assign_tail_exact.
        simpl in feats. rewrite Forall_forall in feats.
        apply feats. now apply nth_In.
      + apply nth_error_None in Hge. rewrite Hge, Hlast. simpl.
        now apply assign_tail_exact.
    - rewrite Hlast. simpl. now apply assign_tail_exact. }
  rewrite Hcov. simpl.
  destruct Hs as (_ & Hc & _). rewrite Hc, Nat.eqb_refl. reflexivity.
Qed.

Lemma for_range_rollout (n i : nat) (cur : ndarray2) (preds : list Q) :
  has_shape cur seq nf ->
  for_range (rollout_body predict_one nf features) i n (cur, preds)
  = Ok (mk2d nf (window_spec f features i n (rows cur)),
        preds ++ rollout_spec f features i n (rows cur)) /\
  has_shape (mk2d nf (window_spec f features i n (rows cur))) seq nf.
Proof.
  revert i cur preds. induction n as [|n IH]; intros i cur preds Hs.
  - cbn [for_range window_spec rollout_spec]. rewrite app_nil_r.
    destruct cur as [c rs]. destruct Hs as (Hr & Hc & Hwf). cbn [ncols rows] in *.
    subst c. split; [reflexivity|]. now repeat split.
  - cbn [for_range]. rewrite (rollout_body_step i cur preds Hs). cbn [bind].
    destruct (IH (S i) _ (preds ++ [f (rows cur)]) (spec_next_shape i cur Hs))
      as (Heq & Hs').
    cbn [rows] in Heq, Hs'. rewrite Heq.
    cbn [rollout_spec window_spec]. rewrite <- app_assoc.
    split; [reflexivity | exact Hs'].
Qed.

Lemma rollout_spec_length (n i : nat) (w : list (list Q)) :
  length (rollout_spec f features i n w) = n.
Proof.
  revert i w. induction n as [|n IH]; intros i w; simpl; [reflexivity|].
  now rewrite IH.
Qed.

Lemma rollout_state_ok (n : nat) (init : ndarray2) :
  has_shape init seq nf ->
  rollout_state predict_one nf features n init
  = Ok (mk2d nf (window_spec f features 0 n (rows init)),
        rollout_spec f features 0 n (rows init)) /\
  has_shape (mk2d nf (window_spec f features 0 n (rows init))) seq nf.
Proof.
  intro Hs. unfold rollout_state.
  exact (for_range_rollout n 0 init [] Hs).
Qed.

End Generic.
End RolloutFacts.

(** *** The two interchangeable sequence forecasters *)

Module SequenceForecaster.
Import Rollout.

(** The forecaster in use is one of the two [LSTMForecaster] classes. *)
Inductive t : Type :=
| Full (m : LSTM.LSTMForecaster)
| Lite (m : LSTMLite.LSTMForecaster).

Definition sequence_length (fc : t) : nat :=
  match fc with
  | Full m => LSTM.sequence_length m
  | Lite m => LSTMLite.sequence_length m
  end.

Definition n_features (fc : t) : nat :=
  match fc with
  | Full m => LSTM.n_features m
  | Lite m => LSTMLite.n_features m
  end.

(** [self.model is not None] *)
Definition has_model (fc : t) : bool :=
  match fc with
  | Full m => match LSTM.model m with Some _ => true | None => false end
  | Lite m => match LSTMLite.model m with Some _ => true | None => false end
  end.

Definition predict_sequence (fc : t) (initial_sequence : ndarray2) (n_steps : nat)
  (features : option (list (list Q))) : result (list Q) :=
  match fc with
  | Full m => LSTM.predict_sequence m initial_sequence n_steps features
  | Lite m => LSTMLite.predict_sequence m initial_sequence n_steps features
  end.

Definition predict (fc : t) (X : list ndarray2) : result (list Q) :=
  match fc with
  | Full m => LSTM.predict m X
  | Lite m => LSTMLite.predict m X
  end.

(** The loop state of [predict_sequence] after [k] iterations. *)
Definition state_after (fc : t) (features : option (list (list Q))) (k : nat)
  (init : ndarray2) : result (ndarray2 * list Q) :=
  match fc with
  | Full m =>
      match LSTM.model m with
      | Some net => rollout_state (LSTM.predict_one m net) (LSTM.n_features m) features k init
      | None => Raise (ValueError "Model not trained yet!")
      end
  | Lite m =>
      match LSTMLite.model m with
      | Some mlp => rollout_state (LSTMLite.predict_one m mlp) (LSTMLite.n_features m) features k init
      | None => Raise (ValueError "Model not trained yet!")
      end
  end.

(** The one-step regressor of a trained forecaster, as a function of the
    window's rows. *)
Definition one_step (fc : t) : option (list (list Q) -> Q) :=
  match fc with
  | Full m =>
      match LSTM.model m with
      | Some net => Some (fun w => net (concat w))
      | None => None
      end
  | Lite m =>
      match LSTMLite.model m, LSTMLite.scaler m with
      | Some mlp, Some sc => Some (fun w => mlp (LSTMLite.standardise sc (concat w)))
      | _, _ => None
      end
  end.

(** The light variant's input scaler was fitted on flattened windows of shape
    [(sequence_length, n_features)]. *)
Definition fitted_on_shape (fc : t) : Prop :=
  match fc with
  | Full _ => True
  | Lite m =>
      match LSTMLite.scaler m with
      | Some sc => length (LSTMLite.mean_ sc)
                   = (LSTMLite.sequence_length m * LSTMLite.n_features m)%nat
      | None => True
      end
  end.

Lemma flatten_length (a : ndarray2) :
  wf2d a -> length (flatten a) = size a.
Proof.
  unfold wf2d, flatten, size. destruct a as [c rs]. simpl.
  induction rs as [|r rs IH]; intro H; simpl; [reflexivity|].
  inversion H; subst. rewrite length_app, IH by assumption. lia.
Qed.

Lemma one_step_shape (fc : t) (f : list (list Q) -> Q) :
  one_step fc = Some f -> fitted_on_shape fc ->
  (1 <= sequence_length fc)%nat -> (1 <= n_features fc)%nat ->
  match fc with
  | Full m => exists net, LSTM.model m = Some net /\
      forall c, has_shape c (sequence_length fc) (n_features fc) ->
                LSTM.predict_one m net c = Ok (f (rows c))
  | Lite m => exists mlp, LSTMLite.model m = Some mlp /\
      forall c, has_shape c (sequence_length fc) (n_features fc) ->
                LSTMLite.predict_one m mlp c = Ok (f (rows c))
  end.
Proof.
  destruct fc as [m|m]; simpl; intros Hf Hw Hseq Hnf.
  - destruct (LSTM.model m) as [net|]; [|discriminate].
    injection Hf as <-. exists net. split; [reflexivity|].
    intros c (Hr & Hc & _). unfold LSTM.predict_one, size.
    now rewrite Hr, Hc, Nat.eqb_refl.
  - destruct (LSTMLite.model m) as [mlp|]; [|discriminate].
    unfold LSTMLite.predict_one.
    destruct (LSTMLite.scaler m) as [sc|]; [|discriminate].
    injection Hf as <-. exists mlp. split; [reflexivity|].
    intros c (Hr & Hc & Hwf). unfold LSTMLite.std_transform.
    rewrite (flatten_length c Hwf). unfold size. rewrite Hr, Hc.
    destruct (Nat.eqb_spec (LSTMLite.sequence_length m * LSTMLite.n_features m) 0)
      as [H0|_]; [nia|].
    now rewrite Hw, Nat.eqb_refl.
Qed.


(** A two-row, two-column window rolled out three steps by the full variant,
    with the sum of the window as the network. *)
Definition demo_forecaster : t :=
  Full {| LSTM.sequence_length := 2; LSTM.n_features := 2;
          LSTM.model := Some sumQ |}.

Definition demo_window : ndarray2 := mk2d 2 [[1; 5]; [2; 7]].


(** The window [[1, 5], [2, 7]] becomes [[2, 7], [15, 7]], then
    [[15, 7], [31, 7]]: the covariate 7 of the last row is repeated. *)
Example rollout_example :
  predict_sequence demo_forecaster demo_window 3 None = Ok [15; 31; 60] /\
  state_after demo_forecaster None 1 demo_window
    = Ok (mk2d 2 [[2; 7]; [15; 7]], [15]) /\
  state_after demo_forecaster None 2 demo_window
    = Ok (mk2d 2 [[15; 7]; [31; 7]], [15; 31]).
Proof. repeat split. Qed.

(** A covariate is known for the first step only: it is used there, and it
    is the one repeated afterwards. *)
Example rollout_with_covariates_example :
  predict_sequence demo_forecaster demo_window 3 (Some [[9]]) = Ok [15; 33; 66].
Proof. reflexivity. Qed.

(** A window of another shape is rejected by the reshape. *)
Example rollout_bad_shape_example :
  predict_sequence demo_forecaster (mk2d 3 [[1; 2; 3]]) 3 None
    = Raise (ValueError "cannot reshape array").
Proof. reflexivity. Qed.

Definition demo_lite_forecaster : t :=
  Lite {| LSTMLite.sequence_length := 2; LSTMLite.n_features := 2;
          LSTMLite.model := Some sumQ;
          LSTMLite.scaler := Some (LSTMLite.mkStd [1; 1; 1; 1] [2; 2; 2; 2]) |}.

Example rollout_lite_example :
  exists l,
    predict_sequence demo_lite_forecaster demo_window 3 (Some [[9]]) = Ok l /\
    Forall2 Qeq l [11 # 2; 39 # 4; 117 # 8].
Proof.
  eexists. split; [vm_compute; reflexivity|]. repeat constructor.
Qed.

End SequenceForecaster.

(* ================================================================= *)
(** ** models/prophet_model.py: the trend forecaster *)

Module Prophet.

Record ForecastRow : Type := mkRow {
  ds : Z;
  yhat : Q;
  yhat_lower : Q;
  yhat_upper : Q
}.

(** The Prophet library object: [make_future_dataframe(periods)] lists the
    dates to predict and [predict(future)] returns one forecast per date, or
    raises. *)
Record ProphetModel : Type := mkProphet {
  make_future_dataframe : nat -> list Z;
  predict_frame : list Z -> result (list ForecastRow)
}.

Record ProphetForecaster : Type := mkForecaster {
  model : option ProphetModel;
  fitted : bool
}.

Definition init : ProphetForecaster := {| model := None; fitted := false |}.

Definition predict (self : ProphetForecaster) (periods : nat)
  : result (list ForecastRow) :=
  if negb (fitted self) then Raise (ValueError "Model not trained yet!")
  else
    match model self with
    | None => Raise (AttributeError "'NoneType' object has no attribute 'make_future_dataframe'")
    | Some m => predict_frame m (make_future_dataframe m periods)
    end.

(** Only the future rows, with the columns [ds, yhat, yhat_lower, yhat_upper]. *)
Definition predict_future (self : ProphetForecaster) (periods : nat)
  : result (list ForecastRow) :=
  forecast <- predict self periods ;;
  Ok (tail periods forecast).

End Prophet.

(* ================================================================= *)
(** ** models/ensemble_predictor.py: the combiner *)

Module Forecast.
(** The result table of [predict], column by column. *)
Record t : Type := mk {
  timestamp : list Z;
  predicted_demand : list Q;
  lower_bound : list Q;
  upper_bound : list Q;
  lstm_prediction : list Q;
  prophet_prediction : list Q
}.

(** [pd.DataFrame({...})]: all columns must have the same length. *)
Definition make (ts : list Z) (pd lo hi lp pp : list Q) : result t :=
  let n := length ts in
  if (Nat.eqb (length pd) n && Nat.eqb (length lo) n && Nat.eqb (length hi) n
      && Nat.eqb (length lp) n && Nat.eqb (length pp) n)%bool
  then Ok (mk ts pd lo hi lp pp)
  else Raise (ValueError "All arrays must be of the same length").

(** The table with the [confidence] column added. *)
Record with_confidence : Type := mkC {
  table : t;
  confidence : list xfloat
}.
End Forecast.

Module Ensemble.
Import Rollout.

Record EnsemblePredictor : Type := mkEnsemble {
  lstm_model : LSTM.LSTMForecaster;
  prophet_model : Prophet.ProphetForecaster;
  preprocessor : Preprocessor.DataPreprocessor;
  weights : Config.Weights;
  trained : bool
}.

(** [try: ... except Exception: x = None] *)
Definition try_or_none {A : Type} (c : result (option A)) : option A :=
  match c with
  | Ok v => v
  | Raise _ => None
  end.

Definition some_of {A : Type} (c : result A) : result (option A) :=
  a <- c ;; Ok (Some a).

(** Lines 92-110 of [predict]: the point forecast and its uncertainty from
    the two optional forecasts. *)
Definition combine (w : Config.Weights) (lstm_pred prophet_pred : option (list Q))
  : result (list Q * list Q) :=
  match lstm_pred, prophet_pred with
  | Some l, Some p =>
      ensemble_pred <- np_binop Qplus (np_scale (Config.lstm w) l)
                                      (np_scale (Config.prophet w) p) ;;
      diff <- np_binop Qminus l p ;;
      let disagreement := np_abs diff in
      Ok (ensemble_pred, np_rscale disagreement 0.5)
  | Some l, None => Ok (l, np_rscale l 0.1)
  | None, Some p => Ok (p, np_rscale p 0.1)
  | None, None => Raise (ValueError "Both models failed to predict!")
  end.

Definition future_timestamps (last_timestamp : Z) (hours_ahead : nat) : list Z :=
  map (fun i => (last_timestamp + Z.of_nat (i + 1))%Z) (seq 0 hours_ahead).

Definition or_else {A : Type} (o : option A) (d : A) : A :=
  match o with Some a => a | None => d end.

(** [confidence = 100 * (1 - (upper - lower) / (2 * predicted))], clipped
    to [[0, 100]], for one row. *)
Definition confidence_of (predicted lower upper : Q) : xfloat :=
  xclip 0 100
    (xmul (Fin 100)
       (xsub (Fin 1) (xdiv (Fin (upper - lower)) (Fin (2 * predicted))))).

Fixpoint zip_with3 {A B C D : Type} (f : A -> B -> C -> D)
  (xs : list A) (ys : list B) (zs : list C) : list D :=
  match xs, ys, zs with
  | x :: xs', y :: ys', z :: zs' => f x y z :: zip_with3 f xs' ys' zs'
  | _, _, _ => []
  end.

Section Predictor.

(** [DataPreprocessor.prepare_lstm_data]: feature engineering and windowing
    of the table; returns the windows [X] and the preprocessor whose target
    scaler it has just fitted.  The combiner is studied for every such
    function. *)
Variable prepare_lstm_data :
  Preprocessor.DataPreprocessor -> DataFrame ->
  result (list ndarray2 * Preprocessor.DataPreprocessor).

Definition predict_lstm (self : EnsemblePredictor) (df : DataFrame)
  (hours_ahead : nat) : result (option (list Q)) :=
  '(X, pp) <- prepare_lstm_data (preprocessor self) df ;;
  match X with
  | [] => Ok None
  | _ =>
      let last_sequence := last X (mk2d 0 []) in
      predictions <- LSTM.predict_sequence (lstm_model self) last_sequence
                       hours_ahead None ;;
      predictions_scaled <- Preprocessor.inverse_scale pp predictions ;;
      Ok (Some predictions_scaled)
  end.

Definition predict_prophet (self : EnsemblePredictor) (hours_ahead : nat)
  : result (list Q) :=
  forecast <- Prophet.predict_future (prophet_model self) hours_ahead ;;
  Ok (map Prophet.yhat forecast).

Definition predict (self : EnsemblePredictor) (df : DataFrame) (hours_ahead : nat)
  : result Forecast.t :=
  if negb (trained self) then Raise (ValueError "Models not trained yet!")
  else
    let lstm_pred := try_or_none (predict_lstm self df hours_ahead) in
    let prophet_pred := try_or_none (some_of (predict_prophet self hours_ahead)) in
    '(ensemble_pred, uncertainty) <- combine (weights self) lstm_pred prophet_pred ;;
    last_timestamp <- iloc_last (timestamp df) 0%Z ;;
    lower <- np_binop Qminus ensemble_pred uncertainty ;;
    upper <- np_binop Qplus ensemble_pred uncertainty ;;
    Forecast.make (future_timestamps last_timestamp hours_ahead)
      ensemble_pred lower upper
      (or_else lstm_pred ensemble_pred)
      (or_else prophet_pred ensemble_pred).

Definition predict_with_confidence (self : EnsemblePredictor) (df : DataFrame)
  (hours_ahead : nat) : result Forecast.with_confidence :=
  predictions <- predict self df hours_ahead ;;
  Ok (Forecast.mkC predictions
        (zip_with3 confidence_of
           (Forecast.predicted_demand predictions)
           (Forecast.lower_bound predictions)
           (Forecast.upper_bound predictions))).


(** *** Facts about the combiner *)

Lemma rollout_body_length (step : ndarray2 -> result Q) (nf : nat)
  (features : option (list (list Q))) (i : nat) (cur cur' : ndarray2)
  (preds preds' : list Q) :
  rollout_body step nf features i (cur, preds) = Ok (cur', preds') ->
  length preds' = S (length preds).
Proof.
  unfold rollout_body.
  destruct (step cur) as [pr|]; simpl; [|discriminate].
  destruct (Nat.eqb nf 0); [discriminate|].
  match goal with |- context [bind ?c _] => destruct c as [cov|] end;
    simpl; [|discriminate].
  destruct (Nat.eqb (ncols cur) nf); [|discriminate].
  intro H. injection H as _ <-. rewrite length_app. simpl. lia.
Qed.

Lemma for_range_rollout_length (step : ndarray2 -> result Q) (nf : nat)
  (features : option (list (list Q))) (n i : nat) (cur cur' : ndarray2)
  (preds preds' : list Q) :
  for_range (rollout_body step nf features) i n (cur, preds) = Ok (cur', preds') ->
  length preds' = (length preds + n)%nat.
Proof.
  revert i cur preds. induction n as [|n IH]; intros i cur preds; cbn [for_range].
  - intro H. injection H as _ <-. lia.
  - destruct (rollout_body step nf features i (cur, preds)) as [[c1 p1]|] eqn:E;
      cbn [bind]; [|discriminate].
    intro H. apply IH in H. apply rollout_body_length in E. lia.
Qed.

Lemma predict_sequence_length (m : LSTM.LSTMForecaster) (w : ndarray2) (n : nat)
  (features : option (list (list Q))) (l : list Q) :
  LSTM.predict_sequence m w n features = Ok l -> length l = n.
Proof.
  unfold LSTM.predict_sequence, rollout_state.
  destruct (LSTM.model m) as [net|]; [|discriminate].
  match goal with |- context [bind ?c _] => destruct c as [[c1 p1]|] eqn:E end;
    cbn [bind]; [|discriminate].
  intro H. injection H as <-. apply for_range_rollout_length in E. simpl in *. lia.
Qed.

Lemma predict_lstm_length (self : EnsemblePredictor) (df : DataFrame) (h : nat)
  (l : list Q) :
  predict_lstm self df h = Ok (Some l) -> length l = h.
Proof.
  unfold predict_lstm.
  destruct (prepare_lstm_data (preprocessor self) df) as [[X pp]|]; cbn [bind];
    [|discriminate].
  destruct X as [|x X]; [discriminate|].
  destruct (LSTM.predict_sequence _ _ _ _) as [ps|] eqn:E; cbn [bind]; [|discriminate].
  destruct (Preprocessor.inverse_scale pp ps) as [back|] eqn:Ei; cbn [bind];
    [|discriminate].
  intro H. injection H as <-.
  unfold Preprocessor.inverse_scale in Ei.
  destruct (Preprocessor.scaler pp) as [s|]; [|discriminate].
  rewrite (Preprocessor.inverse_transform_length s ps back Ei).
  eapply predict_sequence_length; eauto.
Qed.

Lemma future_timestamps_length (t0 : Z) (h : nat) :
  length (future_timestamps t0 h) = h.
Proof.
  unfold future_timestamps. now rewrite length_map, length_seq.
Qed.

(** What [predict] returns once the combination has succeeded with columns
    of the requested length. *)
Lemma predict_of_combine (self : EnsemblePredictor) (df : DataFrame) (h : nat)
  (ens unc : list Q) :
  trained self = true ->
  timestamp df <> [] ->
  combine (weights self)
    (try_or_none (predict_lstm self df h))
    (try_or_none (some_of (predict_prophet self h))) = Ok (ens, unc) ->
  length ens = h -> length unc = h ->
  length (or_else (try_or_none (predict_lstm self df h)) ens) = h ->
  length (or_else (try_or_none (some_of (predict_prophet self h))) ens) = h ->
  predict self df h
  = Ok (Forecast.mk
          (future_timestamps (last (timestamp df) 0%Z) h)
          ens (zip_with Qminus ens unc) (zip_with Qplus ens unc)
          (or_else (try_or_none (predict_lstm self df h)) ens)
          (or_else (try_or_none (some_of (predict_prophet self h))) ens)).
Proof.
  intros Htr Hdf Hc He Hu Hl Hp. unfold predict.
  rewrite Htr. cbn [negb]. rewrite Hc. cbn [bind].
  unfold iloc_last. destruct (timestamp df) as [|t ts] eqn:Et; [congruence|].
  cbn [bind].
  rewrite !np_binop_same_length by congruence. cbn [bind].
  unfold Forecast.make.
  rewrite future_timestamps_length, !zip_with_length by congruence.
  rewrite He, Hl, Hp, !Nat.eqb_refl. reflexivity.
Qed.

(** [predict] returns a table only when the table has a last timestamp and
    every forecast at hand has one value per requested hour: the length
    conditions of the statements below are the cases in which there is a
    result at all. *)
Lemma predict_ok_lengths (self : EnsemblePredictor) (df : DataFrame) (h : nat)
  (r : Forecast.t) :
  predict self df h = Ok r ->
  trained self = true /\ timestamp df <> [] /\
  (forall l, try_or_none (predict_lstm self df h) = Some l ->
             Forecast.lstm_prediction r = l /\ length l = h) /\
  (forall p, predict_prophet self h = Ok p ->
             Forecast.prophet_prediction r = p /\ length p = h).
Proof.
  unfold predict. destruct (trained self); cbn [negb]; [|discriminate].
  destruct (combine _ _ _) as [[ens unc]|]; cbn [bind]; [|discriminate].
  unfold iloc_last. destruct (timestamp df) as [|t0 ts]; cbn [bind]; [discriminate|].
  destruct (np_binop Qminus ens unc) as [lo|]; cbn [bind]; [|discriminate].
  destruct (np_binop Qplus ens unc) as [hi|]; cbn [bind]; [|discriminate].
  unfold Forecast.make. rewrite future_timestamps_length.
  match goal with |- context [if ?b then _ else _] => destruct b eqn:E end;
    [|discriminate].
  repeat (apply andb_true_iff in E; destruct E as [E ?]).
  repeat match goal with H : Nat.eqb _ _ = true |- _ => apply Nat.eqb_eq in H end.
  intro Hr. injection Hr as <-.
  cbn [Forecast.lstm_prediction Forecast.prophet_prediction].
  split; [reflexivity|]. split; [discriminate|]. split.
  - intros l Hl. rewrite Hl in *. cbn [or_else] in *. now split.
  - intros p Hp. rewrite Hp in *. cbn [some_of bind try_or_none or_else] in *.
    now split.
Qed.

(** Both forecasts present: the table [predict] returns. *)
Lemma predict_both (self : EnsemblePredictor) (df : DataFrame) (h : nat)
  (l p : list Q) :
  trained self = true ->
  timestamp df <> [] ->
  predict_lstm self df h = Ok (Some l) ->
  predict_prophet self h = Ok p ->
  length p = h ->
  let ens := zip_with Qplus (np_scale (Config.lstm (weights self)) l)
                            (np_scale (Config.prophet (weights self)) p) in
  let unc := np_rscale (np_abs (zip_with Qminus l p)) 0.5 in
  combine (weights self) (Some l) (Some p) = Ok (ens, unc) /\
  length ens = h /\ length unc = h /\
  predict self df h
  = Ok (Forecast.mk (future_timestamps (last (timestamp df) 0%Z) h)
          ens (zip_with Qminus ens unc) (zip_with Qplus ens unc) l p).
Proof.
  intros Htr Hdf Hl Hp Hlen ens unc.
  pose proof (predict_lstm_length self df h l Hl) as Hll.
  assert (Hc : combine (weights self) (Some l) (Some p) = Ok (ens, unc)).
  { unfold combine, np_scale.
    rewrite !np_binop_same_length by (rewrite ?length_map; congruence).
    reflexivity. }
  assert (He : length ens = h).
  { unfold ens, np_scale. rewrite zip_with_length; rewrite !length_map; congruence. }
  assert (Hu : length unc = h).
  { unfold unc, np_rscale, np_abs. rewrite !length_map, zip_with_length; congruence. }
  repeat split; try assumption.
  rewrite (predict_of_combine self df h ens unc); rewrite ?Hl, ?Hp; simpl;
    try assumption; reflexivity.
Qed.

Lemma both_rows (wl wp : Q) (l p : list Q) (i : nat) (s t : Q) :
  nth_error l i = Some s -> nth_error p i = Some t ->
  let ens := zip_with Qplus (np_scale wl l) (np_scale wp p) in
  let unc := np_rscale (np_abs (zip_with Qminus l p)) 0.5 in
  nth_error ens i = Some (wl * s + wp * t) /\
  nth_error unc i = Some (Qabs (s - t) * 0.5) /\
  nth_error (zip_with Qminus ens unc) i = Some (wl * s + wp * t - Qabs (s - t) * 0.5) /\
  nth_error (zip_with Qplus ens unc) i = Some (wl * s + wp * t + Qabs (s - t) * 0.5).
Proof.
  intros Hs Ht ens unc.
  assert (He : nth_error ens i = Some (wl * s + wp * t)).
  { unfold ens, np_scale. apply nth_error_zip_with.
    - now apply (map_nth_error (fun x => wl * x)).
    - now apply (map_nth_error (fun x => wp * x)). }
  assert (Hu : nth_error unc i = Some (Qabs (s - t) * 0.5)).
  { unfold unc, np_rscale, np_abs.
    apply (map_nth_error (fun x => x * 0.5)), (map_nth_error Qabs).
    now apply nth_error_zip_with. }
  repeat split; try assumption; now apply nth_error_zip_with.
Qed.

(** One forecast present: the table [predict] returns. *)
Lemma predict_single (self : EnsemblePredictor) (df : DataFrame) (h : nat)
  (lstm_pred prophet_pred : option (list Q)) (v : list Q) :
  trained self = true ->
  timestamp df <> [] ->
  try_or_none (predict_lstm self df h) = lstm_pred ->
  try_or_none (some_of (predict_prophet self h)) = prophet_pred ->
  (lstm_pred = Some v /\ prophet_pred = None) \/
  (lstm_pred = None /\ prophet_pred = Some v) ->
  length v = h ->
  let unc := np_rscale v 0.1 in
  combine (weights self) lstm_pred prophet_pred = Ok (v, unc) /\
  predict self df h
  = Ok (Forecast.mk (future_timestamps (last (timestamp df) 0%Z) h)
          v (zip_with Qminus v unc) (zip_with Qplus v unc) v v).
Proof.
  intros Htr Hdf Hl Hp Hcase Hlen unc.
  assert (Hu : length unc = h) by (unfold unc, np_rscale; now rewrite length_map).
  assert (Hc : combine (weights self) lstm_pred prophet_pred = Ok (v, unc)).
  { destruct Hcase as [[-> ->]|[-> ->]]; reflexivity. }
  split; [exact Hc|].
  rewrite (predict_of_combine self df h v unc); rewrite ?Hl, ?Hp; try assumption.
  - destruct Hcase as [[-> ->]|[-> ->]]; reflexivity.
  - destruct Hcase as [[-> ->]|[-> ->]]; assumption.
  - destruct Hcase as [[-> ->]|[-> ->]]; assumption.
Qed.

Lemma single_rows (v : list Q) (i : nat) (x : Q) :
  nth_error v i = Some x ->
  let unc := np_rscale v 0.1 in
  nth_error unc i = Some (x * 0.1) /\
  nth_error (zip_with Qminus v unc) i = Some (x - x * 0.1) /\
  nth_error (zip_with Qplus v unc) i = Some (x + x * 0.1).
Proof.
  intros Hx unc.
  assert (Hu : nth_error unc i = Some (x * 0.1))
    by (unfold unc, np_rscale; now apply (map_nth_error (fun y => y * 0.1))).
  repeat split; try assumption; now apply nth_error_zip_with.
Qed.

(** C1.  When both the sequence and the trend forecast are present, every
    step of the result has point estimate [0.6 * sequence + 0.4 * trend]
    (the default weights), uncertainty [0.5 * |sequence - trend|], and
    bounds [point - uncertainty] and [point + uncertainty]. *)
Theorem predict_both_weighted_average (self : EnsemblePredictor) (df : DataFrame)
  (h : nat) (l p : list Q) :
  trained self = true ->
  weights self = Config.ENSEMBLE_WEIGHTS ->
  timestamp df <> [] ->
  predict_lstm self df h = Ok (Some l) ->
  predict_prophet self h = Ok p ->
  length p = h ->
  exists r unc,
    predict self df h = Ok r /\
    combine (weights self) (Some l) (Some p) = Ok (Forecast.predicted_demand r, unc) /\
    length (Forecast.predicted_demand r) = h /\
    forall i, (i < h)%nat ->
      exists s t pt u lo hi,
        nth_error l i = Some s /\ nth_error p i = Some t /\
        nth_error (Forecast.predicted_demand r) i = Some pt /\
        nth_error unc i = Some u /\
        nth_error (Forecast.lower_bound r) i = Some lo /\
        nth_error (Forecast.upper_bound r) i = Some hi /\
        pt == 0.6 * s + 0.4 * t /\
        u == 0.5 * Qabs (s - t) /\
        lo == pt - u /\ hi == pt + u.
Proof.
  intros Htr Hw Hdf Hl Hp Hlen.
  pose proof (predict_lstm_length self df h l Hl) as Hll.
  destruct (predict_both self df h l p Htr Hdf Hl Hp Hlen) as (Hc & He & Hu & Hr).
  eexists; eexists. split; [exact Hr|]. cbn [Forecast.predicted_demand
    Forecast.lower_bound Forecast.upper_bound].
  split; [exact Hc|]. split; [exact He|].
  intros i Hi.
  destruct (nth_error_lt_Some l i) as [s Hs]; [lia|].
  destruct (nth_error_lt_Some p i) as [t Ht]; [lia|].
  destruct (both_rows (Config.lstm (weights self)) (Config.prophet (weights self))
              l p i s t Hs Ht) as (H1 & H2 & H3 & H4).
  exists s, t. do 4 eexists.
  repeat (split; [eassumption|]).
  rewrite Hw. cbn [Config.lstm Config.prophet Config.ENSEMBLE_WEIGHTS].
  repeat split; ring.
Qed.

(** The two ways in which exactly one forecast survives: the trend forecaster
    raised, or the sequence forecaster raised or had no window to start
    from.  [v] is the surviving point forecast. *)
Definition lstm_only (self : EnsemblePredictor) (df : DataFrame) (h : nat)
  (v : list Q) : Prop :=
  predict_lstm self df h = Ok (Some v) /\
  exists e, predict_prophet self h = Raise e.

Definition prophet_only (self : EnsemblePredictor) (df : DataFrame) (h : nat)
  (v : list Q) : Prop :=
  try_or_none (predict_lstm self df h) = None /\
  exists rows, Prophet.predict_future (prophet_model self) h = Ok rows /\
               map Prophet.yhat rows = v /\ length rows = h.

Lemma single_cases (self : EnsemblePredictor) (df : DataFrame) (h : nat)
  (v : list Q) :
  lstm_only self df h v \/ prophet_only self df h v ->
  length v = h /\
  ((try_or_none (predict_lstm self df h) = Some v /\
    try_or_none (some_of (predict_prophet self h)) = None) \/
   (try_or_none (predict_lstm self df h) = None /\
    try_or_none (some_of (predict_prophet self h)) = Some v)).
Proof.
  intros [[Hl [e He]]|[Hl (rows & Hr & Hv & Hlen)]].
  - split; [eapply predict_lstm_length; eauto|].
    left. now rewrite Hl, He.
  - split; [now rewrite <- Hv, length_map|].
    right. split; [exact Hl|].
    unfold predict_prophet. rewrite Hr. simpl. now rewrite Hv.
Qed.

(** C3 (amended).  When exactly one forecast is present, the point estimate
    is the surviving forecast, the uncertainty is [0.1 * point] and the
    bounds are [point - 0.1 * point] and [point + 0.1 * point]; this also
    holds when the survivor is the trend forecaster, whose own bounds
    ([yhat_lower], [yhat_upper]) are not used. *)
Theorem predict_single_ten_percent_band (self : EnsemblePredictor) (df : DataFrame)
  (h : nat) (v : list Q) :
  trained self = true ->
  timestamp df <> [] ->
  lstm_only self df h v \/ prophet_only self df h v ->
  exists r lstm_pred prophet_pred unc,
    predict self df h = Ok r /\
    lstm_pred = try_or_none (predict_lstm self df h) /\
    prophet_pred = try_or_none (some_of (predict_prophet self h)) /\
    combine (weights self) lstm_pred prophet_pred = Ok (Forecast.predicted_demand r, unc) /\
    Forecast.predicted_demand r = v /\
    length v = h /\
    forall i, (i < h)%nat ->
      exists pt u lo hi,
        nth_error v i = Some pt /\
        nth_error unc i = Some u /\
        nth_error (Forecast.lower_bound r) i = Some lo /\
        nth_error (Forecast.upper_bound r) i = Some hi /\
        u == 0.1 * pt /\ lo == pt - 0.1 * pt /\ hi == pt + 0.1 * pt.
Proof.
  intros Htr Hdf Hcase.
  destruct (single_cases self df h v Hcase) as [Hlen Hopt].
  destruct (predict_single self df h _ _ v Htr Hdf eq_refl eq_refl Hopt Hlen)
    as [Hc Hr].
  do 4 eexists. split; [exact Hr|]. split; [reflexivity|]. split; [reflexivity|].
  cbn [Forecast.predicted_demand Forecast.lower_bound Forecast.upper_bound].
  split; [exact Hc|]. split; [reflexivity|]. split; [exact Hlen|].
  intros i Hi.
  destruct (nth_error_lt_Some v i) as [x Hx]; [lia|].
  destruct (single_rows v i x Hx) as (H1 & H2 & H3).
  exists x. do 3 eexists.
  repeat (split; [eassumption|]).
  repeat split; ring.
Qed.

(** C4.  On a trained ensemble, when both forecasters fail [predict] raises
    and nothing is returned (and so does [predict_with_confidence]); when
    only one of them fails, [predict] still returns a table, built from the
    surviving forecast. *)
Theorem both_fail_raises_one_fail_recovers (self : EnsemblePredictor)
  (df : DataFrame) (h : nat) :
  trained self = true ->
  (try_or_none (predict_lstm self df h) = None ->
   (exists e, predict_prophet self h = Raise e) ->
   predict self df h = Raise (ValueError "Both models failed to predict!") /\
   predict_with_confidence self df h
     = Raise (ValueError "Both models failed to predict!")) /\
  (timestamp df <> [] ->
   forall v, lstm_only self df h v \/ prophet_only self df h v ->
   exists r, predict self df h = Ok r /\
             Forecast.predicted_demand r = v /\
             length (Forecast.timestamp r) = h).
Proof.
  intro Htr. split.
  - intros Hl [e Hp].
    assert (H : predict self df h = Raise (ValueError "Both models failed to predict!")).
    { unfold predict. rewrite Htr, Hl, Hp. reflexivity. }
    split; [exact H|]. unfold predict_with_confidence. now rewrite H.
  - intros Hdf v Hcase.
    destruct (single_cases self df h v Hcase) as [Hlen Hopt].
    destruct (predict_single self df h _ _ v Htr Hdf eq_refl eq_refl Hopt Hlen)
      as [_ Hr].
    eexists. split; [exact Hr|]. split; [reflexivity|].
    apply future_timestamps_length.
Qed.

(** C10.  With both forecasts present every row satisfies
    [lower_bound <= predicted_demand <= upper_bound]; with a single
    forecast the order is reversed on every row whose point estimate is
    negative, because the uncertainty [0.1 * point] is then negative. *)
Theorem bounds_ordered_when_both_present (self : EnsemblePredictor)
  (df : DataFrame) (h : nat) :
  trained self = true ->
  timestamp df <> [] ->
  (forall l p,
      predict_lstm self df h = Ok (Some l) ->
      predict_prophet self h = Ok p ->
      length p = h ->
      exists r,
        predict self df h = Ok r /\
        forall i, (i < h)%nat ->
          exists pt lo hi,
            nth_error (Forecast.predicted_demand r) i = Some pt /\
            nth_error (Forecast.lower_bound r) i = Some lo /\
            nth_error (Forecast.upper_bound r) i = Some hi /\
            lo <= pt /\ pt <= hi) /\
  (forall v,
      lstm_only self df h v \/ prophet_only self df h v ->
      exists r,
        predict self df h = Ok r /\
        forall i, (i < h)%nat ->
          exists pt lo hi,
            nth_error (Forecast.predicted_demand r) i = Some pt /\
            nth_error (Forecast.lower_bound r) i = Some lo /\
            nth_error (Forecast.upper_bound r) i = Some hi /\
            (pt < 0 -> hi < pt /\ pt < lo)).
Proof.
  intros Htr Hdf. split.
  - intros l p Hl Hp Hlen.
    pose proof (predict_lstm_length self df h l Hl) as Hll.
    destruct (predict_both self df h l p Htr Hdf Hl Hp Hlen) as (_ & _ & _ & Hr).
    eexists. split; [exact Hr|].
    cbn [Forecast.predicted_demand Forecast.lower_bound Forecast.upper_bound].
    intros i Hi.
    destruct (nth_error_lt_Some l i) as [s Hs]; [lia|].
    destruct (nth_error_lt_Some p i) as [t Ht]; [lia|].
    destruct (both_rows (Config.lstm (weights self)) (Config.prophet (weights self))
                l p i s t Hs Ht) as (H1 & _ & H3 & H4).
    do 3 eexists. repeat (split; [eassumption|]).
    pose proof (Qabs_nonneg (s - t)) as Habs.
    split; lra.
  - intros v Hcase.
    destruct (single_cases self df h v Hcase) as [Hlen Hopt].
    destruct (predict_single self df h _ _ v Htr Hdf eq_refl eq_refl Hopt Hlen)
      as [_ Hr].
    eexists. split; [exact Hr|].
    cbn [Forecast.predicted_demand Forecast.lower_bound Forecast.upper_bound].
    intros i Hi.
    destruct (nth_error_lt_Some v i) as [x Hx]; [lia|].
    destruct (single_rows v i x Hx) as (_ & H2 & H3).
    exists x. do 2 eexists. repeat (split; [eassumption|]).
    intro Hneg. split; lra.
Qed.

End Predictor.
End Ensemble.

(** *** The combiner on concrete tables *)

Module EnsembleExamples.
Import Rollout Ensemble.

(** A minimal windowing for the examples: the target column is scaled and
    becomes the single window, one column wide. *)
Definition prepare_one_window (pp : Preprocessor.DataPreprocessor) (df : DataFrame)
  : result (list ndarray2 * Preprocessor.DataPreprocessor) :=
  '(pp', scaled) <- Preprocessor.scale_features pp (target df) true ;;
  Ok ([mk2d 1 (map (fun x => [x]) scaled)], pp').

(** No usable window: the table is shorter than the sequence length. *)
Definition prepare_no_window (pp : Preprocessor.DataPreprocessor) (df : DataFrame)
  : result (list ndarray2 * Preprocessor.DataPreprocessor) :=
  '(pp', _) <- Preprocessor.scale_features pp (target df) true ;;
  Ok ([], pp').

(** A network that repeats the last observed value. *)
Definition persistence : LSTM.LSTMForecaster :=
  {| LSTM.sequence_length := 2; LSTM.n_features := 1;
     LSTM.model := Some (fun x => last x 0) |}.

(** A fitted trend model over a two-hour history that forecasts the same
    [yhat] with native bounds [lo, hi] at every date. *)
Definition constant_prophet (y lo hi : Q) : Prophet.ProphetForecaster :=
  {| Prophet.model := Some
       {| Prophet.make_future_dataframe :=
            fun periods => [0; 1]%Z ++ map (fun i => (1 + Z.of_nat (i + 1))%Z) (seq 0 periods);
          Prophet.predict_frame :=
            fun dates => Ok (map (fun d => Prophet.mkRow d y lo hi) dates) |};
     Prophet.fitted := true |}.

Definition ensemble_of (prophet : Prophet.ProphetForecaster) : EnsemblePredictor :=
  {| lstm_model := persistence;
     prophet_model := prophet;
     preprocessor := Preprocessor.init;
     weights := Config.ENSEMBLE_WEIGHTS;
     trained := true |}.

Definition two_hours (a b : Q) : DataFrame :=
  {| timestamp := [0; 1]%Z; target := [a; b] |}.


Definition both_ensemble : EnsemblePredictor := ensemble_of (constant_prophet 150 140 170).
Definition rising : DataFrame := two_hours 100 200.

(** The sequence forecast on [rising], back on the original scale. *)
Definition rising_lstm_pred : list Q :=
  Eval vm_compute in
    or_else (try_or_none (predict_lstm prepare_one_window both_ensemble rising 2)) [].

Example predict_both_example :
  exists r,
    predict prepare_one_window both_ensemble rising 2 = Ok r /\
    Forecast.timestamp r = [2; 3]%Z /\
    Forall2 Qeq (Forecast.lstm_prediction r) [200; 200] /\
    Forall2 Qeq (Forecast.prophet_prediction r) [150; 150] /\
    Forall2 Qeq (Forecast.predicted_demand r) [180; 180] /\
    Forall2 Qeq (Forecast.lower_bound r) [155; 155] /\
    Forall2 Qeq (Forecast.upper_bound r) [205; 205].
Proof.
  eexists. split; [vm_compute; reflexivity|].
  cbn [Forecast.timestamp Forecast.lstm_prediction Forecast.prophet_prediction
       Forecast.predicted_demand Forecast.lower_bound Forecast.upper_bound].
  split; [reflexivity|].
  repeat split; repeat constructor.
Qed.

Lemma predict_both_weighted_average_witness :
  exists r unc,
    predict prepare_one_window both_ensemble rising 2 = Ok r /\
    combine (weights both_ensemble) (Some rising_lstm_pred) (Some [150; 150])
      = Ok (Forecast.predicted_demand r, unc) /\
    length (Forecast.predicted_demand r) = 2%nat /\
    forall i, (i < 2)%nat ->
      exists s t pt u lo hi,
        nth_error rising_lstm_pred i = Some s /\ nth_error [150; 150] i = Some t /\
        nth_error (Forecast.predicted_demand r) i = Some pt /\
        nth_error unc i = Some u /\
        nth_error (Forecast.lower_bound r) i = Some lo /\
        nth_error (Forecast.upper_bound r) i = Some hi /\
        pt == 0.6 * s + 0.4 * t /\
        u == 0.5 * Qabs (s - t) /\
        lo == pt - u /\ hi == pt + u.
Proof.
  apply (predict_both_weighted_average prepare_one_window both_ensemble rising 2
           rising_lstm_pred [150; 150]).
  - reflexivity.
  - reflexivity.
  - discriminate.
  - vm_compute. reflexivity.
  - vm_compute. reflexivity.
  - reflexivity.
Defined.

(** The trend forecaster is the only survivor: no window for the sequence
    forecaster, and a trend forecast of 10 with native bounds [5, 20]. *)
Definition trend_only_ensemble : EnsemblePredictor := ensemble_of (constant_prophet 10 5 20).

Lemma trend_only_case :
  prophet_only prepare_no_window trend_only_ensemble rising 1 [10].
Proof.
  split; [reflexivity|].
  exists [Prophet.mkRow 2 10 5 20]. repeat split.
Qed.

Lemma predict_single_ten_percent_band_witness :
  exists r lstm_pred prophet_pred unc,
    predict prepare_no_window trend_only_ensemble rising 1 = Ok r /\
    lstm_pred = try_or_none (predict_lstm prepare_no_window trend_only_ensemble rising 1) /\
    prophet_pred = try_or_none (some_of (predict_prophet trend_only_ensemble 1)) /\
    combine (weights trend_only_ensemble) lstm_pred prophet_pred
      = Ok (Forecast.predicted_demand r, unc) /\
    Forecast.predicted_demand r = [10] /\
    length [10] = 1%nat /\
    forall i, (i < 1)%nat ->
      exists pt u lo hi,
        nth_error [10] i = Some pt /\
        nth_error unc i = Some u /\
        nth_error (Forecast.lower_bound r) i = Some lo /\
        nth_error (Forecast.upper_bound r) i = Some hi /\
        u == 0.1 * pt /\ lo == pt - 0.1 * pt /\ hi == pt + 0.1 * pt.
Proof.
  apply (predict_single_ten_percent_band prepare_no_window trend_only_ensemble
           rising 1 [10]).
  - reflexivity.
  - discriminate.
  - right. exact trend_only_case.
Defined.

(** C3 as stated fails: here the surviving trend forecast carries the native
    bounds [5] and [20], and the table has the ten-percent band [9], [11]. *)
Lemma native_bounds_not_preferred :
  exists r rows,
    prophet_only prepare_no_window trend_only_ensemble rising 1 (map Prophet.yhat rows) /\
    Prophet.predict_future (prophet_model trend_only_ensemble) 1 = Ok rows /\
    predict prepare_no_window trend_only_ensemble rising 1 = Ok r /\
    Forall2 Qeq (map Prophet.yhat_lower rows) [5] /\
    Forall2 Qeq (map Prophet.yhat_upper rows) [20] /\
    Forall2 Qeq (Forecast.lower_bound r) [9] /\
    Forall2 Qeq (Forecast.upper_bound r) [11] /\
    ~ Forall2 Qeq (Forecast.lower_bound r) (map Prophet.yhat_lower rows) /\
    ~ Forall2 Qeq (Forecast.upper_bound r) (map Prophet.yhat_upper rows).
Proof.
  eexists. exists [Prophet.mkRow 2 10 5 20].
  split; [exact trend_only_case|].
  split; [reflexivity|].
  split; [vm_compute; reflexivity|].
  cbn [Forecast.lower_bound Forecast.upper_bound map Prophet.yhat_lower Prophet.yhat_upper].
  repeat split; try (repeat constructor; fail).
  - intro H. inversion H as [|? ? ? ? Hq _]; subst. revert Hq. vm_compute. discriminate.
  - intro H. inversion H as [|? ? ? ? Hq _]; subst. revert Hq. vm_compute. discriminate.
Qed.

(** Neither forecaster delivers: the trend forecaster was never fitted (as
    after [load_models]) and the table gives no window. *)
Definition untrained_trend : EnsemblePredictor := ensemble_of Prophet.init.

Example both_fail_example :
  predict prepare_no_window untrained_trend rising 2
    = Raise (ValueError "Both models failed to predict!").
Proof. vm_compute. reflexivity. Qed.

Example lstm_only_example :
  lstm_only prepare_one_window untrained_trend rising 2 rising_lstm_pred /\
  exists r,
    predict prepare_one_window untrained_trend rising 2 = Ok r /\
    Forall2 Qeq (Forecast.predicted_demand r) [200; 200] /\
    Forall2 Qeq (Forecast.lower_bound r) [180; 180] /\
    Forall2 Qeq (Forecast.upper_bound r) [220; 220].
Proof.
  split.
  - split; [vm_compute; reflexivity|]. eexists. vm_compute. reflexivity.
  - eexists. split; [vm_compute; reflexivity|].
    cbn [Forecast.predicted_demand Forecast.lower_bound Forecast.upper_bound].
    repeat split; repeat constructor.
Qed.


(** With no hour to forecast the sequence path fails (the scaler rejects an
    empty column) and the result is the empty table of the trend path. *)
Example zero_hours_example :
  try_or_none (predict_lstm prepare_one_window both_ensemble rising 0) = None /\
  predict prepare_one_window both_ensemble rising 0
    = Ok (Forecast.mk [] [] [] [] [] []).
Proof. split; reflexivity. Qed.

Lemma both_fail_raises_one_fail_recovers_witness :
  (try_or_none (predict_lstm prepare_no_window untrained_trend rising 2) = None ->
   (exists e, predict_prophet untrained_trend 2 = Raise e) ->
   predict prepare_no_window untrained_trend rising 2
     = Raise (ValueError "Both models failed to predict!") /\
   predict_with_confidence prepare_no_window untrained_trend rising 2
     = Raise (ValueError "Both models failed to predict!")) /\
  (timestamp rising <> [] ->
   forall v, lstm_only prepare_no_window untrained_trend rising 2 v \/
             prophet_only prepare_no_window untrained_trend rising 2 v ->
   exists r, predict prepare_no_window untrained_trend rising 2 = Ok r /\
             Forecast.predicted_demand r = v /\
             length (Forecast.timestamp r) = 2%nat).
Proof.
  apply (both_fail_raises_one_fail_recovers prepare_no_window untrained_trend rising 2).
  reflexivity.
Defined.

Lemma bounds_ordered_when_both_present_witness :
  (forall l p,
      predict_lstm prepare_one_window both_ensemble rising 2 = Ok (Some l) ->
      predict_prophet both_ensemble 2 = Ok p ->
      length p = 2%nat ->
      exists r,
        predict prepare_one_window both_ensemble rising 2 = Ok r /\
        forall i, (i < 2)%nat ->
          exists pt lo hi,
            nth_error (Forecast.predicted_demand r) i = Some pt /\
            nth_error (Forecast.lower_bound r) i = Some lo /\
            nth_error (Forecast.upper_bound r) i = Some hi /\
            lo <= pt /\ pt <= hi) /\
  (forall v,
      lstm_only prepare_one_window both_ensemble rising 2 v \/
      prophet_only prepare_one_window both_ensemble rising 2 v ->
      exists r,
        predict prepare_one_window both_ensemble rising 2 = Ok r /\
        forall i, (i < 2)%nat ->
          exists pt lo hi,
            nth_error (Forecast.predicted_demand r) i = Some pt /\
            nth_error (Forecast.lower_bound r) i = Some lo /\
            nth_error (Forecast.upper_bound r) i = Some hi /\
            (pt < 0 -> hi < pt /\ pt < lo)).
Proof.
  apply (bounds_ordered_when_both_present prepare_one_window both_ensemble rising 2).
  - reflexivity.
  - discriminate.
Defined.

(** A single, negative forecast: the "lower" bound lies above the "upper". *)
Example negative_single_forecast_example :
  prophet_only prepare_no_window (ensemble_of (constant_prophet (-10) (-20) (-5)))
    rising 1 [-10] /\
  exists r,
    predict prepare_no_window (ensemble_of (constant_prophet (-10) (-20) (-5))) rising 1
      = Ok r /\
    Forall2 Qeq (Forecast.predicted_demand r) [-10] /\
    Forall2 Qeq (Forecast.lower_bound r) [-9] /\
    Forall2 Qeq (Forecast.upper_bound r) [-11].
Proof.
  split.
  - split; [reflexivity|]. exists [Prophet.mkRow 2 (-10) (-20) (-5)]. repeat split.
  - eexists. split; [vm_compute; reflexivity|].
    cbn [Forecast.predicted_demand Forecast.lower_bound Forecast.upper_bound].
    repeat split; repeat constructor.
Qed.

End EnsembleExamples.

(** *** The confidence score *)

Module Confidence.
Import Rollout Ensemble EnsembleExamples.

(** The confidence column is the clipped formula, row by row. *)
Lemma confidence_column (prepare : Preprocessor.DataPreprocessor -> DataFrame ->
                           result (list ndarray2 * Preprocessor.DataPreprocessor))
  (self : EnsemblePredictor) (df : DataFrame) (h : nat) (t : Forecast.with_confidence) :
  predict_with_confidence prepare self df h = Ok t ->
  predict prepare self df h = Ok (Forecast.table t) /\
  forall i pt lo hi,
    nth_error (Forecast.predicted_demand (Forecast.table t)) i = Some pt ->
    nth_error (Forecast.lower_bound (Forecast.table t)) i = Some lo ->
    nth_error (Forecast.upper_bound (Forecast.table t)) i = Some hi ->
    nth_error (Forecast.confidence t) i
    = Some (xclip 0 100 (xmul (Fin 100)
              (xsub (Fin 1) (xdiv (Fin (hi - lo)) (Fin (2 * pt)))))).
Proof.
  unfold predict_with_confidence.
  destruct (predict prepare self df h) as [r|]; cbn [bind]; [|discriminate].
  intro H. injection H as <-. cbn [Forecast.table Forecast.confidence].
  split; [reflexivity|].
  generalize (Forecast.predicted_demand r) (Forecast.lower_bound r)
             (Forecast.upper_bound r).
  intros ps. induction ps as [|p ps IH]; intros [|l ls] [|u us] [|i] pt lo hi;
    simpl; try discriminate.
  - intros [= <-] [= <-] [= <-]. reflexivity.
  - apply IH.
Qed.

(** Away from a zero point estimate the score is a number in [[0, 100]]. *)
Lemma confidence_in_range (pt lo hi : Q) :
  ~ pt == 0 -> xin_range 0 100 (confidence_of pt lo hi).
Proof.
  intro Hpt. unfold confidence_of. cbn [xdiv].
  destruct (Qeq_bool (2 * pt) 0) eqn:E.
  - apply Qeq_bool_eq in E. exfalso. apply Hpt. lra.
  - cbn. split.
    + apply Q.min_glb; [apply Q.le_max_r | lra].
    + apply Q.le_min_r.
Qed.

(** With a zero point estimate the division is by zero: the score is 0 when
    the interval has positive width, but NaN when the interval is empty. *)
Lemma confidence_at_zero_point (pt lo hi : Q) :
  pt == 0 ->
  (lo < hi -> xeq (confidence_of pt lo hi) (Fin 0)) /\
  (hi == lo -> confidence_of pt lo hi = NaN).
Proof.
  intro Hpt. unfold confidence_of. cbn [xdiv].
  assert (E : Qeq_bool (2 * pt) 0 = true) by (apply Qeq_bool_iff; lra).
  rewrite E. split; intro H.
  - assert (Hc : (hi - lo ?= 0) = Gt) by (apply Qgt_alt; lra).
    rewrite Hc. cbn. reflexivity.
  - assert (Hc : (hi - lo ?= 0) = Eq) by (apply Qeq_alt; lra).
    rewrite Hc. reflexivity.
Qed.

(** C2, at the failing input: both forecasters predict a demand of 0 for the
    next hour.  The table has point estimate 0 and bounds 0, and its
    confidence is NaN: not 0, and not a number of [[0, 100]]. *)
Theorem confidence_nan_at_zero_forecast :
  exists t,
    predict_with_confidence prepare_one_window (ensemble_of (constant_prophet 0 0 0))
      (two_hours 100 0) 1 = Ok t /\
    Forall2 Qeq (Forecast.predicted_demand (Forecast.table t)) [0] /\
    Forall2 Qeq (Forecast.lower_bound (Forecast.table t)) [0] /\
    Forall2 Qeq (Forecast.upper_bound (Forecast.table t)) [0] /\
    Forecast.confidence t = [NaN] /\
    ~ Forall (xin_range 0 100) (Forecast.confidence t).
Proof.
  eexists. split; [vm_compute; reflexivity|].
  cbn [Forecast.table Forecast.predicted_demand Forecast.lower_bound
       Forecast.upper_bound Forecast.confidence].
  repeat split; try (repeat constructor; fail).
  intro H. inversion H as [|? ? Hx _]; subst. exact Hx.
Qed.

End Confidence.

(* ================================================================= *)
(** ** utils/anomaly_detector.py *)

Module AnomalyDetector.

Inductive severity : Type := Medium | High.
Inductive change_type : Type := Spike | Drop.

Module ZScore.
Record t : Type := mk {
  index : nat;
  value : Q;
  z_score : xfloat;
  expected_range : xfloat * xfloat;
  severity : AnomalyDetector.severity
}.
End ZScore.

Module IQR.
Record t : Type := mk {
  index : nat;
  value : Q;
  expected_range : Q * Q;
  deviation : Q;
  severity : AnomalyDetector.severity
}.
End IQR.

Module Change.
Record t : Type := mk {
  index : nat;
  from_value : Q;
  to_value : Q;
  change_percent : xfloat;
  type : change_type;
  severity : AnomalyDetector.severity
}.
End Change.

Record Report : Type := mkReport {
  zscore_anomalies : list ZScore.t;
  iqr_anomalies : list IQR.t;
  sudden_changes : list Change.t;
  total_anomalies : nat;
  anomaly_rate : Q
}.

Record AnomalyDetector : Type := mkDetector {
  threshold : Q;
  window : nat
}.

(** [AnomalyDetector()] with the defaults of config.py. *)
Definition init : AnomalyDetector :=
  {| threshold := Config.ANOMALY_THRESHOLD; window := Config.ANOMALY_WINDOW |}.

(** *** pandas rolling windows *)

(** [rolling(window=w, center=True)] at position [i] of a series of length
    [n]: the window ends (exclusively) at [i + 1 + (w - 1) // 2] and starts
    [w] places before, both clipped to [[0, n]]; with fewer than
    [min_periods = w] observations the statistic is NaN. *)
Definition rolling_slice (data : list Q) (w i : nat) : option (list Q) :=
  let n := length data in
  let offset := ((w - 1) / 2)%nat in
  let e := (i + 1 + offset)%nat in
  let stop := Nat.min e n in
  let start := Nat.min (e - w) n in
  let nobs := (stop - start)%nat in
  if (Nat.ltb nobs w || Nat.eqb nobs 0)%bool then None
  else Some (firstn nobs (skipn start data)).

Definition rolling_mean (data : list Q) (w i : nat) : xfloat :=
  match rolling_slice data w i with
  | Some l => Fin (mean l)
  | None => NaN
  end.

(** Round half to even, to an integer. *)
Definition round_half_even (q : Q) : Z :=
  let f := Qfloor q in
  let r := q - inject_Z f in
  match Qcompare r (1 # 2) with
  | Lt => f
  | Gt => (f + 1)%Z
  | Eq => if Z.even f then f else (f + 1)%Z
  end.

(** Python's [round(x, 2)]. *)
Definition round2 (q : Q) : Q := inject_Z (round_half_even (q * 100)) / 100.

(** *** numpy percentiles *)

Fixpoint insert_sorted (x : Q) (l : list Q) : list Q :=
  match l with
  | [] => [x]
  | y :: l' => if Qle_bool x y then x :: l else y :: insert_sorted x l'
  end.

Definition sort (l : list Q) : list Q := fold_right insert_sorted [] l.

(** [np.percentile(data, q)] with the default linear interpolation, on a
    non-empty array. *)
Definition percentile (data : list Q) (q : Q) : Q :=
  let a := sort data in
  let h := q / 100 * inject_Z (Z.of_nat (length a - 1)) in
  let lo := Z.to_nat (Qfloor h) in
  let hi := Nat.min (lo + 1) (length a - 1) in
  let gamma := h - inject_Z (Qfloor h) in
  nth lo a 0 + (nth hi a 0 - nth lo a 0) * gamma.

Section Detector.

(** The floating-point square root.  It is the one operation of the
    detector that leaves the rationals; the detector is studied for every
    implementation of it. *)
Variable sqrt : Q -> Q.

(** [rolling(...).std()]: NaN without a full window or with a single
    observation. *)
Definition rolling_std (data : list Q) (w i : nat) : xfloat :=
  match rolling_slice data w i with
  | Some l => if Nat.leb (length l) 1 then NaN else Fin (sqrt (var l))
  | None => NaN
  end.

(** [np.abs((data_series - rolling_mean) / rolling_std)] at position [i]. *)
Definition z_score (data : list Q) (w i : nat) : xfloat :=
  xabs (xdiv (xsub (Fin (nth i data 0)) (rolling_mean data w i)) (rolling_std data w i)).

Definition zscore_record (self : AnomalyDetector) (data : list Q) (w idx : nat)
  : ZScore.t :=
  let z := z_score data w idx in
  let m := rolling_mean data w idx in
  let s := rolling_std data w idx in
  {| ZScore.index := idx;
     ZScore.value := nth idx data 0;
     ZScore.z_score := z;
     ZScore.expected_range :=
       (xsub m (xmul (Fin (threshold self)) s), xadd m (xmul (Fin (threshold self)) s));
     ZScore.severity :=
       if xgtb z (Fin (threshold self * 1.5)) then High else Medium |}.

Definition detect_zscore_anomalies (self : AnomalyDetector) (data : list Q)
  (window_arg : option nat) : list ZScore.t :=
  let w := match window_arg with Some w => w | None => window self end in
  let anomaly_indices :=
    filter (fun i => xgtb (z_score data w i) (Fin (threshold self)))
           (seq 0 (length data)) in
  flat_map (fun idx =>
              if negb (isnan (z_score data w idx))
              then [zscore_record self data w idx]
              else [])
           anomaly_indices.

Definition detect_iqr_anomalies (data : list Q) : list IQR.t :=
  match data with
  | [] => []
  | _ =>
    let q1 := percentile data 25 in
    let q3 := percentile data 75 in
    let iqr := q3 - q1 in
    let lower_bound := q1 - 1.5 * iqr in
    let upper_bound := q3 + 1.5 * iqr in
    flat_map (fun iv : nat * Q =>
                let '(idx, v) := iv in
                if (Qltb v lower_bound || Qltb upper_bound v)%bool
                then [{| IQR.index := idx;
                         IQR.value := v;
                         IQR.expected_range := (lower_bound, upper_bound);
                         IQR.deviation := Qmin (Qabs (v - lower_bound)) (Qabs (v - upper_bound));
                         IQR.severity :=
                           if (Qltb v (lower_bound - iqr) || Qltb (upper_bound + iqr) v)%bool
                           then High else Medium |}]
                else [])
             (combine (seq 0 (length data)) data)
  end.

(** [data_series.pct_change()] at position [i]: [data[i] / data[i-1] - 1],
    NaN at position 0. *)
Definition pct_change (data : list Q) (i : nat) : xfloat :=
  match i with
  | O => NaN
  | S j => xsub (xdiv (Fin (nth i data 0)) (Fin (nth j data 0))) (Fin 1)
  end.

Definition detect_sudden_changes (data : list Q) (change_threshold : Q)
  : list Change.t :=
  let significant_changes :=
    filter (fun i => xgtb (xabs (pct_change data i)) (Fin change_threshold))
           (seq 0 (length data)) in
  flat_map (fun idx =>
              let pc := pct_change data idx in
              if (Nat.ltb 0 idx && negb (isnan pc))%bool
              then [{| Change.index := idx;
                       Change.from_value := nth (idx - 1) data 0;
                       Change.to_value := nth idx data 0;
                       Change.change_percent := xmul pc (Fin 100);
                       Change.type := if xgtb pc (Fin 0) then Spike else Drop;
                       Change.severity :=
                         if xgtb (xabs pc) (Fin (change_threshold * 2))
                         then High else Medium |}]
              else [])
           significant_changes.

(** [analyze_anomalies(df)], on the target column of the table.  An empty
    column ends in a division by zero. *)
Definition analyze_anomalies (self : AnomalyDetector) (df : DataFrame)
  : result Report :=
  let data := target df in
  let zscore_anomalies := detect_zscore_anomalies self data None in
  let iqr_anomalies := detect_iqr_anomalies data in
  let sudden_changes := detect_sudden_changes data 0.3 in
  if Nat.eqb (length data) 0 then Raise ZeroDivisionError
  else
    Ok {| zscore_anomalies := zscore_anomalies;
          iqr_anomalies := iqr_anomalies;
          sudden_changes := sudden_changes;
          total_anomalies :=
            (length zscore_anomalies + length iqr_anomalies + length sudden_changes)%nat;
          anomaly_rate :=
            round2 (inject_Z (Z.of_nat (length zscore_anomalies))
                    / inject_Z (Z.of_nat (length data)) * 100) |}.

(** *** The z-score detector *)

Lemma flat_map_guarded {A : Type} (keep guard : nat -> bool) (mk : nat -> A)
  (l : list nat) :
  (forall i, keep i = true -> guard i = true) ->
  flat_map (fun i => if guard i then [mk i] else []) (filter keep l)
  = map mk (filter keep l).
Proof.
  intro H. induction l as [|x l IH]; simpl; [reflexivity|].
  destruct (keep x) eqn:E; [|exact IH].
  simpl. rewrite (H x E). simpl. now rewrite IH.
Qed.

Lemma xgtb_not_nan (x y : xfloat) : xgtb x y = true -> isnan x = false.
Proof. destruct x; simpl; try reflexivity. destruct y; discriminate. Qed.

Lemma detect_zscore_anomalies_eq (self : AnomalyDetector) (data : list Q)
  (window_arg : option nat) :
  let w := match window_arg with Some w => w | None => window self end in
  detect_zscore_anomalies self data window_arg
  = map (zscore_record self data w)
      (filter (fun i => xgtb (z_score data w i) (Fin (threshold self)))
              (seq 0 (length data))).
Proof.
  intro w. unfold detect_zscore_anomalies. fold w.
  apply (flat_map_guarded
           (fun i => xgtb (z_score data w i) (Fin (threshold self)))
           (fun i => negb (isnan (z_score data w i)))).
  intros i H. now rewrite (xgtb_not_nan _ _ H).
Qed.

Lemma z_score_undefined (data : list Q) (w i : nat) :
  rolling_std data w i = NaN -> z_score data w i = NaN.
Proof.
  intro H. unfold z_score. rewrite H.
  destruct (xsub (Fin (nth i data 0)) (rolling_mean data w i)); reflexivity.
Qed.

Lemma rolling_std_edge (data : list Q) (w i : nat) :
  rolling_slice data w i = None -> rolling_std data w i = NaN.
Proof. intro H. unfold rolling_std. now rewrite H. Qed.

End Detector.

(** The default window of 24 samples is centered on [i]: it covers the
    positions [i - 12 .. i + 11], and is undefined closer to either end. *)
Lemma rolling_slice_24 (data : list Q) (i : nat) :
  rolling_slice data 24 i
  = if (Nat.leb 12 i && Nat.leb (i + 12) (length data))%bool
    then Some (firstn 24 (skipn (i - 12) data))
    else None.
Proof.
  unfold rolling_slice.
  change ((24 - 1) / 2)%nat with 11%nat.
  destruct (Nat.leb_spec 12 i) as [H1|H1];
    destruct (Nat.leb_spec (i + 12) (length data)) as [H2|H2]; cbn [andb].
  - replace (Nat.min (i + 1 + 11) (length data)) with (i + 12)%nat by lia.
    replace (Nat.min (i + 1 + 11 - 24) (length data)) with (i - 12)%nat by lia.
    replace (i + 12 - (i - 12))%nat with 24%nat by lia.
    reflexivity.
  - destruct (Nat.ltb_spec
                (Nat.min (i + 1 + 11) (length data)
                 - Nat.min (i + 1 + 11 - 24) (length data)) 24) as [H|H];
      [reflexivity | lia].
  - destruct (Nat.ltb_spec
                (Nat.min (i + 1 + 11) (length data)
                 - Nat.min (i + 1 + 11 - 24) (length data)) 24) as [H|H];
      [reflexivity | lia].
  - destruct (Nat.ltb_spec
                (Nat.min (i + 1 + 11) (length data)
                 - Nat.min (i + 1 + 11 - 24) (length data)) 24) as [H|H];
      [reflexivity | lia].
Qed.

(** The score in the words of the specification:
    [|value[i] - rolling_mean[i]| / rolling_std[i]]. *)
Definition deviation_ratio (sqrt : Q -> Q) (data : list Q) (w i : nat) : xfloat :=
  xdiv (xabs (xsub (Fin (nth i data 0)) (rolling_mean data w i)))
       (rolling_std sqrt data w i).

Lemma xabs_xdiv_nonneg (a : xfloat) (s : Q) :
  0 <= s -> xeq (xabs (xdiv a (Fin s))) (xdiv (xabs a) (Fin s)).
Proof.
  intro Hs.
  assert (Hcmp : (s ?= 0) <> Lt) by (rewrite <- Qlt_alt; lra).
  destruct a as [a| | |]; cbn [xabs xdiv].
  - destruct (Qeq_bool s 0) eqn:E.
    + destruct (Qcompare_spec a 0) as [H|H|H].
      * assert (Hc : (Qabs a ?= 0) = Eq) by (apply Qeq_alt; rewrite H; reflexivity).
        rewrite Hc. exact I.
      * assert (Hc : (Qabs a ?= 0) = Gt).
        { apply Qgt_alt. rewrite Qabs_neg by lra. lra. }
        rewrite Hc. exact I.
      * assert (Hc : (Qabs a ?= 0) = Gt).
        { apply Qgt_alt. rewrite Qabs_pos by lra. lra. }
        rewrite Hc. exact I.
    + apply Qeq_bool_neq in E. cbn [xabs xeq].
      unfold Qdiv. rewrite Qabs_Qmult.
      rewrite (Qabs_pos (/ s)); [reflexivity|].
      apply Qinv_le_0_compat. exact Hs.
  - destruct (s ?= 0); try exact I. congruence.
  - destruct (s ?= 0); try exact I. congruence.
  - exact I.
Qed.

Lemma xgtb_xeq (x x' y : xfloat) : xeq x x' -> xgtb x y = xgtb x' y.
Proof.
  destruct x as [a| | |], x' as [a'| | |]; simpl; try contradiction; try reflexivity.
  intro H. destruct y as [b| | |]; try reflexivity.
  unfold Qltb. f_equal.
  destruct (Qle_bool a b) eqn:E, (Qle_bool a' b) eqn:E'; try reflexivity.
  - apply Qle_bool_iff in E. rewrite H in E. apply Qle_bool_iff in E. congruence.
  - apply Qle_bool_iff in E'. rewrite <- H in E'. apply Qle_bool_iff in E'. congruence.
Qed.

Lemma z_score_ratio (sqrt : Q -> Q) (data : list Q) (w i : nat) :
  (forall q, 0 <= sqrt q) ->
  xeq (z_score sqrt data w i) (deviation_ratio sqrt data w i).
Proof.
  intro Hsqrt. unfold z_score, deviation_ratio, rolling_std.
  destruct (rolling_slice data w i) as [l|].
  - destruct (Nat.leb (length l) 1).
    + destruct (xsub _ _); exact I.
    + apply xabs_xdiv_nonneg, Hsqrt.
  - destruct (xsub _ _); exact I.
Qed.


(** A square root for the examples: the largest multiple of [10^-9] whose
    square does not exceed the argument. *)
Definition sqrt9 (q : Q) : Q :=
  Qmake (Z.sqrt (Qnum q * 10 ^ 18 / Zpos (Qden q))) (10 ^ 9).

(** A flat series of [n] samples at 100 with one sample of 1000 at [k]. *)
Definition spike_series (n k : nat) : list Q :=
  map (fun i => if Nat.eqb i k then 1000 else 100) (seq 0 n).

(** The scenario of the specification: 200 hours at 100, hour 100 at 1000. *)
Example zscore_spike_example :
  map (fun a => (ZScore.index a, ZScore.severity a))
      (detect_zscore_anomalies sqrt9 init (spike_series 200 100) None)
    = [(100%nat, High)] /\
  map (fun a => (IQR.index a, IQR.severity a))
      (detect_iqr_anomalies (spike_series 200 100))
    = [(100%nat, High)] /\
  map (fun a => (Change.index a, Change.type a))
      (detect_sudden_changes (spike_series 200 100) 0.3)
    = [(100%nat, Spike); (101%nat, Drop)].
Proof. repeat split; vm_compute; reflexivity. Qed.


Lemma sqrt9_nonneg (q : Q) : 0 <= sqrt9 q.
Proof.
  unfold sqrt9, Qle. cbn [Qnum Qden]. rewrite Z.mul_1_r. cbn [Z.mul].
  apply Z.sqrt_nonneg.
Qed.


(** *** The anomaly report *)

Lemma round_half_even_close (q : Q) :
  Qabs (inject_Z (round_half_even q) - q) <= 1 # 2.
Proof.
  unfold round_half_even.
  pose proof (Qfloor_le q) as Hlo. pose proof (Qlt_floor q) as Hhi.
  rewrite inject_Z_plus in Hhi. change (inject_Z 1) with 1 in Hhi.
  apply Qabs_Qle_condition.
  destruct (Qcompare_spec (q - inject_Z (Qfloor q)) (1 # 2)) as [H|H|H].
  - destruct (Z.even (Qfloor q)).
    + split; lra.
    + rewrite inject_Z_plus. change (inject_Z 1) with 1. split; lra.
  - split; lra.
  - rewrite inject_Z_plus. change (inject_Z 1) with 1. split; lra.
Qed.

Lemma round2_close (q : Q) : Qabs (round2 q - q) <= 1 # 200.
Proof.
  unfold round2. pose proof (round_half_even_close (q * 100)) as H.
  apply Qabs_Qle_condition in H. apply Qabs_Qle_condition.
  set (r := inject_Z (round_half_even (q * 100))) in *.
  destruct H as [H1 H2]. split.
  - assert (E : r / 100 - q == (r - q * 100) / 100) by (field).
    rewrite E. apply Qle_shift_div_l; [reflexivity|]. lra.
  - assert (E : r / 100 - q == (r - q * 100) / 100) by (field).
    rewrite E. apply Qle_shift_div_r; [reflexivity|]. lra.
Qed.

(** C8 (amended).  On a non-empty series, [anomaly_rate] is the number of
    z-score anomalies divided by the number of samples, times 100, rounded
    to two decimals (so within 0.005 of that quotient; the IQR and
    sudden-change counts do not enter it), and [total_anomalies] is the sum
    of the counts of the three methods. *)
Theorem anomaly_rate_rounded (sqrt : Q -> Q) (self : AnomalyDetector)
  (df : DataFrame) :
  target df <> [] ->
  exists rep,
    analyze_anomalies sqrt self df = Ok rep /\
    zscore_anomalies rep = detect_zscore_anomalies sqrt self (target df) None /\
    iqr_anomalies rep = detect_iqr_anomalies (target df) /\
    sudden_changes rep = detect_sudden_changes (target df) 0.3 /\
    anomaly_rate rep
      = round2 (inject_Z (Z.of_nat (length (zscore_anomalies rep)))
                / inject_Z (Z.of_nat (length (target df))) * 100) /\
    Qabs (anomaly_rate rep
          - inject_Z (Z.of_nat (length (zscore_anomalies rep)))
            / inject_Z (Z.of_nat (length (target df))) * 100) <= 1 # 200 /\
    total_anomalies rep
      = (length (zscore_anomalies rep) + length (iqr_anomalies rep)
         + length (sudden_changes rep))%nat.
Proof.
  intro Hne. unfold analyze_anomalies.
  destruct (Nat.eqb_spec (length (target df)) 0) as [H0|_].
  - destruct (target df); [congruence | discriminate H0].
  - eexists. split; [reflexivity|].
    cbn [zscore_anomalies iqr_anomalies sudden_changes anomaly_rate total_anomalies].
    repeat split; try reflexivity.
    apply round2_close.
Qed.

Definition spike_table : DataFrame :=
  {| timestamp := map Z.of_nat (seq 0 30); target := spike_series 30 15 |}.

Lemma anomaly_rate_rounded_witness :
  exists rep,
    analyze_anomalies sqrt9 init spike_table = Ok rep /\
    zscore_anomalies rep = detect_zscore_anomalies sqrt9 init (target spike_table) None /\
    iqr_anomalies rep = detect_iqr_anomalies (target spike_table) /\
    sudden_changes rep = detect_sudden_changes (target spike_table) 0.3 /\
    anomaly_rate rep
      = round2 (inject_Z (Z.of_nat (length (zscore_anomalies rep)))
                / inject_Z (Z.of_nat (length (target spike_table))) * 100) /\
    Qabs (anomaly_rate rep
          - inject_Z (Z.of_nat (length (zscore_anomalies rep)))
            / inject_Z (Z.of_nat (length (target spike_table))) * 100) <= 1 # 200 /\
    total_anomalies rep
      = (length (zscore_anomalies rep) + length (iqr_anomalies rep)
         + length (sudden_changes rep))%nat.
Proof.
  apply (anomaly_rate_rounded sqrt9 init spike_table). discriminate.
Defined.

(** C8 as stated fails: with one z-score anomaly among 30 samples the report
    gives 3.33, which is not [1 / 30 * 100]. *)
Lemma anomaly_rate_not_exact :
  exists rep,
    analyze_anomalies sqrt9 init spike_table = Ok rep /\
    length (zscore_anomalies rep) = 1%nat /\
    length (iqr_anomalies rep) = 1%nat /\
    length (sudden_changes rep) = 2%nat /\
    length (target spike_table) = 30%nat /\
    total_anomalies rep = 4%nat /\
    anomaly_rate rep == 3.33 /\
    ~ anomaly_rate rep
      == inject_Z (Z.of_nat (length (zscore_anomalies rep)))
         / inject_Z (Z.of_nat (length (target spike_table))) * 100.
Proof.
  eexists. split; [vm_compute; reflexivity|].
  cbn [zscore_anomalies iqr_anomalies sudden_changes anomaly_rate total_anomalies].
  repeat split; try (vm_compute; reflexivity).
  intro H. revert H. vm_compute. discriminate.
Qed.

(** An empty series has no rate. *)
Example analyze_empty_example :
  analyze_anomalies sqrt9 init {| timestamp := []; target := [] |}
    = Raise ZeroDivisionError.
Proof. reflexivity. Qed.

End AnomalyDetector.

(* ================================================================= *)
(** ** models/ensemble_predictor_simple.py: the statistical ensemble *)

Module EnsembleSimple.

(** The result table; its numbers may be NaN (a one-row history has no
    standard deviation). *)
Module Table.
Record t : Type := mk {
  timestamp : list Z;
  predicted_demand : list xfloat;
  lower_bound : list xfloat;
  upper_bound : list xfloat;
  lstm_prediction : list xfloat;
  prophet_prediction : list xfloat
}.
End Table.

Record EnsemblePredictor : Type := mkSimple {
  trained : bool;
  historical_mean : option xfloat;
  historical_std : option xfloat;
  hourly_patterns : option (list (Z * Q));
  daily_patterns : option (list (Z * Q))
}.

Definition init : EnsemblePredictor :=
  {| trained := false; historical_mean := None; historical_std := None;
     hourly_patterns := None; daily_patterns := None |}.

(** Hour of day, and day of week with Monday = 0, of a timestamp in hours
    since 1970-01-01 00:00 (a Thursday). *)
Definition hour (ts : Z) : Z := (ts mod 24)%Z.
Definition dayofweek (ts : Z) : Z := ((ts / 24 + 3) mod 7)%Z.

(** [df.groupby(key)[target].mean().to_dict()] *)
Definition group_means (keys : list Z) (vals : list Q) : list (Z * Q) :=
  map (fun k =>
         (k, mean (map snd (filter (fun kv => Z.eqb (fst kv) k) (combine keys vals)))))
      (nodup Z.eq_dec keys).

(** [d.get(k, default)] *)
Definition dict_get (d : list (Z * Q)) (k : Z) (default : xfloat) : xfloat :=
  match find (fun kv => Z.eqb (fst kv) k) d with
  | Some kv => Fin (snd kv)
  | None => default
  end.

Fixpoint mapM {A B : Type} (f : A -> result B) (l : list A) : result (list B) :=
  match l with
  | [] => Ok []
  | x :: l' => y <- f x ;; ys <- mapM f l' ;; Ok (y :: ys)
  end.

Section Predictor.

Variable sqrt : Q -> Q.

(** The draws of the random generator: [standard_normal i] is the standard
    normal deviate behind the [i]-th call of [np.random.normal]. *)
Variable standard_normal : nat -> Q.

(** [np.random.normal(0, scale)], the [i]-th call. *)
Definition random_normal (i : nat) (scale : xfloat) : result xfloat :=
  match scale with
  | NaN => Ok NaN
  | NInf => Raise (ValueError "scale < 0")
  | PInf => Ok (xmul PInf (Fin (standard_normal i)))
  | Fin s =>
      if Qltb s 0 then Raise (ValueError "scale < 0")
      else Ok (Fin (0 + s * standard_normal i))
  end.

Definition train (self : EnsemblePredictor) (df : DataFrame) : EnsemblePredictor :=
  let y := target df in
  {| trained := true;
     historical_mean := Some (match y with [] => NaN | _ => Fin (mean y) end);
     historical_std :=
       Some (if Nat.leb (length y) 1 then NaN else Fin (sqrt (var y)));
     hourly_patterns := Some (group_means (map hour (timestamp df)) y);
     daily_patterns := Some (group_means (map dayofweek (timestamp df)) y) |}.

(** The body of [predict] after the training check. *)
Definition forecast (self : EnsemblePredictor) (df : DataFrame) (hours_ahead : nat)
  : result Table.t :=
  last_timestamp <- iloc_last (timestamp df) 0%Z ;;
  let future_timestamps := Ensemble.future_timestamps last_timestamp hours_ahead in
  predictions <-
    match future_timestamps with
    | [] => Ok []
    | _ =>
      match hourly_patterns self, daily_patterns self with
      | Some hp, Some dp =>
        match historical_mean self, historical_std self with
        | Some hm, Some hs =>
            mapM (fun its : nat * Z =>
                    let '(i, ts) := its in
                    let base_pred := dict_get hp (hour ts) hm in
                    let daily_factor := xdiv (dict_get dp (dayofweek ts) hm) hm in
                    let pred := xmul base_pred daily_factor in
                    noise <- random_normal i (xmul hs (Fin 0.05)) ;;
                    Ok (xadd pred noise))
                 (combine (seq 0 hours_ahead) future_timestamps)
        | _, _ => Raise (TypeError "unsupported operand type(s): 'float' and 'NoneType'")
        end
      | _, _ => Raise (AttributeError "'NoneType' object has no attribute 'get'")
      end
    end ;;
  match historical_std self with
  | None => Raise (TypeError "unsupported operand type(s) for *: 'NoneType' and 'float'")
  | Some hs =>
      let uncertainty := xmul hs (Fin 0.3) in
      Ok {| Table.timestamp := future_timestamps;
            Table.predicted_demand := predictions;
            Table.lower_bound := map (fun p => xsub p uncertainty) predictions;
            Table.upper_bound := map (fun p => xadd p uncertainty) predictions;
            Table.lstm_prediction := predictions;
            Table.prophet_prediction := predictions |}
  end.

(** [predict(df, hours_ahead)]: the predictor after the call, and what the
    call returns or raises. *)
Definition predict (self : EnsemblePredictor) (df : DataFrame) (hours_ahead : nat)
  : EnsemblePredictor * result Table.t :=
  let self' := if negb (trained self) then train self df else self in
  (self', forecast self' df hours_ahead).

Lemma mapM_ok {A B : Type} (f : A -> result B) (l : list A) :
  (forall x, In x l -> exists y, f x = Ok y) ->
  exists ys, mapM f l = Ok ys /\ length ys = length l.
Proof.
  induction l as [|x l IH]; intro H; simpl.
  - now exists [].
  - destruct (H x (or_introl eq_refl)) as [y Hy].
    destruct IH as (ys & Hys & Hlen); [intros; apply H; now right|].
    exists (y :: ys). rewrite Hy, Hys. simpl. now rewrite Hlen.
Qed.

Lemma random_normal_ok (i : nat) (hs : xfloat) :
  hs = NaN \/ (exists s, hs = Fin s /\ 0 <= s) ->
  exists y, random_normal i (xmul hs (Fin 0.05)) = Ok y.
Proof.
  intros [->|(s & -> & Hs)]; cbn [xmul random_normal].
  - now eexists.
  - unfold Qltb.
    assert (E : Qle_bool 0 (s * 0.05) = true) by (apply Qle_bool_iff; lra).
    rewrite E. now eexists.
Qed.

(** After [train], [forecast] returns a table of the requested length. *)
Lemma forecast_after_train (self : EnsemblePredictor) (df : DataFrame) (h : nat) :
  (forall q, 0 <= sqrt q) ->
  timestamp df <> [] ->
  exists tbl,
    forecast (train self df) df h = Ok tbl /\
    length (Table.predicted_demand tbl) = h /\
    length (Table.timestamp tbl) = h.
Proof.
  intros Hsqrt Hne. unfold forecast, iloc_last.
  destruct (timestamp df) as [|t0 ts] eqn:Et; [congruence|]. cbn [bind].
  set (fut := Ensemble.future_timestamps (last (t0 :: ts) 0%Z) h).
  assert (Hfut : length fut = h) by apply Ensemble.future_timestamps_length.
  cbn [train hourly_patterns daily_patterns historical_mean historical_std].
  match goal with
  | |- context [mapM ?f ?l] =>
      destruct (mapM_ok f l) as (ys & Hys & Hlen)
  end.
  { intros [i ts'] _.
    match goal with
    | |- context [random_normal i ?sc] =>
        destruct (random_normal_ok i
                    (if Nat.leb (length (target df)) 1 then NaN
                     else Fin (sqrt (var (target df))))) as [y Hy]
    end.
    - destruct (Nat.leb (length (target df)) 1); [now left|].
      right. eexists. split; [reflexivity | apply Hsqrt].
    - rewrite Hy. cbn [bind]. now eexists. }
  rewrite length_combine, length_seq, Hfut, Nat.min_id in Hlen.
  destruct fut as [|f0 fut'] eqn:Ef.
  - cbn [bind]. eexists. split; [reflexivity|]. simpl in *. split; congruence.
  - rewrite Hys. cbn [bind]. eexists. split; [reflexivity|].
    cbn [Table.predicted_demand Table.timestamp]. split; congruence.
Qed.

End Predictor.
End EnsembleSimple.

(** *** Predicting before training *)

Module NotTrained.
Import Rollout.




Example full_predict_untrained_example :
  Ensemble.predict EnsembleExamples.prepare_one_window
    {| Ensemble.lstm_model := LSTM.mkLSTM 24 8 None;
       Ensemble.prophet_model := Prophet.init;
       Ensemble.preprocessor := Preprocessor.init;
       Ensemble.weights := Config.ENSEMBLE_WEIGHTS;
       Ensemble.trained := false |}
    (EnsembleExamples.two_hours 100 200) 24
  = Raise (ValueError "Models not trained yet!").
Proof. reflexivity. Qed.

End NotTrained.

(* ================================================================= *)
(** * Further properties of the code *)

(** ** models/ensemble_predictor.py: the table and its confidence column *)

Module EnsembleExtras.
Import Rollout Ensemble.

Section Predictor.

Variable prepare_lstm_data :
  Preprocessor.DataPreprocessor -> DataFrame ->
  result (list ndarray2 * Preprocessor.DataPreprocessor).

Lemma predict_ok_inv (self : EnsemblePredictor) (df : DataFrame) (h : nat)
  (r : Forecast.t) :
  Ensemble.predict prepare_lstm_data self df h = Ok r ->
  exists ens lo hi,
    r = Forecast.mk (future_timestamps (last (timestamp df) 0%Z) h) ens lo hi
          (or_else (try_or_none (predict_lstm prepare_lstm_data self df h)) ens)
          (or_else (try_or_none (some_of (predict_prophet self h))) ens) /\
    length ens = h /\ length lo = h /\ length hi = h /\
    length (Forecast.lstm_prediction r) = h /\
    length (Forecast.prophet_prediction r) = h.
Proof.
  unfold Ensemble.predict. destruct (trained self); cbn [negb]; [|discriminate].
  destruct (combine _ _ _) as [[ens unc]|]; cbn [bind]; [|discriminate].
  unfold iloc_last. destruct (timestamp df) as [|t0 ts]; cbn [bind]; [discriminate|].
  destruct (np_binop Qminus ens unc) as [lo|]; cbn [bind]; [|discriminate].
  destruct (np_binop Qplus ens unc) as [hi|]; cbn [bind]; [|discriminate].
  unfold Forecast.make. rewrite future_timestamps_length.
  match goal with |- context [if ?b then _ else _] => destruct b eqn:E end;
    [|discriminate].
  repeat (apply andb_true_iff in E; destruct E as [E ?]).
  repeat match goal with H : Nat.eqb _ _ = true |- _ => apply Nat.eqb_eq in H end.
  intro Hr. injection Hr as <-.
  exists ens, lo, hi.
  cbn [Forecast.lstm_prediction Forecast.prophet_prediction].
  repeat split; assumption.
Qed.

Lemma nth_error_zip_with3 {A B C D : Type} (f : A -> B -> C -> D)
  (xs : list A) (ys : list B) (zs : list C) (i : nat) (x : A) (y : B) (z : C) :
  nth_error xs i = Some x -> nth_error ys i = Some y -> nth_error zs i = Some z ->
  nth_error (zip_with3 f xs ys zs) i = Some (f x y z).
Proof.
  revert ys zs i. induction xs as [|a xs IH]; intros [|b ys] [|c zs] [|i];
    simpl; try discriminate.
  - now intros [= ->] [= ->] [= ->].
  - apply IH.
Qed.

Lemma zip_with3_length {A B C D : Type} (f : A -> B -> C -> D)
  (xs : list A) (ys : list B) (zs : list C) :
  length ys = length xs -> length zs = length xs ->
  length (zip_with3 f xs ys zs) = length xs.
Proof.
  revert ys zs. induction xs as [|a xs IH]; intros [|b ys] [|c zs]; simpl;
    try discriminate; try reflexivity.
  intros [= Hy] [= Hz]. f_equal. now apply IH.
Qed.

Lemma predict_with_confidence_inv (self : EnsemblePredictor) (df : DataFrame)
  (h : nat) (t : Forecast.with_confidence) :
  Ensemble.predict_with_confidence prepare_lstm_data self df h = Ok t ->
  Ensemble.predict prepare_lstm_data self df h = Ok (Forecast.table t) /\
  Forecast.confidence t
  = zip_with3 confidence_of
      (Forecast.predicted_demand (Forecast.table t))
      (Forecast.lower_bound (Forecast.table t))
      (Forecast.upper_bound (Forecast.table t)).
Proof.
  unfold Ensemble.predict_with_confidence.
  destruct (Ensemble.predict prepare_lstm_data self df h) as [r|]; cbn [bind];
    [|discriminate].
  intro H. injection H as <-. now split.
Qed.

(** X1.  Whatever [predict] returns is a table of exactly [hours_ahead]
    rows in each of its six columns; its timestamps are the hours after the
    last timestamp of the input, in order; and a "raw" model column whose
    model delivered nothing is a copy of the ensemble column. *)
Theorem predict_table_shape (self : EnsemblePredictor) (df : DataFrame) (h : nat)
  (r : Forecast.t) :
  Ensemble.predict prepare_lstm_data self df h = Ok r ->
  (length (Forecast.timestamp r) = h /\
   length (Forecast.predicted_demand r) = h /\
   length (Forecast.lower_bound r) = h /\
   length (Forecast.upper_bound r) = h /\
   length (Forecast.lstm_prediction r) = h /\
   length (Forecast.prophet_prediction r) = h) /\
  (forall i, (i < h)%nat ->
     nth_error (Forecast.timestamp r) i
     = Some (last (timestamp df) 0 + Z.of_nat i + 1)%Z) /\
  (try_or_none (predict_lstm prepare_lstm_data self df h) = None ->
   Forecast.lstm_prediction r = Forecast.predicted_demand r) /\
  (try_or_none (some_of (predict_prophet self h)) = None ->
   Forecast.prophet_prediction r = Forecast.predicted_demand r).
Proof.
  intro Hr.
  destruct (predict_ok_inv self df h r Hr)
    as (ens & lo & hi & -> & He & Hlo & Hhi & Hl & Hp).
  cbn [Forecast.timestamp Forecast.predicted_demand Forecast.lower_bound
       Forecast.upper_bound Forecast.lstm_prediction Forecast.prophet_prediction]
    in *.
  split; [|split; [|split]].
  - rewrite future_timestamps_length. repeat split; assumption.
  - intros i Hi. unfold future_timestamps.
    rewrite nth_error_map, nth_error_seq.
    destruct (Nat.ltb_spec i h) as [_|Hge]; [|lia]. cbn.
    f_equal. lia.
  - intros ->. reflexivity.
  - intros ->. reflexivity.
Qed.

(** X2.  In the table of [predict_with_confidence] there is one confidence
    per row, and on every row whose point estimate is not zero it is a
    number between 0 and 100. *)
Theorem confidence_in_range_at_nonzero_point (self : EnsemblePredictor)
  (df : DataFrame) (h : nat) (t : Forecast.with_confidence) :
  Ensemble.predict_with_confidence prepare_lstm_data self df h = Ok t ->
  length (Forecast.confidence t) = h /\
  forall i pt,
    nth_error (Forecast.predicted_demand (Forecast.table t)) i = Some pt ->
    ~ pt == 0 ->
    exists c, nth_error (Forecast.confidence t) i = Some (Fin c) /\
              0 <= c /\ c <= 100.
Proof.
  intro Ht. destruct (predict_with_confidence_inv self df h t Ht) as [Hr Hc].
  destruct (predict_ok_inv self df h _ Hr)
    as (ens & lo & hi & Er & He & Hlo & Hhi & _ & _).
  rewrite Hc, Er.
  cbn [Forecast.predicted_demand Forecast.lower_bound Forecast.upper_bound].
  split; [rewrite zip_with3_length; congruence|].
  intros i pt Hpt Hnz.
  assert (Hi : (i < h)%nat) by (rewrite <- He; apply nth_error_Some; congruence).
  destruct (nth_error_lt_Some lo i) as [l Hl]; [lia|].
  destruct (nth_error_lt_Some hi i) as [u Hu]; [lia|].
  rewrite (nth_error_zip_with3 confidence_of ens lo hi i pt l u Hpt Hl Hu).
  pose proof (Confidence.confidence_in_range pt l u Hnz) as Hin.
  destruct (confidence_of pt l u) as [c| | |]; try contradiction.
  exists c. split; [reflexivity | exact Hin].
Qed.

(** The confidence of a row, given its point estimate [pt <> 0] and the
    uncertainty [u] behind its bounds [pt - u] and [pt + u]. *)
Lemma confidence_of_band (pt u : Q) :
  ~ pt == 0 ->
  exists c, confidence_of pt (pt - u) (pt + u) = Fin c /\
            c == Qmin (Qmax (100 * (1 - u / pt)) 0) 100.
Proof.
  intro Hnz. unfold confidence_of. cbn [xdiv].
  destruct (Qeq_bool (2 * pt) 0) eqn:E.
  - apply Qeq_bool_eq in E. exfalso. apply Hnz. lra.
  - cbn. eexists. split; [reflexivity|].
    assert (Hq : 100 * (1 + - ((pt + u - (pt - u)) / (2 * pt)))
                 == 100 * (1 - u / pt)) by (field; exact Hnz).
    now rewrite Hq.
Qed.

(** X3.  With a single surviving forecast the confidence is 90 on every row
    whose point estimate is not zero, whatever the forecast. *)
Theorem single_forecast_confidence_is_90 (self : EnsemblePredictor)
  (df : DataFrame) (h : nat) (v : list Q) (t : Forecast.with_confidence) :
  lstm_only prepare_lstm_data self df h v \/
  prophet_only prepare_lstm_data self df h v ->
  Ensemble.predict_with_confidence prepare_lstm_data self df h = Ok t ->
  Forecast.predicted_demand (Forecast.table t) = v /\
  forall i pt,
    nth_error v i = Some pt -> ~ pt == 0 ->
    exists c, nth_error (Forecast.confidence t) i = Some (Fin c) /\ c == 90.
Proof.
  intros Hcase Ht.
  destruct (predict_with_confidence_inv self df h t Ht) as [Hr Hc].
  destruct (single_cases prepare_lstm_data self df h v Hcase) as [Hlen Hopt].
  destruct (predict_ok_lengths prepare_lstm_data self df h _ Hr) as (Htr & Hdf & _).
  destruct (predict_single prepare_lstm_data self df h _ _ v Htr Hdf
              eq_refl eq_refl Hopt Hlen) as [_ Hr'].
  rewrite Hr' in Hr. injection Hr as Hr. rewrite Hc, <- Hr.
  cbn [Forecast.predicted_demand Forecast.lower_bound Forecast.upper_bound].
  split; [reflexivity|].
  intros i pt Hpt Hnz.
  destruct (single_rows v i pt Hpt) as (_ & Hlo & Hhi).
  rewrite (nth_error_zip_with3 confidence_of _ _ _ i _ _ _ Hpt Hlo Hhi).
  destruct (confidence_of_band pt (pt * 0.1) Hnz) as (c & Ec & Hcv).
  exists c. split; [now rewrite Ec|].
  rewrite Hcv.
  assert (Hq : 100 * (1 - pt * 0.1 / pt) == 90) by (field; exact Hnz).
  rewrite Hq. rewrite Q.max_l by lra. apply Q.min_l. lra.
Qed.

(** X4.  With both forecasts present, every row whose point estimate is
    negative has confidence 100, however far apart the two forecasts are. *)
Theorem negative_point_confidence_is_100 (self : EnsemblePredictor)
  (df : DataFrame) (h : nat) (l p : list Q) (t : Forecast.with_confidence) :
  predict_lstm prepare_lstm_data self df h = Ok (Some l) ->
  predict_prophet self h = Ok p ->
  Ensemble.predict_with_confidence prepare_lstm_data self df h = Ok t ->
  forall i pt,
    nth_error (Forecast.predicted_demand (Forecast.table t)) i = Some pt ->
    pt < 0 ->
    exists c, nth_error (Forecast.confidence t) i = Some (Fin c) /\ c == 100.
Proof.
  intros Hl Hp Ht.
  destruct (predict_with_confidence_inv self df h t Ht) as [Hr Hc].
  destruct (predict_ok_lengths prepare_lstm_data self df h _ Hr)
    as (Htr & Hdf & _ & Hpl).
  destruct (Hpl p Hp) as [_ Hlen].
  pose proof (predict_lstm_length prepare_lstm_data self df h l Hl) as Hll.
  destruct (predict_both prepare_lstm_data self df h l p Htr Hdf Hl Hp Hlen)
    as (_ & He & _ & Hr').
  rewrite Hr' in Hr. injection Hr as Hr. rewrite Hc, <- Hr.
  cbn [Forecast.predicted_demand Forecast.lower_bound Forecast.upper_bound].
  intros i pt Hpt Hneg.
  assert (Hi : (i < h)%nat) by (rewrite <- He; apply nth_error_Some; congruence).
  destruct (nth_error_lt_Some l i) as [a Ha]; [lia|].
  destruct (nth_error_lt_Some p i) as [b Hb]; [lia|].
  destruct (both_rows (Config.lstm (weights self)) (Config.prophet (weights self))
              l p i a b Ha Hb) as (H1 & _ & H3 & H4).
  rewrite H1 in Hpt. injection Hpt as <-.
  rewrite (nth_error_zip_with3 confidence_of _ _ _ i _ _ _ H1 H3 H4).
  set (pt := Config.lstm (weights self) * a + Config.prophet (weights self) * b) in *.
  assert (Hnz : ~ pt == 0) by lra.
  destruct (confidence_of_band pt (Qabs (a - b) * 0.5) Hnz) as (c & Ec & Hcv).
  exists c. split; [now rewrite Ec|].
  rewrite Hcv.
  pose proof (Qabs_nonneg (a - b)) as Habs.
  assert (Hratio : Qabs (a - b) * 0.5 / pt <= 0).
  { assert (Hpos : 0 <= Qabs (a - b) * 0.5 / (- pt))
      by (apply Qle_shift_div_l; lra).
    assert (E : Qabs (a - b) * 0.5 / pt == - (Qabs (a - b) * 0.5 / (- pt)))
      by (field; lra).
    rewrite E. lra. }
  rewrite Q.max_l by lra. apply Q.min_r. lra.
Qed.

End Predictor.

Definition trend_only_table : Forecast.t :=
  Forecast.mk [2; 3]%Z [10; 10] [10 - 10 * 0.1; 10 - 10 * 0.1]
    [10 + 10 * 0.1; 10 + 10 * 0.1] [10; 10] [10; 10].

Lemma predict_table_shape_witness :
  (length (Forecast.timestamp trend_only_table) = 2%nat /\
   length (Forecast.predicted_demand trend_only_table) = 2%nat /\
   length (Forecast.lower_bound trend_only_table) = 2%nat /\
   length (Forecast.upper_bound trend_only_table) = 2%nat /\
   length (Forecast.lstm_prediction trend_only_table) = 2%nat /\
   length (Forecast.prophet_prediction trend_only_table) = 2%nat) /\
  (forall i, (i < 2)%nat ->
     nth_error (Forecast.timestamp trend_only_table) i
     = Some (last (timestamp EnsembleExamples.rising) 0 + Z.of_nat i + 1)%Z) /\
  (try_or_none (predict_lstm EnsembleExamples.prepare_no_window
                  EnsembleExamples.trend_only_ensemble EnsembleExamples.rising 2) = None ->
   Forecast.lstm_prediction trend_only_table = Forecast.predicted_demand trend_only_table) /\
  (try_or_none (some_of (predict_prophet EnsembleExamples.trend_only_ensemble 2)) = None ->
   Forecast.prophet_prediction trend_only_table = Forecast.predicted_demand trend_only_table).
Proof.
  apply (predict_table_shape EnsembleExamples.prepare_no_window
           EnsembleExamples.trend_only_ensemble EnsembleExamples.rising 2).
  reflexivity.
Defined.

Definition no_table : Forecast.with_confidence :=
  Forecast.mkC (Forecast.mk [] [] [] [] [] []) [].

Definition or_no_table (c : result Forecast.with_confidence) : Forecast.with_confidence :=
  match c with Ok t => t | Raise _ => no_table end.

Definition both_table : Forecast.with_confidence :=
  Eval vm_compute in
    or_no_table (predict_with_confidence EnsembleExamples.prepare_one_window
                   EnsembleExamples.both_ensemble EnsembleExamples.rising 2).

Lemma confidence_in_range_at_nonzero_point_witness :
  length (Forecast.confidence both_table) = 2%nat /\
  forall i pt,
    nth_error (Forecast.predicted_demand (Forecast.table both_table)) i = Some pt ->
    ~ pt == 0 ->
    exists c, nth_error (Forecast.confidence both_table) i = Some (Fin c) /\
              0 <= c /\ c <= 100.
Proof.
  apply (confidence_in_range_at_nonzero_point EnsembleExamples.prepare_one_window
           EnsembleExamples.both_ensemble EnsembleExamples.rising 2 both_table).
  vm_compute. reflexivity.
Defined.

Definition trend_only_confidence : Forecast.with_confidence :=
  Eval vm_compute in
    or_no_table (predict_with_confidence EnsembleExamples.prepare_no_window
                   EnsembleExamples.trend_only_ensemble EnsembleExamples.rising 1).

Lemma single_forecast_confidence_is_90_witness :
  Forecast.predicted_demand (Forecast.table trend_only_confidence) = [10] /\
  forall i pt,
    nth_error [10] i = Some pt -> ~ pt == 0 ->
    exists c, nth_error (Forecast.confidence trend_only_confidence) i = Some (Fin c) /\
              c == 90.
Proof.
  apply (single_forecast_confidence_is_90 EnsembleExamples.prepare_no_window
           EnsembleExamples.trend_only_ensemble EnsembleExamples.rising 1 [10]
           trend_only_confidence).
  - right. exact EnsembleExamples.trend_only_case.
  - vm_compute. reflexivity.
Defined.

(** Both forecasters predict a negative demand: -200 and -150. *)
Definition falling : DataFrame := EnsembleExamples.two_hours 100 (-200).
Definition negative_ensemble : EnsemblePredictor :=
  EnsembleExamples.ensemble_of (EnsembleExamples.constant_prophet (-150) (-160) (-140)).

Definition negative_table : Forecast.with_confidence :=
  Eval vm_compute in
    or_no_table (predict_with_confidence EnsembleExamples.prepare_one_window
                   negative_ensemble falling 1).

Definition negative_lstm_pred : list Q :=
  Eval vm_compute in
    or_else (try_or_none (predict_lstm EnsembleExamples.prepare_one_window
                            negative_ensemble falling 1)) [].

Lemma negative_point_confidence_is_100_witness :
  exists c, nth_error (Forecast.confidence negative_table) 0 = Some (Fin c) /\
            c == 100.
Proof.
  apply (negative_point_confidence_is_100 EnsembleExamples.prepare_one_window
           negative_ensemble falling 1 negative_lstm_pred [-150] negative_table)
    with (pt := hd 0 (Forecast.predicted_demand (Forecast.table negative_table))).
  - vm_compute. reflexivity.
  - vm_compute. reflexivity.
  - vm_compute. reflexivity.
  - reflexivity.
  - vm_compute. reflexivity.
Defined.

Example negative_point_example :
  Forall2 Qeq (Forecast.predicted_demand (Forecast.table negative_table)) [-180] /\
  Forall2 Qeq (Forecast.lower_bound (Forecast.table negative_table)) [-205] /\
  Forall2 Qeq (Forecast.upper_bound (Forecast.table negative_table)) [-155] /\
  Forall2 xeq (Forecast.confidence negative_table) [Fin 100].
Proof. repeat split; repeat constructor. Qed.

End EnsembleExtras.

(** ** Saving and reloading the models *)

Module Persistence.
Import Rollout Ensemble.

(** The saved keras models, by path: [None] where [os.path.exists] is
    false.  Every file is one that [model.save] wrote. *)
Definition FileSystem : Type := string -> option (list Q -> Q).

Definition write (fs : FileSystem) (path : string) (net : list Q -> Q) : FileSystem :=
  fun p => if String.eqb p path then Some net else fs p.

Definition lstm_path : string := "saved_models/lstm_model.h5".

(** [LSTMForecaster()]: the constructor's defaults. *)
Definition new_forecaster : LSTM.LSTMForecaster :=
  {| LSTM.sequence_length := 24; LSTM.n_features := 8; LSTM.model := None |}.

(** [LSTMForecaster.save_model(filepath)], for a path inside a directory. *)
Definition save_model (self : LSTM.LSTMForecaster) (fs : FileSystem) (filepath : string)
  : result FileSystem :=
  match LSTM.model self with
  | None => Raise (ValueError "No model to save!")
  | Some net => Ok (write fs filepath net)
  end.

(** [LSTMForecaster.load_model(filepath)]: the forecaster after the call and
    the returned flag.  Only the network is replaced. *)
Definition load_model (self : LSTM.LSTMForecaster) (fs : FileSystem) (filepath : string)
  : LSTM.LSTMForecaster * bool :=
  match fs filepath with
  | Some net =>
      ({| LSTM.sequence_length := LSTM.sequence_length self;
          LSTM.n_features := LSTM.n_features self;
          LSTM.model := Some net |}, true)
  | None => (self, false)
  end.

(** [EnsemblePredictor()] *)
Definition new_ensemble : EnsemblePredictor :=
  {| lstm_model := new_forecaster;
     prophet_model := Prophet.init;
     preprocessor := Preprocessor.init;
     weights := Config.ENSEMBLE_WEIGHTS;
     trained := false |}.

(** [EnsemblePredictor.save_models()]: only the sequence model is written. *)
Definition save_models (self : EnsemblePredictor) (fs : FileSystem) : result FileSystem :=
  save_model (lstm_model self) fs lstm_path.

(** [EnsemblePredictor.load_models()] *)
Definition load_models (self : EnsemblePredictor) (fs : FileSystem)
  : EnsemblePredictor * bool :=
  let '(m, success) := load_model (lstm_model self) fs lstm_path in
  ({| lstm_model := m;
      prophet_model := prophet_model self;
      preprocessor := preprocessor self;
      weights := weights self;
      trained := if success then true else trained self |}, success).

Section Reload.

Variable prepare_lstm_data :
  Preprocessor.DataPreprocessor -> DataFrame ->
  result (list ndarray2 * Preprocessor.DataPreprocessor).

Lemma unfitted_prophet_raises (self : EnsemblePredictor) (h : nat) :
  Prophet.fitted (prophet_model self) = false ->
  predict_prophet self h = Raise (ValueError "Model not trained yet!").
Proof.
  intro H. unfold predict_prophet, Prophet.predict_future, Prophet.predict.
  now rewrite H.
Qed.

(** X5.  [load_models] on a fresh ensemble.  Without a saved file it returns
    False and the ensemble stays untrained, so [predict] raises.  With a
    saved file it returns True and marks the ensemble trained, but only the
    network is loaded: the trend forecaster is not fitted and the shape
    stays (24, 8).  From then on [predict] never combines two forecasts: a
    table it returns is the sequence forecast in all three demand columns,
    and when the sequence path fails it raises "Both models failed". *)
Theorem load_models_then_predict (fs : FileSystem) (df : DataFrame) (h : nat) :
  let ens := fst (load_models new_ensemble fs) in
  let ok := snd (load_models new_ensemble fs) in
  (fs lstm_path = None ->
   ok = false /\ ens = new_ensemble /\
   predict prepare_lstm_data ens df h = Raise (ValueError "Models not trained yet!")) /\
  (forall net, fs lstm_path = Some net ->
   ok = true /\ trained ens = true /\
   LSTM.model (lstm_model ens) = Some net /\
   LSTM.sequence_length (lstm_model ens) = 24%nat /\
   LSTM.n_features (lstm_model ens) = 8%nat /\
   Prophet.fitted (prophet_model ens) = false /\
   predict_prophet ens h = Raise (ValueError "Model not trained yet!") /\
   (forall r, predict prepare_lstm_data ens df h = Ok r ->
      try_or_none (predict_lstm prepare_lstm_data ens df h)
        = Some (Forecast.predicted_demand r) /\
      Forecast.lstm_prediction r = Forecast.predicted_demand r /\
      Forecast.prophet_prediction r = Forecast.predicted_demand r /\
      Forecast.lower_bound r
        = zip_with Qminus (Forecast.predicted_demand r)
            (np_rscale (Forecast.predicted_demand r) 0.1)) /\
   (try_or_none (predict_lstm prepare_lstm_data ens df h) = None ->
    predict prepare_lstm_data ens df h
      = Raise (ValueError "Both models failed to predict!"))).
Proof.
  intros ens ok. split.
  - intro Hfs. unfold ens, ok, load_models, load_model.
    cbn [lstm_model new_ensemble]. rewrite Hfs. cbn. repeat split.
  - intros net Hfs.
    assert (Eens : ens = {| lstm_model := LSTM.mkLSTM 24 8 (Some net);
                            prophet_model := Prophet.init;
                            preprocessor := Preprocessor.init;
                            weights := Config.ENSEMBLE_WEIGHTS;
                            trained := true |}).
    { unfold ens, load_models, load_model. cbn [lstm_model new_ensemble].
      rewrite Hfs. reflexivity. }
    assert (Eok : ok = true).
    { unfold ok, load_models, load_model. cbn [lstm_model new_ensemble].
      rewrite Hfs. reflexivity. }
    clearbody ens ok. subst ens ok.
    set (e := {| lstm_model := LSTM.mkLSTM 24 8 (Some net);
                 prophet_model := Prophet.init;
                 preprocessor := Preprocessor.init;
                 weights := Config.ENSEMBLE_WEIGHTS;
                 trained := true |}).
    assert (Hp : predict_prophet e h = Raise (ValueError "Model not trained yet!"))
      by (apply unfitted_prophet_raises; reflexivity).
    do 6 (split; [reflexivity|]). split; [exact Hp|]. split.
    + intros r Hr.
      unfold Ensemble.predict in Hr. cbn [trained e negb] in Hr. fold e in Hr.
      rewrite Hp in Hr. cbn [some_of bind try_or_none] in Hr.
      destruct (try_or_none (predict_lstm prepare_lstm_data e df h)) as [l|] eqn:El;
        cbn [combine bind] in Hr; [|discriminate].
      unfold iloc_last in Hr. destruct (timestamp df); cbn [bind] in Hr; [discriminate|].
      rewrite !np_binop_same_length in Hr
        by (unfold np_rscale; now rewrite length_map).
      cbn [bind or_else] in Hr. unfold Forecast.make in Hr.
      match type of Hr with (if ?b then _ else _) = _ => destruct b end;
        [|discriminate].
      injection Hr as <-. cbn. repeat split.
    + intro El. unfold Ensemble.predict. cbn [trained e negb]. fold e.
      rewrite El, Hp. reflexivity.
Qed.

(** X6.  Train, save, restart, load: a network saved by an ensemble trained
    on windows that do not hold 24 x 8 numbers is found again by
    [load_models], but the fresh forecaster still reshapes to (24, 8), and
    the trend forecaster is not restored; so every later [predict] raises
    "Both models failed to predict!". *)
Theorem reload_with_other_window_shape (self : EnsemblePredictor) (fs : FileSystem)
  (net : list Q -> Q) (df : DataFrame) (h : nat) :
  LSTM.model (lstm_model self) = Some net ->
  (forall X pp, prepare_lstm_data Preprocessor.init df = Ok (X, pp) ->
                size (last X (mk2d 0 [])) <> (24 * 8)%nat) ->
  exists fs',
    save_models self fs = Ok fs' /\
    snd (load_models new_ensemble fs') = true /\
    LSTM.model (lstm_model (fst (load_models new_ensemble fs'))) = Some net /\
    predict prepare_lstm_data (fst (load_models new_ensemble fs')) df h
      = Raise (ValueError "Both models failed to predict!").
Proof.
  intros Hnet Hshape. unfold save_models, save_model. rewrite Hnet.
  eexists. split; [reflexivity|].
  set (e := {| lstm_model := LSTM.mkLSTM 24 8 (Some net);
               prophet_model := Prophet.init;
               preprocessor := Preprocessor.init;
               weights := Config.ENSEMBLE_WEIGHTS;
               trained := true |}).
  assert (Eload : load_models new_ensemble (write fs lstm_path net) = (e, true)).
  { unfold load_models, load_model, write. cbn [lstm_model new_ensemble].
    now rewrite String.eqb_refl. }
  rewrite Eload. cbn [fst snd]. do 2 (split; [reflexivity|]).
  assert (El : try_or_none (predict_lstm prepare_lstm_data e df h) = None).
  { unfold predict_lstm. cbn [preprocessor lstm_model e].
    destruct (prepare_lstm_data Preprocessor.init df) as [[X pp]|] eqn:Ep;
      cbn [bind]; [|reflexivity].
    specialize (Hshape X pp eq_refl).
    destruct X as [|x X]; [reflexivity|].
    unfold LSTM.predict_sequence, rollout_state. cbn [LSTM.model LSTM.n_features].
    destruct h as [|h].
    - cbn [for_range bind snd]. unfold Preprocessor.inverse_scale.
      destruct (Preprocessor.scaler pp); reflexivity.
    - cbn [for_range]. unfold rollout_body at 1. unfold LSTM.predict_one at 1.
      cbn [LSTM.sequence_length LSTM.n_features].
      destruct (Nat.eqb_spec (size (last (x :: X) (mk2d 0 []))) (24 * 8)) as [E|_];
        [contradiction|]. reflexivity. }
  unfold Ensemble.predict. cbn [trained e negb]. fold e.
  rewrite El, unfitted_prophet_raises by reflexivity. reflexivity.
Qed.

End Reload.

(** A network trained on windows of 15 columns, and a windowing that
    produces such windows. *)
Definition wide_window : ndarray2 := mk2d 15 (repeat (repeat 0 15) 24).

Definition prepare_wide (pp : Preprocessor.DataPreprocessor) (df : DataFrame)
  : result (list ndarray2 * Preprocessor.DataPreprocessor) :=
  '(pp', _) <- Preprocessor.scale_features pp (target df) true ;;
  Ok ([wide_window], pp').

Definition trained_wide : EnsemblePredictor :=
  {| lstm_model := LSTM.mkLSTM 24 15 (Some sumQ);
     prophet_model := EnsembleExamples.constant_prophet 150 140 170;
     preprocessor := Preprocessor.init;
     weights := Config.ENSEMBLE_WEIGHTS;
     trained := true |}.

Definition empty_fs : FileSystem := fun _ => None.

Lemma reload_with_other_window_shape_witness :
  exists fs',
    save_models trained_wide empty_fs = Ok fs' /\
    snd (load_models new_ensemble fs') = true /\
    LSTM.model (lstm_model (fst (load_models new_ensemble fs'))) = Some sumQ /\
    predict prepare_wide (fst (load_models new_ensemble fs')) EnsembleExamples.rising 24
      = Raise (ValueError "Both models failed to predict!").
Proof.
  apply (reload_with_other_window_shape prepare_wide trained_wide empty_fs sumQ
           EnsembleExamples.rising 24).
  - reflexivity.
  - intros X pp H. vm_compute in H. injection H as <- _. vm_compute. discriminate.
Defined.

(** Before the restart the same ensemble forecasts. *)
Example trained_wide_predicts :
  is_raise (predict prepare_wide trained_wide EnsembleExamples.rising 24) = false.
Proof. vm_compute. reflexivity. Qed.

End Persistence.

(** ** utils/anomaly_detector.py: the other detectors *)

Module AnomalyExtras.
Import AnomalyDetector.

(** *** Percentiles of a sorted array *)

Fixpoint ascending (l : list Q) : Prop :=
  match l with
  | [] => True
  | x :: l' => Forall (Qle x) l' /\ ascending l'
  end.

Lemma insert_sorted_Forall (P : Q -> Prop) (x : Q) (l : list Q) :
  P x -> Forall P l -> Forall P (insert_sorted x l).
Proof.
  intros Hx Hl. induction Hl as [|y l Hy Hl IH]; simpl.
  - now constructor.
  - destruct (Qle_bool x y); repeat constructor; assumption.
Qed.

Lemma insert_sorted_ascending (x : Q) (l : list Q) :
  ascending l -> ascending (insert_sorted x l).
Proof.
  induction l as [|y l IH]; simpl; intro H.
  - split; constructor.
  - destruct H as [Hy Hl]. destruct (Qle_bool x y) eqn:E.
    + apply Qle_bool_iff in E. simpl. split; [|now split].
      constructor; [exact E|].
      eapply Forall_impl; [|exact Hy]. intros z Hz. simpl in Hz. lra.
    + simpl. split; [|now apply IH].
      apply insert_sorted_Forall; [|exact Hy].
      destruct (Qlt_le_dec y x) as [H|H]; [lra|].
      apply Qle_bool_iff in H. congruence.
Qed.

Lemma sort_ascending (l : list Q) : ascending (sort l).
Proof.
  induction l as [|x l IH]; simpl; [exact I|].
  now apply insert_sorted_ascending.
Qed.

Lemma insert_sorted_length (x : Q) (l : list Q) :
  length (insert_sorted x l) = S (length l).
Proof.
  induction l as [|y l IH]; simpl; [reflexivity|].
  destruct (Qle_bool x y); simpl; [reflexivity | now rewrite IH].
Qed.

Lemma sort_length (l : list Q) : length (sort l) = length l.
Proof.
  induction l as [|x l IH]; simpl; [reflexivity|].
  now rewrite insert_sorted_length, IH.
Qed.

Lemma ascending_nth (l : list Q) (i j : nat) :
  ascending l -> (i <= j)%nat -> (j < length l)%nat -> nth i l 0 <= nth j l 0.
Proof.
  revert i j. induction l as [|x l IH]; intros i j Hasc Hij Hj; simpl in Hj; [lia|].
  destruct Hasc as [Hx Hl].
  destruct i as [|i], j as [|j]; simpl; try lia.
  - lra.
  - rewrite Forall_forall in Hx. apply Hx, nth_In. lia.
  - apply IH; [assumption | lia | lia].
Qed.

(** The value [np.percentile] interpolates at the virtual index [h] of the
    sorted array [a]. *)
Definition interpolate (a : list Q) (h : Q) : Q :=
  let lo := Z.to_nat (Qfloor h) in
  let hi := Nat.min (lo + 1) (length a - 1) in
  nth lo a 0 + (nth hi a 0 - nth lo a 0) * (h - inject_Z (Qfloor h)).

Lemma percentile_interpolate (data : list Q) (q : Q) :
  percentile data q
  = interpolate (sort data) (q / 100 * inject_Z (Z.of_nat (length (sort data) - 1))).
Proof. reflexivity. Qed.

Lemma floor_bounds (h : Q) (n : nat) :
  0 <= h -> h <= inject_Z (Z.of_nat n) ->
  (Z.to_nat (Qfloor h) <= n)%nat /\
  inject_Z (Z.of_nat (Z.to_nat (Qfloor h))) <= h /\
  h < inject_Z (Z.of_nat (Z.to_nat (Qfloor h))) + 1 /\
  inject_Z (Qfloor h) = inject_Z (Z.of_nat (Z.to_nat (Qfloor h))).
Proof.
  intros H0 Hn.
  assert (Hf0 : (0 <= Qfloor h)%Z).
  { change 0%Z with (Qfloor 0). now apply Qfloor_resp_le. }
  assert (Hfn : (Qfloor h <= Z.of_nat n)%Z).
  { rewrite <- (Qfloor_Z (Z.of_nat n)). now apply Qfloor_resp_le. }
  rewrite Z2Nat.id by exact Hf0.
  pose proof (Qfloor_le h). pose proof (Qlt_floor h) as Hlt.
  rewrite inject_Z_plus in Hlt. change (inject_Z 1) with 1 in Hlt.
  repeat split; try assumption. lia.
Qed.

(** Interpolation is monotone in the virtual index. *)
Lemma interpolate_monotone (a : list Q) (h1 h2 : Q) :
  ascending a -> a <> [] ->
  0 <= h1 -> h1 <= h2 -> h2 <= inject_Z (Z.of_nat (length a - 1)) ->
  interpolate a h1 <= interpolate a h2.
Proof.
  intros Hasc Hne H0 H12 Hn.
  assert (Hlen : (1 <= length a)%nat) by (destruct a; simpl; [congruence | lia]).
  destruct (floor_bounds h1 (length a - 1) H0 ltac:(lra)) as (Hk1 & Hl1 & Hu1 & E1).
  destruct (floor_bounds h2 (length a - 1) ltac:(lra) Hn) as (Hk2 & Hl2 & Hu2 & E2).
  unfold interpolate. rewrite E1, E2.
  set (k1 := Z.to_nat (Qfloor h1)) in *. set (k2 := Z.to_nat (Qfloor h2)) in *.
  assert (Hk12 : (k1 <= k2)%nat).
  { unfold k1, k2. apply Z2Nat.inj_le.
    - change 0%Z with (Qfloor 0). now apply Qfloor_resp_le.
    - change 0%Z with (Qfloor 0). apply Qfloor_resp_le. lra.
    - apply Qfloor_resp_le. exact H12. }
  set (g1 := h1 - inject_Z (Z.of_nat k1)). set (g2 := h2 - inject_Z (Z.of_nat k2)).
  assert (Hg1 : 0 <= g1 /\ g1 < 1) by (unfold g1; split; lra).
  assert (Hg2 : 0 <= g2 /\ g2 < 1) by (unfold g2; split; lra).
  set (u1 := Nat.min (k1 + 1) (length a - 1)).
  set (u2 := Nat.min (k2 + 1) (length a - 1)).
  assert (Ha1 : nth k1 a 0 <= nth u1 a 0) by (apply ascending_nth; unfold u1; try assumption; lia).
  assert (Ha2 : nth k2 a 0 <= nth u2 a 0) by (apply ascending_nth; unfold u2; try assumption; lia).
  destruct (Nat.eq_dec k1 k2) as [Ek|Nk].
  - assert (Eu : u1 = u2) by (unfold u1, u2; now rewrite Ek).
    assert (Hg : g1 <= g2).
    { unfold g1, g2. rewrite Ek. lra. }
    rewrite Eu, Ek in *. nra.
  - assert (Hmid : nth u1 a 0 <= nth k2 a 0)
      by (apply ascending_nth; unfold u1; try assumption; lia).
    nra.
Qed.

Lemma quartiles_ordered (data : list Q) :
  data <> [] -> percentile data 25 <= percentile data 75.
Proof.
  intro Hne. rewrite !percentile_interpolate.
  assert (Hs : sort data <> []).
  { intro E. apply (f_equal (@length Q)) in E. rewrite sort_length in E.
    destruct data; [congruence | discriminate]. }
  set (n := inject_Z (Z.of_nat (length (sort data) - 1))).
  assert (Hn : 0 <= n).
  { unfold n. change 0 with (inject_Z 0). rewrite <- Zle_Qle. lia. }
  apply interpolate_monotone; try assumption.
  - apply sort_ascending.
  - apply Qmult_le_0_compat; [|exact Hn]. compute. discriminate.
  - apply Qmult_le_compat_r; [|exact Hn]. compute. discriminate.
  - fold n. clearbody n. assert (E : 75 / 100 * n == (3 # 4) * n) by field.
    rewrite E. lra.
Qed.

Lemma Qltb_lt (a b : Q) : Qltb a b = true <-> a < b.
Proof.
  unfold Qltb. rewrite negb_true_iff. split; intro H.
  - destruct (Qlt_le_dec a b) as [Hlt|Hle]; [exact Hlt|].
    apply Qle_bool_iff in Hle. congruence.
  - destruct (Qle_bool b a) eqn:E; [|reflexivity].
    apply Qle_bool_iff in E. lra.
Qed.

Lemma in_combine_seq (l : list Q) (s i : nat) (v : Q) :
  In (i, v) (combine (seq s (length l)) l) <->
  (s <= i)%nat /\ nth_error l (i - s) = Some v.
Proof.
  revert s. induction l as [|x l IH]; intro s; simpl.
  - split; [contradiction|]. intros [_ H]. destruct (i - s)%nat; discriminate.
  - rewrite IH. split.
    + intros [[= <- <-]|[Hs Hn]].
      * split; [lia|]. now rewrite Nat.sub_diag.
      * split; [lia|]. replace (i - s)%nat with (S (i - S s)) by lia. exact Hn.
    + intros [Hs Hn]. destruct (Nat.eq_dec i s) as [->|Hne].
      * left. rewrite Nat.sub_diag in Hn. simpl in Hn. congruence.
      * right. split; [lia|].
        replace (i - s)%nat with (S (i - S s)) in Hn by lia. exact Hn.
Qed.

Definition iqr_record (lo hi w : Q) (i : nat) (v : Q) : IQR.t :=
  {| IQR.index := i; IQR.value := v;
     IQR.expected_range := (lo, hi);
     IQR.deviation := Qmin (Qabs (v - lo)) (Qabs (v - hi));
     IQR.severity :=
       if (Qltb v (lo - w) || Qltb (hi + w) v)%bool then High else Medium |}.

Lemma iqr_records_in (data : list Q) (lo hi w : Q) (a : IQR.t) :
  In a (flat_map (fun iv : nat * Q =>
                    let '(idx, v) := iv in
                    if (Qltb v lo || Qltb hi v)%bool
                    then [iqr_record lo hi w idx v]
                    else [])
                 (combine (seq 0 (length data)) data)) <->
  exists i, (i < length data)%nat /\
            (nth i data 0 < lo \/ hi < nth i data 0) /\
            a = iqr_record lo hi w i (nth i data 0).
Proof.
  rewrite in_flat_map. split.
  - intros ([i v] & Hin & Ha).
    apply in_combine_seq in Hin. destruct Hin as [_ Hn].
    rewrite Nat.sub_0_r in Hn. cbn beta iota in Ha.
    destruct (Qltb v lo || Qltb hi v)%bool eqn:Ec; [|destruct Ha].
    destruct Ha as [<-|[]]. exists i.
    rewrite (nth_error_nth _ _ 0 Hn).
    split; [apply nth_error_Some; congruence|].
    split; [|reflexivity].
    apply orb_true_iff in Ec. rewrite !Qltb_lt in Ec. exact Ec.
  - intros (i & Hi & Hc & ->).
    exists (i, nth i data 0). split.
    + apply in_combine_seq. split; [lia|]. rewrite Nat.sub_0_r.
      now apply nth_error_nth'.
    + assert (Ec : (Qltb (nth i data 0) lo || Qltb hi (nth i data 0))%bool = true)
        by (apply orb_true_iff; rewrite !Qltb_lt; exact Hc).
      cbn beta iota. rewrite Ec. now left.
Qed.

(** X7.  The IQR detector on a non-empty series.  The quartiles are ordered,
    so the expected range [Q1 - 1.5 IQR, Q3 + 1.5 IQR] is a real interval
    around [Q1, Q3]; the flagged positions are exactly those whose value
    lies strictly outside it, so no value between the quartiles is ever
    flagged; each record carries its value, the range, a positive distance
    to the range, and is "high" exactly when the value lies more than one
    further IQR outside. *)
Theorem iqr_flags_outside_fences (data : list Q) :
  data <> [] ->
  let q1 := percentile data 25 in
  let q3 := percentile data 75 in
  let iqr := q3 - q1 in
  let lower := q1 - 1.5 * iqr in
  let upper := q3 + 1.5 * iqr in
  let found := detect_iqr_anomalies data in
  (lower <= q1 /\ q1 <= q3 /\ q3 <= upper) /\
  (forall i, In i (map IQR.index found) <->
             (i < length data)%nat /\
             (nth i data 0 < lower \/ upper < nth i data 0)) /\
  (forall a, In a found ->
     IQR.value a = nth (IQR.index a) data 0 /\
     IQR.expected_range a = (lower, upper) /\
     0 < IQR.deviation a /\
     (IQR.severity a = High <->
        IQR.value a < lower - iqr \/ upper + iqr < IQR.value a)) /\
  (forall i, q1 <= nth i data 0 /\ nth i data 0 <= q3 ->
             ~ In i (map IQR.index found)).
Proof.
  intros Hne q1 q3 iqr lower upper found.
  pose proof (quartiles_ordered data Hne) as Hq. fold q1 q3 in Hq.
  assert (Hfence : lower <= q1 /\ q1 <= q3 /\ q3 <= upper)
    by (unfold lower, upper, iqr; repeat split; lra).
  assert (Hfound : forall a, In a found <->
            exists i, (i < length data)%nat /\
              (nth i data 0 < lower \/ upper < nth i data 0) /\
              a = iqr_record lower upper iqr i (nth i data 0)).
  { intro a. rewrite <- (iqr_records_in data lower upper iqr a).
    unfold found, detect_iqr_anomalies.
    destruct data; [congruence | reflexivity]. }
  assert (Hidx : forall i, In i (map IQR.index found) <->
             (i < length data)%nat /\
             (nth i data 0 < lower \/ upper < nth i data 0)).
  { intro i. rewrite in_map_iff. split.
    - intros (a & <- & Ha). apply Hfound in Ha.
      destruct Ha as (j & Hj & Hc & ->). now cbn.
    - intros [Hi Hc]. exists (iqr_record lower upper iqr i (nth i data 0)).
      split; [reflexivity|]. apply Hfound. now exists i. }
  split; [exact Hfence|]. split; [exact Hidx|]. split.
  - intros a Ha. apply Hfound in Ha. destruct Ha as (i & Hi & Hc & ->).
    cbn [iqr_record IQR.index IQR.value IQR.expected_range IQR.deviation
         IQR.severity].
    set (v := nth i data 0) in *.
    split; [reflexivity|]. split; [reflexivity|]. split.
    + apply Q.min_glb_lt; apply Qabs_case; intros; lra.
    + destruct (Qltb v (lower - iqr) || Qltb (upper + iqr) v)%bool eqn:Es.
      * apply orb_true_iff in Es. rewrite !Qltb_lt in Es. now split.
      * split; [discriminate|]. intro H.
        assert (Et : (Qltb v (lower - iqr) || Qltb (upper + iqr) v)%bool = true)
          by (apply orb_true_iff; rewrite !Qltb_lt; exact H).
        congruence.
  - intros i [H1 H3] Hin. apply Hidx in Hin. destruct Hin as [_ [H|H]]; lra.
Qed.

Lemma iqr_flags_outside_fences_witness :
  let data := spike_series 30 15 in
  let q1 := percentile data 25 in
  let q3 := percentile data 75 in
  let iqr := q3 - q1 in
  let lower := q1 - 1.5 * iqr in
  let upper := q3 + 1.5 * iqr in
  let found := detect_iqr_anomalies data in
  (lower <= q1 /\ q1 <= q3 /\ q3 <= upper) /\
  (forall i, In i (map IQR.index found) <->
             (i < length data)%nat /\
             (nth i data 0 < lower \/ upper < nth i data 0)) /\
  (forall a, In a found ->
     IQR.value a = nth (IQR.index a) data 0 /\
     IQR.expected_range a = (lower, upper) /\
     0 < IQR.deviation a /\
     (IQR.severity a = High <->
        IQR.value a < lower - iqr \/ upper + iqr < IQR.value a)) /\
  (forall i, q1 <= nth i data 0 /\ nth i data 0 <= q3 ->
             ~ In i (map IQR.index found)).
Proof.
  apply (iqr_flags_outside_fences (spike_series 30 15)). discriminate.
Defined.

(** *** Sudden changes *)

(** The record [detect_sudden_changes] builds at a position. *)
Definition change_record (data : list Q) (change_threshold : Q) (idx : nat)
  : Change.t :=
  let pc := pct_change data idx in
  {| Change.index := idx;
     Change.from_value := nth (idx - 1) data 0;
     Change.to_value := nth idx data 0;
     Change.change_percent := xmul pc (Fin 100);
     Change.type := if xgtb pc (Fin 0) then Spike else Drop;
     Change.severity :=
       if xgtb (xabs pc) (Fin (change_threshold * 2)) then High else Medium |}.

Lemma detect_sudden_changes_eq (data : list Q) (t : Q) :
  detect_sudden_changes data t
  = map (change_record data t)
      (filter (fun i => xgtb (xabs (pct_change data i)) (Fin t))
              (seq 0 (length data))).
Proof.
  unfold detect_sudden_changes.
  apply (flat_map_guarded
           (fun i => xgtb (xabs (pct_change data i)) (Fin t))
           (fun i => (Nat.ltb 0 i && negb (isnan (pct_change data i)))%bool)
           (change_record data t)).
  intros [|j] H; [discriminate|].
  destruct (pct_change data (S j)); try discriminate; reflexivity.
Qed.

(** The relative change after a previous value [prev]: a rational when
    [prev] is not zero, otherwise an infinity of the sign of the new value
    (or NaN for 0 / 0). *)
Lemma pct_change_cases (data : list Q) (j : nat) :
  let prev := nth j data 0 in
  let cur := nth (S j) data 0 in
  (prev == 0 /\ pct_change data (S j) = inf_of_sign (cur ?= 0)) \/
  (~ prev == 0 /\ pct_change data (S j) = Fin (cur / prev + - (1))).
Proof.
  intros prev cur. unfold pct_change. fold prev cur. unfold xsub, xdiv.
  destruct (Qeq_bool prev 0) eqn:E.
  - left. split; [now apply Qeq_bool_eq|].
    destruct (cur ?= 0); reflexivity.
  - right. split; [now apply Qeq_bool_neq|]. reflexivity.
Qed.

Lemma Qcompare_zero_cases (q : Q) :
  (q == 0 /\ (q ?= 0) = Eq) \/ (q < 0 /\ (q ?= 0) = Lt) \/ (0 < q /\ (q ?= 0) = Gt).
Proof.
  destruct (q ?= 0) eqn:E.
  - left. split; [now apply Qeq_alt|reflexivity].
  - right. left. split; [now apply Qlt_alt|reflexivity].
  - right. right. split; [now apply Qgt_alt|reflexivity].
Qed.

(** The test of [detect_sudden_changes] at a position, in rational terms. *)
Lemma sudden_change_test (data : list Q) (t : Q) (i : nat) :
  xgtb (xabs (pct_change data i)) (Fin t) = true <->
  (1 <= i)%nat /\
  ((nth (i - 1) data 0 == 0 /\ ~ nth i data 0 == 0) \/
   (~ nth (i - 1) data 0 == 0 /\
    t < Qabs (nth i data 0 / nth (i - 1) data 0 - 1))).
Proof.
  revert i.
  intros [|j].
  - simpl. split; [discriminate|]. intros [H _]. lia.
  - replace (S j - 1)%nat with j by lia.
    destruct (pct_change_cases data j) as [[Hz ->]|[Hnz ->]].
    + destruct (Qcompare_zero_cases (nth (S j) data 0))
        as [[Hc ->]|[[Hc ->]|[Hc ->]]]; simpl.
      * split; [discriminate|]. intros [_ [[_ H]|[H _]]]; contradiction.
      * split; [|reflexivity]. intros _. split; [lia|]. left.
        split; [exact Hz|]. lra.
      * split; [|reflexivity]. intros _. split; [lia|]. left.
        split; [exact Hz|]. lra.
    + simpl. rewrite Qltb_lt. split.
      * intro H. split; [lia|]. right. split; [exact Hnz|exact H].
      * intros [_ [[H _]|[_ H]]]; [contradiction|exact H].
Qed.

(** X8.  The sudden-change detector.  A position is reported exactly when it
    has a predecessor and either the previous value is zero and the new one
    is not, or the previous value is not zero and the relative change
    |new / previous - 1| exceeds the threshold; position 0 and a step from 0
    to 0 are never reported.  A record holds the two values; after a
    non-zero value it holds the relative change in percent, is a "spike"
    exactly when new / previous > 1 and "high" exactly when the relative
    change exceeds twice the threshold; after a zero value the change is an
    infinity of the sign of the new value, "high", and a "spike" exactly
    when the new value is positive. *)
Theorem sudden_changes_flagged_exactly (data : list Q) (t : Q) :
  let found := detect_sudden_changes data t in
  (forall i, In i (map Change.index found) <->
     (1 <= i < length data)%nat /\
     ((nth (i - 1) data 0 == 0 /\ ~ nth i data 0 == 0) \/
      (~ nth (i - 1) data 0 == 0 /\
       t < Qabs (nth i data 0 / nth (i - 1) data 0 - 1)))) /\
  (forall c, In c found ->
     let prev := nth (Change.index c - 1) data 0 in
     let cur := nth (Change.index c) data 0 in
     Change.from_value c = prev /\ Change.to_value c = cur /\
     (~ prev == 0 ->
        xeq (Change.change_percent c) (Fin ((cur / prev - 1) * 100)) /\
        (Change.type c = Spike <-> 1 < cur / prev) /\
        (Change.severity c = High <-> t * 2 < Qabs (cur / prev - 1))) /\
     (prev == 0 ->
        Change.change_percent c = (if Qltb 0 cur then PInf else NInf) /\
        (Change.type c = Spike <-> 0 < cur) /\
        Change.severity c = High)).
Proof.
  intro found.
  pose proof (sudden_change_test data t) as Hkeep.
  split.
  - intro i. unfold found. rewrite detect_sudden_changes_eq, map_map.
    cbn [change_record Change.index]. rewrite map_id, filter_In, in_seq, Hkeep.
    split.
    + intros [[_ Hi] [H1 Hc]]. split; [lia|exact Hc].
    + intros [[H1 Hi] Hc]. split; [lia|]. split; [exact H1|exact Hc].
  - intros c Hc. unfold found in Hc. rewrite detect_sudden_changes_eq in Hc.
    apply in_map_iff in Hc. destruct Hc as (i & <- & Hi).
    apply filter_In in Hi. destruct Hi as [_ Hi].
    cbn [change_record Change.index Change.from_value Change.to_value
         Change.change_percent Change.type Change.severity].
    destruct i as [|j]; [discriminate|].
    replace (S j - 1)%nat with j by lia.
    split; [reflexivity|]. split; [reflexivity|].
    destruct (pct_change_cases data j) as [[Hz E]|[Hnz E]]; rewrite E in *.
    + split; [intro H; contradiction|]. intros _.
      destruct (Qcompare_zero_cases (nth (S j) data 0))
        as [[H0 Ec]|[[H0 Ec]|[H0 Ec]]]; rewrite Ec in *; simpl in Hi |- *.
      * discriminate.
      * assert (Eb : Qltb 0 (nth (S j) data 0) = false).
        { destruct (Qltb 0 (nth (S j) data 0)) eqn:Eb; [|reflexivity].
          apply Qltb_lt in Eb. lra. }
        rewrite Eb. split; [reflexivity|]. split; [|reflexivity].
        split; [discriminate|]. intro H. lra.
      * assert (Eb : Qltb 0 (nth (S j) data 0) = true) by now apply Qltb_lt.
        rewrite Eb. split; [reflexivity|]. split; [|reflexivity].
        split; [intros _; exact H0|reflexivity].
    + split; [|intro H; contradiction]. intros _.
      cbn [xmul xgtb xabs xeq].
      set (cur := nth (S j) data 0). set (prev := nth j data 0).
      split; [ring|]. split.
      * destruct (Qltb 0 (cur / prev + - (1))) eqn:Eb.
        -- apply Qltb_lt in Eb. split; [intros _; lra|reflexivity].
        -- split; [discriminate|]. intro H.
           assert (Et : Qltb 0 (cur / prev + - (1)) = true)
             by (apply Qltb_lt; lra).
           congruence.
      * destruct (Qltb (t * 2) (Qabs (cur / prev + - (1)))) eqn:Eb.
        -- apply Qltb_lt in Eb. split; [intros _; exact Eb|reflexivity].
        -- split; [discriminate|]. intro H.
           assert (Et : Qltb (t * 2) (Qabs (cur / prev + - (1))) = true)
             by (apply Qltb_lt; exact H).
           congruence.
Qed.

(** *** The z-score detector and its expected range *)

Lemma Qabs_div_pos (a s : Q) : 0 < s -> Qabs (a / s) == Qabs a / s.
Proof.
  intro Hs. unfold Qdiv. rewrite Qabs_Qmult.
  rewrite (Qabs_pos (/ s)); [reflexivity|].
  apply Qinv_le_0_compat. lra.
Qed.

Lemma Qlt_div_mult (t a s : Q) : 0 < s -> t < a / s -> t * s < a.
Proof.
  intros Hs H.
  assert (E : a == a / s * s) by (field; lra).
  rewrite E. apply Qmult_lt_compat_r; assumption.
Qed.

(** X9.  Every anomaly the z-score detector reports lies strictly outside
    the expected range it is reported with.  At a reported position the
    rolling mean [m] and the rolling standard deviation [s] are defined, the
    range is [m - threshold * s, m + threshold * s], and the value is below
    its lower end or above its upper end; with a threshold that is not
    negative the range is not empty and holds the rolling mean.  The square
    root may be any function without negative values. *)
Theorem zscore_anomaly_outside_expected_range (sqrt : Q -> Q)
  (self : AnomalyDetector) (data : list Q) (window_arg : option nat)
  (a : ZScore.t) :
  (forall q, 0 <= sqrt q) ->
  In a (detect_zscore_anomalies sqrt self data window_arg) ->
  let w := match window_arg with Some w => w | None => window self end in
  let i := ZScore.index a in
  exists m s lo hi,
    (i < length data)%nat /\
    ZScore.value a = nth i data 0 /\
    rolling_mean data w i = Fin m /\
    rolling_std sqrt data w i = Fin s /\ 0 <= s /\
    ZScore.expected_range a = (Fin lo, Fin hi) /\
    lo == m - threshold self * s /\
    hi == m + threshold self * s /\
    (ZScore.value a < lo \/ hi < ZScore.value a) /\
    (0 <= threshold self -> lo <= m /\ m <= hi).
Proof.
  intros Hsqrt Ha w i.
  rewrite detect_zscore_anomalies_eq in Ha. fold w in Ha.
  apply in_map_iff in Ha. destruct Ha as (j & <- & Hj).
  apply filter_In in Hj. destruct Hj as [Hj Hz]. apply in_seq in Hj.
  subst i. cbn [zscore_record ZScore.index ZScore.value ZScore.expected_range].
  unfold z_score in Hz. unfold rolling_mean, rolling_std in *.
  destruct (rolling_slice data w j) as [l|]; [|discriminate].
  destruct (Nat.leb (length l) 1); [discriminate|].
  set (m := mean l) in *. set (s := sqrt (var l)) in *.
  set (t := threshold self) in *. set (v := nth j data 0) in *.
  assert (Hs : 0 <= s) by apply Hsqrt.
  exists m, s, (m + - (t * s)), (m + t * s).
  split; [lia|]. split; [reflexivity|]. split; [reflexivity|].
  split; [reflexivity|]. split; [exact Hs|]. split; [reflexivity|].
  split; [ring|]. split; [ring|]. split.
  - cbn [xsub xopp xadd xdiv] in Hz.
    destruct (Qeq_bool s 0) eqn:E.
    + apply Qeq_bool_eq in E.
      destruct (Qcompare_zero_cases (v + - m)) as [[H0 Ec]|[[H0 Ec]|[H0 Ec]]];
        rewrite Ec in Hz; simpl in Hz; [discriminate| |].
      * left. rewrite E. lra.
      * right. rewrite E. lra.
    + apply Qeq_bool_neq in E. cbn [xabs xgtb] in Hz. apply Qltb_lt in Hz.
      assert (Hp : 0 < s) by lra.
      rewrite (Qabs_div_pos _ _ Hp) in Hz.
      apply (Qlt_div_mult _ _ _ Hp) in Hz.
      revert Hz. apply Qabs_case; intros; [right|left]; lra.
  - intro Ht. assert (0 <= t * s) by (apply Qmult_le_0_compat; assumption).
    split; lra.
Qed.

Lemma zscore_anomaly_outside_expected_range_witness :
  exists a m s lo hi,
    In a (detect_zscore_anomalies sqrt9 init (spike_series 30 15) None) /\
    (ZScore.index a < length (spike_series 30 15))%nat /\
    ZScore.value a = nth (ZScore.index a) (spike_series 30 15) 0 /\
    rolling_mean (spike_series 30 15) (window init) (ZScore.index a) = Fin m /\
    rolling_std sqrt9 (spike_series 30 15) (window init) (ZScore.index a) = Fin s /\
    0 <= s /\
    ZScore.expected_range a = (Fin lo, Fin hi) /\
    lo == m - threshold init * s /\
    hi == m + threshold init * s /\
    (ZScore.value a < lo \/ hi < ZScore.value a) /\
    (0 <= threshold init -> lo <= m /\ m <= hi).
Proof.
  exists (zscore_record sqrt9 init (spike_series 30 15) 24 15).
  assert (Hin : In (zscore_record sqrt9 init (spike_series 30 15) 24 15)
                   (detect_zscore_anomalies sqrt9 init (spike_series 30 15) None))
    by (vm_compute; left; reflexivity).
  destruct (zscore_anomaly_outside_expected_range sqrt9 init
              (spike_series 30 15) None _ sqrt9_nonneg Hin)
    as (m & s & lo & hi & H).
  exists m, s, lo, hi. split; [exact Hin|exact H].
Defined.

(** *** A flat series *)

Lemma fold_left_Qplus_const (c : Q) (l : list Q) (acc : Q) :
  Forall (fun x => x == c) l ->
  fold_left Qplus l acc == acc + inject_Z (Z.of_nat (length l)) * c.
Proof.
  intro H. revert acc. induction H as [|x l Hx Hl IH]; intro acc.
  - simpl. change (inject_Z 0) with 0. ring.
  - cbn [fold_left length]. rewrite IH, Hx, Nat2Z.inj_succ.
    unfold Z.succ. rewrite inject_Z_plus. change (inject_Z 1) with 1. ring.
Qed.

Lemma mean_const (c : Q) (l : list Q) :
  Forall (fun x => x == c) l -> l <> [] -> mean l == c.
Proof.
  intros H Hne. unfold mean, sumQ. rewrite (fold_left_Qplus_const c l 0 H).
  assert (Hn : ~ inject_Z (Z.of_nat (length l)) == 0).
  { destruct l; [congruence|]. intro E.
    unfold Qeq in E. cbn [inject_Z Qnum Qden length] in E. lia. }
  field. exact Hn.
Qed.

Lemma Forall_firstn_skipn {A : Type} (P : A -> Prop) (n k : nat) (l : list A) :
  Forall P l -> Forall P (firstn n (skipn k l)).
Proof.
  intro H. rewrite Forall_forall in *. intros x Hx. apply H.
  rewrite <- (firstn_skipn k l). apply in_or_app. right.
  rewrite <- (firstn_skipn n (skipn k l)). apply in_or_app. now left.
Qed.

Lemma sort_Forall (P : Q -> Prop) (l : list Q) : Forall P l -> Forall P (sort l).
Proof.
  induction 1 as [|x l Hx Hl IH]; simpl; [constructor|].
  now apply insert_sorted_Forall.
Qed.

(** A percentile lies between any two bounds of the data. *)
Lemma percentile_between (data : list Q) (q L U : Q) :
  data <> [] -> 0 <= q -> q <= 100 ->
  Forall (fun x => L <= x /\ x <= U) data ->
  L <= percentile data q /\ percentile data q <= U.
Proof.
  intros Hne Hq0 Hq1 Hall. rewrite percentile_interpolate.
  apply sort_Forall in Hall.
  assert (Hlen : (1 <= length (sort data))%nat).
  { rewrite sort_length. destruct data; simpl; [congruence | lia]. }
  set (a := sort data) in *.
  set (n := inject_Z (Z.of_nat (length a - 1))).
  assert (Hn : 0 <= n).
  { unfold n. change 0 with (inject_Z 0). rewrite <- Zle_Qle. lia. }
  assert (Hh0 : 0 <= q / 100 * n).
  { apply Qmult_le_0_compat; [|exact Hn]. apply Qle_shift_div_l; lra. }
  assert (Hh1 : q / 100 * n <= n).
  { assert (E : q / 100 <= 1) by (apply Qle_shift_div_r; lra). nra. }
  destruct (floor_bounds _ (length a - 1) Hh0 Hh1) as (Hk & Hl & Hu & E).
  unfold interpolate. rewrite E.
  set (k := Z.to_nat (Qfloor (q / 100 * n))) in *.
  set (g := q / 100 * n - inject_Z (Z.of_nat k)).
  assert (Hg : 0 <= g /\ g < 1) by (unfold g; split; lra).
  rewrite Forall_forall in Hall.
  assert (Hx : L <= nth k a 0 /\ nth k a 0 <= U) by (apply Hall, nth_In; lia).
  assert (Hy : L <= nth (Nat.min (k + 1) (length a - 1)) a 0 /\
               nth (Nat.min (k + 1) (length a - 1)) a 0 <= U)
    by (apply Hall, nth_In; lia).
  split; nra.
Qed.

Lemma round2_zero (q : Q) : q == 0 -> round2 q == 0.
Proof.
  intro H. unfold round2, round_half_even.
  assert (Hf : Qfloor (q * 100) = 0%Z).
  { change 0%Z with (Qfloor 0). apply Qfloor_comp. rewrite H. reflexivity. }
  rewrite Hf.
  assert (Hc : Qcompare (q * 100 - inject_Z 0) (1 # 2) = Lt).
  { apply Qlt_alt. rewrite H. reflexivity. }
  rewrite Hc. reflexivity.
Qed.

Lemma nothing_in_is_nil {A : Type} (l : list A) : (forall a, ~ In a l) -> l = [].
Proof. destruct l as [|x l]; [reflexivity|]. intro H. elim (H x). now left. Qed.

(** X10.  A flat series raises no alarm.  On a non-empty series whose
    samples all have the same value, with a threshold that is not negative,
    [analyze_anomalies] returns a report with no z-score anomaly, no IQR
    anomaly and no sudden change, a total of 0 and an anomaly rate of 0:
    the zero standard deviation (a 0 / 0 score) and, for a series of zeros,
    the 0 / 0 relative change are never reported.  The square root may be
    any function without negative values. *)
Theorem flat_series_reports_nothing (sqrt : Q -> Q) (self : AnomalyDetector)
  (df : DataFrame) (c : Q) :
  (forall q, 0 <= sqrt q) ->
  0 <= threshold self ->
  target df <> [] ->
  Forall (fun x => x == c) (target df) ->
  exists rep,
    analyze_anomalies sqrt self df = Ok rep /\
    zscore_anomalies rep = [] /\
    iqr_anomalies rep = [] /\
    sudden_changes rep = [] /\
    total_anomalies rep = 0%nat /\
    anomaly_rate rep == 0.
Proof.
  intros Hsqrt Ht Hne Hall.
  set (data := target df) in *.
  assert (Hnth : forall i, (i < length data)%nat -> nth i data 0 == c).
  { intros i Hi. rewrite Forall_forall in Hall. apply Hall, nth_In, Hi. }
  assert (Hz : detect_zscore_anomalies sqrt self data None = []).
  { rewrite detect_zscore_anomalies_eq.
    replace (filter _ _) with (@nil nat); [reflexivity|].
    symmetry. apply nothing_in_is_nil. intros i Hi.
    apply filter_In in Hi. destruct Hi as [Hi Hs]. apply in_seq in Hi.
    unfold z_score, rolling_mean, rolling_std in Hs.
    destruct (rolling_slice data (window self) i) as [l|] eqn:El; [|discriminate].
    destruct (Nat.leb_spec (length l) 1) as [Hl|Hl]; [discriminate|].
    assert (Hm : mean l == c).
    { apply mean_const; [|destruct l; [simpl in Hl; lia | discriminate]].
      unfold rolling_slice in El.
      destruct (_ || _)%bool in El; [discriminate|].
      injection El as <-. now apply Forall_firstn_skipn. }
    assert (Ha : nth i data 0 + - mean l == 0) by (rewrite Hm, Hnth; [ring | lia]).
    cbn [xsub xopp xadd xdiv] in Hs.
    destruct (Qeq_bool (sqrt (var l)) 0).
    - apply Qeq_alt in Ha. rewrite Ha in Hs. discriminate.
    - cbn [xabs xgtb] in Hs. apply Qltb_lt in Hs.
      assert (E : Qabs ((nth i data 0 + - mean l) / sqrt (var l)) == 0).
      { rewrite Ha. unfold Qdiv. rewrite Qmult_0_l. reflexivity. }
      rewrite E in Hs. lra. }
  assert (Hq : forall q, 0 <= q -> q <= 100 -> percentile data q == c).
  { intros q H0 H1.
    destruct (percentile_between data q c c Hne H0 H1) as [Hlo Hhi]; [|lra].
    eapply Forall_impl; [|exact Hall]. intros x Hx. simpl in Hx. lra. }
  assert (Hiqr : detect_iqr_anomalies data = []).
  { apply nothing_in_is_nil. intros a Ha.
    assert (Hrec : exists i, (i < length data)%nat /\
              (nth i data 0 < percentile data 25
                              - 1.5 * (percentile data 75 - percentile data 25) \/
               percentile data 75
               + 1.5 * (percentile data 75 - percentile data 25) < nth i data 0)).
    { unfold detect_iqr_anomalies in Ha.
      destruct data as [|d0 ds] eqn:Ed; [congruence|]. rewrite <- Ed in *.
      apply (iqr_records_in data _ _
               (percentile data 75 - percentile data 25)) in Ha.
      destruct Ha as (i & Hi & Hc & _). now exists i. }
    destruct Hrec as (i & Hi & Hc).
    pose proof (Hnth i Hi) as Hv.
    pose proof (Hq 25 ltac:(lra) ltac:(lra)) as H25.
    pose proof (Hq 75 ltac:(lra) ltac:(lra)) as H75.
    destruct Hc as [Hc|Hc]; lra. }
  assert (Hs : detect_sudden_changes data 0.3 = []).
  { rewrite detect_sudden_changes_eq.
    replace (filter _ _) with (@nil nat); [reflexivity|].
    symmetry. apply nothing_in_is_nil. intros i Hi.
    apply filter_In in Hi. destruct Hi as [Hi Hk]. apply in_seq in Hi.
    apply sudden_change_test in Hk. destruct Hk as [H1 Hk].
    pose proof (Hnth i ltac:(lia)) as Hv.
    pose proof (Hnth (i - 1)%nat ltac:(lia)) as Hp.
    destruct Hk as [[Hp0 Hv0]|[Hp0 Hk]].
    - apply Hv0. rewrite Hv, <- Hp. exact Hp0.
    - assert (E : nth i data 0 / nth (i - 1) data 0 - 1 == 0).
      { rewrite Hv. rewrite Hp in Hp0 |- *. field. exact Hp0. }
      rewrite E in Hk. revert Hk. compute. discriminate. }
  unfold analyze_anomalies. fold data. rewrite Hz, Hiqr, Hs.
  destruct (Nat.eqb_spec (length data) 0) as [E|E].
  - destruct data; [congruence | discriminate].
  - eexists. split; [reflexivity|].
    cbn [zscore_anomalies iqr_anomalies sudden_changes total_anomalies
         anomaly_rate length Nat.add].
    repeat (split; [reflexivity|]). apply round2_zero.
    change (inject_Z (Z.of_nat 0)) with 0.
    unfold Qdiv. rewrite !Qmult_0_l. reflexivity.
Qed.

Definition flat_table : DataFrame :=
  {| timestamp := map Z.of_nat (seq 0 30); target := repeat 100 30 |}.

Lemma flat_series_reports_nothing_witness :
  exists rep,
    analyze_anomalies sqrt9 init flat_table = Ok rep /\
    zscore_anomalies rep = [] /\
    iqr_anomalies rep = [] /\
    sudden_changes rep = [] /\
    total_anomalies rep = 0%nat /\
    anomaly_rate rep == 0.
Proof.
  apply (flat_series_reports_nothing sqrt9 init flat_table 100 sqrt9_nonneg).
  - compute. discriminate.
  - discriminate.
  - apply Forall_forall. intros x Hx. apply repeat_spec in Hx. now subst.
Defined.

(** *** The rolling window *)

(** X11.  The z-score detector only reports positions whose centered window
    lies inside the series: for a window of [w >= 1] samples a reported
    position [i] has [w <= i + 1 + (w - 1) / 2 <= len(data)], and the window
    holds at least two samples.  So a series shorter than the window, and a
    window of a single sample, never give an anomaly. *)
Theorem zscore_needs_full_window (sqrt : Q -> Q) (self : AnomalyDetector)
  (data : list Q) (w : nat) :
  (1 <= w)%nat ->
  let found := detect_zscore_anomalies sqrt self data (Some w) in
  (forall i, In i (map ZScore.index found) ->
     (w <= i + 1 + (w - 1) / 2)%nat /\
     (i + 1 + (w - 1) / 2 <= length data)%nat /\
     (2 <= w)%nat) /\
  ((length data < w)%nat -> found = []) /\
  (w = 1%nat -> found = []).
Proof.
  intros Hw found.
  assert (Hidx : forall i, In i (map ZScore.index found) ->
             (w <= i + 1 + (w - 1) / 2)%nat /\
             (i + 1 + (w - 1) / 2 <= length data)%nat /\
             (2 <= w)%nat).
  { intros i Hi. unfold found in Hi.
    rewrite detect_zscore_anomalies_eq, map_map in Hi.
    cbn [zscore_record ZScore.index] in Hi. rewrite map_id in Hi.
    apply filter_In in Hi. destruct Hi as [_ Hz].
    unfold z_score, rolling_mean, rolling_std in Hz.
    destruct (rolling_slice data w i) as [l|] eqn:El; [|discriminate].
    destruct (Nat.leb_spec (length l) 1) as [Hl|Hl]; [discriminate|].
    unfold rolling_slice in El.
    set (off := ((w - 1) / 2)%nat) in *.
    set (nobs := (Nat.min (i + 1 + off) (length data)
                  - Nat.min (i + 1 + off - w) (length data))%nat) in *.
    destruct (Nat.ltb_spec nobs w) as [Hn|Hn]; [discriminate|].
    destruct (Nat.eqb_spec nobs 0) as [H0|H0]; [discriminate|].
    cbn [orb] in El. injection El as <-.
    rewrite length_firstn, length_skipn in Hl.
    unfold nobs in *. lia. }
  split; [exact Hidx|]. split.
  - intro Hshort. apply nothing_in_is_nil. intros a Ha.
    destruct (Hidx (ZScore.index a) (in_map _ _ _ Ha)) as (H1 & H2 & _). lia.
  - intros ->. apply nothing_in_is_nil. intros a Ha.
    destruct (Hidx (ZScore.index a) (in_map _ _ _ Ha)) as (_ & _ & H). lia.
Qed.

Lemma zscore_needs_full_window_witness :
  let found := detect_zscore_anomalies sqrt9 init (spike_series 30 15) (Some 24%nat) in
  (forall i, In i (map ZScore.index found) ->
     (24 <= i + 1 + (24 - 1) / 2)%nat /\
     (i + 1 + (24 - 1) / 2 <= length (spike_series 30 15))%nat /\
     (2 <= 24)%nat) /\
  ((length (spike_series 30 15) < 24)%nat -> found = []) /\
  (24%nat = 1%nat -> found = []).
Proof.
  apply (zscore_needs_full_window sqrt9 init (spike_series 30 15) 24). lia.
Defined.

(** *** The anomaly score of a single value *)

(** [np.mean]: NaN on an empty array. *)
Definition np_mean (l : list Q) : xfloat :=
  match l with [] => NaN | _ => Fin (mean l) end.

(** Python's [min(100, x)]: the first argument unless [x < 100]. *)
Definition py_min_100 (x : xfloat) : xfloat :=
  if xgtb (Fin 100) x then x else Fin 100.

(** [round(x, 2)] on a float that may be infinite or NaN. *)
Definition xround2 (x : xfloat) : xfloat :=
  match x with Fin q => Fin (round2 q) | _ => x end.

Section Score.

Variable sqrt : Q -> Q.

(** [np.std]: the population standard deviation, NaN on an empty array. *)
Definition np_std (l : list Q) : xfloat :=
  match l with
  | [] => NaN
  | _ => let m := mean l in
         Fin (sqrt (mean (map (fun x => (x - m) * (x - m)) l)))
  end.

Definition calculate_anomaly_score (self : AnomalyDetector) (value : Q)
  (historical_data : list Q) : xfloat :=
  let mean := np_mean historical_data in
  let std := np_std historical_data in
  if match std with Fin s => Qeq_bool s 0 | _ => false end then Fin 0
  else
    let z_score := xabs (xdiv (xsub (Fin value) mean) std) in
    let anomaly_score :=
      py_min_100 (xmul (xdiv z_score (Fin (threshold self))) (Fin 100)) in
    xround2 anomaly_score.

End Score.

Lemma round_half_even_le (q : Q) (b : Z) :
  q <= inject_Z b -> (round_half_even q <= b)%Z.
Proof.
  intro H. unfold round_half_even.
  assert (Hf : (Qfloor q <= b)%Z).
  { rewrite <- (Qfloor_Z b). now apply Qfloor_resp_le. }
  assert (Hup : 0 < q - inject_Z (Qfloor q) -> (Qfloor q + 1 <= b)%Z).
  { intro Hr. assert (Hlt : inject_Z (Qfloor q) < inject_Z b) by lra.
    rewrite <- Zlt_Qlt in Hlt. lia. }
  destruct (Qcompare_spec (q - inject_Z (Qfloor q)) (1 # 2)) as [E|E|E].
  - destruct (Z.even (Qfloor q)); [exact Hf|]. apply Hup. rewrite E. reflexivity.
  - exact Hf.
  - apply Hup. lra.
Qed.

Lemma round_half_even_ge (q : Q) (a : Z) :
  inject_Z a <= q -> (a <= round_half_even q)%Z.
Proof.
  intro H. unfold round_half_even.
  assert (Hf : (a <= Qfloor q)%Z).
  { rewrite <- (Qfloor_Z a). now apply Qfloor_resp_le. }
  destruct (Qcompare (q - inject_Z (Qfloor q)) (1 # 2)); [|lia|lia].
  destruct (Z.even (Qfloor q)); lia.
Qed.

Lemma round2_le_100 (q : Q) : q <= 100 -> round2 q <= 100.
Proof.
  intro H. unfold round2.
  assert (Hz : (round_half_even (q * 100) <= 10000)%Z).
  { apply round_half_even_le. change (inject_Z 10000) with 10000. lra. }
  rewrite Zle_Qle in Hz. change (inject_Z 10000) with 10000 in Hz.
  apply Qle_shift_div_r; [reflexivity|]. lra.
Qed.

Lemma round2_ge_0 (q : Q) : 0 <= q -> 0 <= round2 q.
Proof.
  intro H. unfold round2.
  assert (Hz : (0 <= round_half_even (q * 100))%Z).
  { apply round_half_even_ge. change (inject_Z 0) with 0. lra. }
  rewrite Zle_Qle in Hz. change (inject_Z 0) with 0 in Hz.
  apply Qle_shift_div_l; [reflexivity|]. lra.
Qed.

Lemma round2_100 (q : Q) : q == 100 -> round2 q == 100.
Proof.
  intro H. apply Qle_antisym.
  - apply round2_le_100. lra.
  - unfold round2.
    assert (Hz : (10000 <= round_half_even (q * 100))%Z).
    { apply round_half_even_ge. change (inject_Z 10000) with 10000. lra. }
    rewrite Zle_Qle in Hz. change (inject_Z 10000) with 10000 in Hz.
    apply Qle_shift_div_l; [reflexivity|]. lra.
Qed.

Lemma capped_score (x : xfloat) :
  x <> NInf ->
  exists s,
    xround2 (py_min_100 x) = Fin s /\ s <= 100 /\
    match x with
    | Fin q => (0 <= q -> 0 <= s) /\ (q == 0 -> s == 0) /\ (100 <= q -> s == 100)
    | _ => s == 100
    end.
Proof.
  intro Hx. destruct x as [q| | |]; try congruence.
  - unfold py_min_100. cbn [xgtb].
    destruct (Qltb q 100) eqn:E.
    + apply Qltb_lt in E. exists (round2 q). split; [reflexivity|].
      split; [apply round2_le_100; lra|].
      split; [apply round2_ge_0|]. split; [apply round2_zero|]. intro H. lra.
    + exists (round2 100). split; [reflexivity|].
      assert (H100 : round2 100 == 100) by (apply round2_100; reflexivity).
      split; [lra|]. split; [intros _; lra|]. split; [|intros _; exact H100].
      intro H0. assert (Et : Qltb q 100 = true) by (apply Qltb_lt; lra).
      congruence.
  - exists (round2 100). split; [reflexivity|].
    assert (H100 : round2 100 == 100) by (apply round2_100; reflexivity).
    split; [lra|exact H100].
  - exists (round2 100). split; [reflexivity|].
    assert (H100 : round2 100 == 100) by (apply round2_100; reflexivity).
    split; [lra|exact H100].
Qed.

(** X12.  [calculate_anomaly_score] always returns a finite number, never
    above 100 and, with a threshold that is not negative, never below 0.
    With an empty history it is 100 (the NaN of the empty mean is capped by
    [min]); with a standard deviation of 0 it is 0; otherwise, for a
    positive threshold, it is 0 for a value at the mean and 100 as soon as
    the value is [threshold] standard deviations away from the mean; for a
    threshold of 0 it is 100.  The square root may be any function. *)
Theorem anomaly_score_range (sqrt : Q -> Q) (self : AnomalyDetector)
  (value : Q) (hist : list Q) :
  exists s,
    calculate_anomaly_score sqrt self value hist = Fin s /\
    s <= 100 /\
    (0 <= threshold self -> 0 <= s) /\
    (hist = [] -> s == 100) /\
    (forall sd, np_std sqrt hist = Fin sd ->
       (sd == 0 -> s == 0) /\
       (~ sd == 0 -> threshold self == 0 -> s == 100) /\
       (~ sd == 0 -> 0 < threshold self ->
          (value == mean hist -> s == 0) /\
          (threshold self * Qabs sd <= Qabs (value - mean hist) -> s == 100))).
Proof.
  unfold calculate_anomaly_score.
  destruct hist as [|h0 hs].
  - destruct (capped_score NaN) as (s & Es & Hs & H100); [discriminate|].
    exists s. cbn. split; [exact Es|]. split; [exact Hs|].
    split; [intros _; lra|]. split; [intros _; exact H100|].
    intros sd Hsd. discriminate Hsd.
  - set (hist := h0 :: hs). set (t := threshold self).
    change (np_mean hist) with (Fin (mean hist)).
    set (sd0 := sqrt (mean (map (fun x => (x - mean hist) * (x - mean hist)) hist))).
    change (np_std sqrt hist) with (Fin sd0).
    destruct (Qeq_bool sd0 0) eqn:Esd.
    + apply Qeq_bool_eq in Esd. exists 0. split; [reflexivity|].
      split; [lra|]. split; [intros _; lra|]. split; [discriminate|].
      intros sd [= <-]. split; [reflexivity|].
      split; intro H; contradiction.
    + apply Qeq_bool_neq in Esd.
      cbn [xsub xopp xadd xdiv xabs].
      assert (Eq0 : Qeq_bool sd0 0 = false).
      { destruct (Qeq_bool sd0 0) eqn:E; [|reflexivity].
        apply Qeq_bool_eq in E. contradiction. }
      rewrite Eq0. cbn [xabs xdiv].
      set (z := Qabs ((value + - mean hist) / sd0)).
      assert (Hz : 0 <= z) by apply Qabs_nonneg.
      assert (Ez : z == Qabs (value - mean hist) / Qabs sd0).
      { unfold z, Qdiv, Qminus. now rewrite Qabs_Qmult, Qabs_Qinv. }
      assert (Hsd : 0 < Qabs sd0).
      { apply Qabs_case; intros; lra. }
      destruct (Qeq_bool t 0) eqn:Et.
      * apply Qeq_bool_eq in Et.
        assert (Hx : exists s, xround2 (py_min_100
                       (xmul (inf_of_sign (z ?= 0)) (Fin 100))) = Fin s /\
                       s == 100).
        { destruct (Qcompare_zero_cases z) as [[_ ->]|[[H _]|[_ ->]]];
            [| lra |].
          - destruct (capped_score NaN) as (s & Es & _ & H); [discriminate|].
            now exists s.
          - destruct (capped_score PInf) as (s & Es & _ & H); [discriminate|].
            now exists s. }
        destruct Hx as (s & Es & H100). exists s.
        split; [exact Es|]. split; [lra|]. split; [intros _; lra|].
        split; [discriminate|].
        intros sd [= <-]. split; [intro; contradiction|].
        split; [intros _ _; exact H100|]. intros _ Hpos. lra.
      * apply Qeq_bool_neq in Et. cbn [xmul].
        destruct (capped_score (Fin (z / t * 100)))
          as (s & Es & Hs & Hge & Hzero & Hsat); [discriminate|].
        exists s. split; [exact Es|]. split; [exact Hs|]. split.
        { intro Ht. apply Hge.
          assert (0 <= z / t) by (apply Qle_shift_div_l; lra). lra. }
        split; [discriminate|].
        intros sd [= <-]. split; [intro; contradiction|].
        split; [intros _ H; contradiction|]. intros _ Hpos. split.
        -- intro Hv. apply Hzero.
           assert (E0 : z == 0).
           { rewrite Ez, Hv. unfold Qminus. rewrite Qplus_opp_r.
             unfold Qdiv. rewrite Qmult_0_l. reflexivity. }
           rewrite E0. field. exact Et.
        -- intro Hfar. apply Hsat.
           assert (Hzt : t <= z).
           { rewrite Ez. apply Qle_shift_div_l; assumption. }
           assert (H1 : 1 <= z / t) by (apply Qle_shift_div_l; lra).
           lra.
Qed.

Example anomaly_score_examples :
  xeq (calculate_anomaly_score sqrt9 init 130 [100; 110; 90; 100]) (Fin 100) /\
  xeq (calculate_anomaly_score sqrt9 init 110 [100; 110; 90; 100]) (Fin 47.14) /\
  xeq (calculate_anomaly_score sqrt9 init 5 []) (Fin 100) /\
  xeq (calculate_anomaly_score sqrt9 init 5 [7; 7; 7]) (Fin 0).
Proof. split; [|split; [|split]]; vm_compute; reflexivity. Qed.

End AnomalyExtras.

(* ================================================================= *)
(** ** utils/preprocessor.py: the range of the scaled target *)

Module PreprocessorExtras.
Import Preprocessor.

Lemma Qmin_cases (a b : Q) : Qmin a b = a \/ Qmin a b = b.
Proof.
  unfold Qmin, GenericMinMax.gmin. destruct (a ?= b); auto.
Qed.

Lemma Qmax_cases (a b : Q) : Qmax a b = a \/ Qmax a b = b.
Proof.
  unfold Qmax, GenericMinMax.gmax. destruct (a ?= b); auto.
Qed.

Lemma list_min_spec (x : Q) (xs : list Q) :
  Forall (Qle (list_min x xs)) (x :: xs) /\ In (list_min x xs) (x :: xs).
Proof.
  unfold list_min. revert x. induction xs as [|y xs IH]; intro x.
  - simpl. split; [repeat constructor; lra | now left].
  - cbn [fold_left]. destruct (IH (Qmin x y)) as [Hle Hin].
    inversion Hle as [|? ? H1 H2]; subst. split.
    + constructor; [|constructor; [|exact H2]].
      * pose proof (Q.le_min_l x y). lra.
      * pose proof (Q.le_min_r x y). lra.
    + destruct Hin as [Hin|Hin]; [|right; now right].
      rewrite <- Hin. destruct (Qmin_cases x y) as [->| ->];
        [now left | right; now left].
Qed.

Lemma list_max_spec (x : Q) (xs : list Q) :
  Forall (fun v => v <= list_max x xs) (x :: xs) /\ In (list_max x xs) (x :: xs).
Proof.
  unfold list_max. revert x. induction xs as [|y xs IH]; intro x.
  - simpl. split; [repeat constructor; lra | now left].
  - cbn [fold_left]. destruct (IH (Qmax x y)) as [Hle Hin].
    inversion Hle as [|? ? H1 H2]; subst. split.
    + constructor; [|constructor; [|exact H2]].
      * pose proof (Q.le_max_l x y). lra.
      * pose proof (Q.le_max_r x y). lra.
    + destruct Hin as [Hin|Hin]; [|right; now right].
      rewrite <- Hin. destruct (Qmax_cases x y) as [->| ->];
        [now left | right; now left].
Qed.

(** What a fitted scaler does to one value. *)
Definition scale_one (s : MinMaxScaler) (v : Q) : Q := v * scale_ s + min_ s.

Lemma transform_nth (s : MinMaxScaler) (data scaled : list Q) (i : nat) :
  transform s data = Ok scaled -> (i < length data)%nat ->
  nth i scaled 0 = scale_one s (nth i data 0).
Proof.
  unfold transform, check_array. destruct data as [|x xs]; [discriminate|].
  cbn [bind]. intros [= <-] Hi.
  change (nth i (map (scale_one s) (x :: xs)) 0
          = scale_one s (nth i (x :: xs) 0)).
  rewrite (nth_indep _ 0 (scale_one s 0)) by (rewrite length_map; exact Hi).
  apply (map_nth (scale_one s)).
Qed.

(** The fitted state on a non-empty column, and the affine map it stands
    for: [(v - min) / range], with [range] replaced by 1 on a constant
    column. *)
Lemma fit_spec (data : list Q) :
  data <> [] ->
  exists s lo hi,
    fit data = Ok s /\
    In lo data /\ In hi data /\
    Forall (fun v => lo <= v /\ v <= hi) data /\
    0 < scale_ s /\
    (forall v, scale_one s v == (v - lo) * scale_ s) /\
    (lo == hi -> scale_ s == 1) /\
    (lo < hi -> scale_ s == 1 / (hi - lo)).
Proof.
  destruct data as [|x xs]; [congruence|]. intros _.
  destruct (list_min_spec x xs) as [Hmin Hmin_in].
  destruct (list_max_spec x xs) as [Hmax Hmax_in].
  set (lo := list_min x xs) in *. set (hi := list_max x xs) in *.
  assert (Hlohi : lo <= hi).
  { inversion Hmin; subst. inversion Hmax; subst. lra. }
  eexists. exists lo, hi. split; [reflexivity|].
  fold lo hi. cbn [scale_ min_]. unfold scale_one. cbn [scale_ min_].
  split; [exact Hmin_in|]. split; [exact Hmax_in|]. split.
  { rewrite Forall_forall in *. intros v Hv. split; [apply Hmin|apply Hmax]; exact Hv. }
  unfold handle_zeros_in_scale.
  destruct (Qeq_bool (hi - lo) 0) eqn:E.
  - apply Qeq_bool_eq in E. split; [reflexivity|]. split; [intro v; field|].
    split; [intros _; reflexivity|]. intro H. lra.
  - apply Qeq_bool_neq in E. assert (Hr : 0 < hi - lo) by lra.
    split.
    { apply Qlt_shift_div_l; [exact Hr|]. lra. }
    split; [intro v; field; exact E|].
    split; [intro H; lra|]. intros _. field. exact E.
Qed.

Lemma transform_nonempty (s : MinMaxScaler) (data : list Q) :
  data <> [] -> exists scaled, transform s data = Ok scaled.
Proof.
  destruct data as [|x xs]; [congruence|]. intros _. now eexists.
Qed.

(** X13.  [scale_features(series, fit=True)] on a non-empty series returns
    one value per sample, every one of them in [0, 1]; the order of the
    samples is kept; a smallest sample is scaled to 0 and, unless all
    samples are equal, a largest sample is scaled to 1. *)
Theorem scale_features_unit_interval (self : DataPreprocessor) (series : list Q) :
  series <> [] ->
  exists self' scaled,
    scale_features self series true = Ok (self', scaled) /\
    length scaled = length series /\
    Forall (fun y => 0 <= y /\ y <= 1) scaled /\
    (forall i j, (i < length series)%nat -> (j < length series)%nat ->
       nth i series 0 <= nth j series 0 -> nth i scaled 0 <= nth j scaled 0) /\
    (forall i, (i < length series)%nat ->
       (forall j, (j < length series)%nat -> nth i series 0 <= nth j series 0) ->
       nth i scaled 0 == 0) /\
    (forall i k, (i < length series)%nat -> (k < length series)%nat ->
       (forall j, (j < length series)%nat -> nth j series 0 <= nth i series 0) ->
       nth k series 0 < nth i series 0 ->
       nth i scaled 0 == 1).
Proof.
  intro Hne.
  destruct (fit_spec series Hne)
    as (s & lo & hi & Hfit & Hlo & Hhi & Hall & Hsc & Hone & Hconst & Hrange).
  destruct (transform_nonempty s series Hne) as [scaled Ht].
  exists {| scaler := Some s |}, scaled.
  unfold scale_features. rewrite Hfit. cbn [bind]. rewrite Ht. cbn [bind].
  pose proof (transform_length s series scaled Ht) as Hlen.
  pose proof (fun i => transform_nth s series scaled i Ht) as Hnth.
  rewrite Forall_forall in Hall.
  assert (Hin : forall i, (i < length series)%nat ->
            lo <= nth i series 0 /\ nth i series 0 <= hi)
    by (intros i Hi; apply Hall, nth_In, Hi).
  destruct (In_nth _ _ 0 Hlo) as (ilo & Hilo & Elo).
  destruct (In_nth _ _ 0 Hhi) as (ihi & Hihi & Ehi).
  split; [reflexivity|]. split; [exact Hlen|]. split; [|split; [|split]].
  - apply Forall_forall. intros y Hy.
    destruct (In_nth _ _ 0 Hy) as (i & Hi & <-). rewrite Hlen in Hi.
    rewrite (Hnth i Hi), Hone. destruct (Hin i Hi) as [H1 H2].
    destruct (Qlt_le_dec lo hi) as [Hlt|Hge].
    + rewrite (Hrange Hlt). split.
      * apply Qmult_le_0_compat; [lra|]. apply Qle_shift_div_l; lra.
      * assert (E : (nth i series 0 - lo) * (1 / (hi - lo))
                    == (nth i series 0 - lo) / (hi - lo)) by (field; lra).
        rewrite E. apply Qle_shift_div_r; lra.
    + assert (Eq : lo == hi) by (pose proof (Hin ilo Hilo); lra).
      rewrite (Hconst Eq). split; lra.
  - intros i j Hi Hj Hij. rewrite (Hnth i Hi), (Hnth j Hj), !Hone.
    apply Qmult_le_compat_r; lra.
  - intros i Hi Hmin. rewrite (Hnth i Hi), Hone.
    pose proof (Hmin ilo Hilo) as H1. destruct (Hin i Hi) as [H2 _].
    rewrite Elo in H1.
    assert (E : nth i series 0 - lo == 0) by lra.
    rewrite E. ring.
  - intros i k Hi Hk Hmax Hlt. rewrite (Hnth i Hi), Hone.
    pose proof (Hmax ihi Hihi) as H1. destruct (Hin i Hi) as [_ H2].
    rewrite Ehi in H1. destruct (Hin k Hk) as [H3 _].
    assert (Hr : lo < hi) by lra.
    rewrite (Hrange Hr).
    assert (E : nth i series 0 == hi) by lra.
    rewrite E. field. lra.
Qed.

Lemma scale_features_unit_interval_witness :
  exists self' scaled,
    scale_features init [100; 250; 175] true = Ok (self', scaled) /\
    length scaled = length [100; 250; 175] /\
    Forall (fun y => 0 <= y /\ y <= 1) scaled /\
    (forall i j, (i < length [100; 250; 175])%nat ->
       (j < length [100; 250; 175])%nat ->
       nth i [100; 250; 175] 0 <= nth j [100; 250; 175] 0 ->
       nth i scaled 0 <= nth j scaled 0) /\
    (forall i, (i < length [100; 250; 175])%nat ->
       (forall j, (j < length [100; 250; 175])%nat ->
          nth i [100; 250; 175] 0 <= nth j [100; 250; 175] 0) ->
       nth i scaled 0 == 0) /\
    (forall i k, (i < length [100; 250; 175])%nat ->
       (k < length [100; 250; 175])%nat ->
       (forall j, (j < length [100; 250; 175])%nat ->
          nth j [100; 250; 175] 0 <= nth i [100; 250; 175] 0) ->
       nth k [100; 250; 175] 0 < nth i [100; 250; 175] 0 ->
       nth i scaled 0 == 1).
Proof.
  apply (scale_features_unit_interval init [100; 250; 175]). discriminate.
Defined.

Example scale_features_example :
  exists self' scaled,
    scale_features init [100; 250; 175] true = Ok (self', scaled) /\
    Forall2 Qeq scaled [0; 1; 0.5].
Proof.
  do 2 eexists. split; [vm_compute; reflexivity|].
  repeat constructor.
Qed.

(** X14.  A scaler fitted on one series and applied to another
    ([fit=False]): the preprocessor is left as it was, [inverse_scale]
    returns the new series exactly, and the new values are not clipped: a
    value below the fitted minimum is scaled below 0, a value inside the
    fitted range into [0, 1], and (unless the fitted series was constant) a
    value above the fitted maximum above 1. *)
Theorem fitted_scaler_on_new_data (self : DataPreprocessor) (train new : list Q) :
  train <> [] -> new <> [] ->
  exists pre scaled0 scaled back lo hi,
    scale_features self train true = Ok (pre, scaled0) /\
    scale_features pre new false = Ok (pre, scaled) /\
    inverse_scale pre scaled = Ok back /\
    Forall2 Qeq back new /\
    In lo train /\ In hi train /\
    Forall (fun v => lo <= v /\ v <= hi) train /\
    (forall i, (i < length new)%nat ->
       (nth i new 0 < lo -> nth i scaled 0 < 0) /\
       (lo <= nth i new 0 /\ nth i new 0 <= hi ->
          0 <= nth i scaled 0 /\ nth i scaled 0 <= 1) /\
       (lo < hi -> hi < nth i new 0 -> 1 < nth i scaled 0)).
Proof.
  intros Htrain Hnew.
  destruct (fit_spec train Htrain)
    as (s & lo & hi & Hfit & Hlo & Hhi & Hall & Hsc & Hone & Hconst & Hrange).
  destruct (transform_nonempty s train Htrain) as [scaled0 Ht0].
  assert (Hs : ~ scale_ s == 0) by lra.
  destruct (inverse_transform_transform s new Hs Hnew)
    as (scaled & back & Ht & Hi & Hback).
  exists {| scaler := Some s |}, scaled0, scaled, back, lo, hi.
  unfold scale_features, inverse_scale. cbn [scaler].
  rewrite Hfit. cbn [bind]. rewrite Ht0, Ht. cbn [bind].
  split; [reflexivity|]. split; [reflexivity|]. split; [exact Hi|].
  split; [exact Hback|]. split; [exact Hlo|]. split; [exact Hhi|].
  split; [exact Hall|].
  intros i Hilen. rewrite (transform_nth s new scaled i Ht Hilen), Hone.
  set (v := nth i new 0).
  split; [|split].
  - intro Hv. assert (H : 0 < (lo - v) * scale_ s)
      by (apply Qmult_lt_0_compat; lra).
    lra.
  - intros [H1 H2]. destruct (Qlt_le_dec lo hi) as [Hlt|Hge].
    + rewrite (Hrange Hlt). split.
      * apply Qmult_le_0_compat; [lra|]. apply Qle_shift_div_l; lra.
      * assert (E : (v - lo) * (1 / (hi - lo)) == (v - lo) / (hi - lo))
          by (field; lra).
        rewrite E. apply Qle_shift_div_r; lra.
    + assert (Eq : lo == hi) by lra.
      rewrite (Hconst Eq). split; lra.
  - intros Hlt Hv. rewrite (Hrange Hlt).
    assert (E : (v - lo) * (1 / (hi - lo)) == (v - lo) / (hi - lo))
      by (field; lra).
    rewrite E. apply Qlt_shift_div_l; lra.
Qed.

Lemma fitted_scaler_on_new_data_witness :
  exists pre scaled0 scaled back lo hi,
    scale_features init [100; 250; 175] true = Ok (pre, scaled0) /\
    scale_features pre [50; 200; 400] false = Ok (pre, scaled) /\
    inverse_scale pre scaled = Ok back /\
    Forall2 Qeq back [50; 200; 400] /\
    In lo [100; 250; 175] /\ In hi [100; 250; 175] /\
    Forall (fun v => lo <= v /\ v <= hi) [100; 250; 175] /\
    (forall i, (i < length [50; 200; 400])%nat ->
       (nth i [50; 200; 400] 0 < lo -> nth i scaled 0 < 0) /\
       (lo <= nth i [50; 200; 400] 0 /\ nth i [50; 200; 400] 0 <= hi ->
          0 <= nth i scaled 0 /\ nth i scaled 0 <= 1) /\
       (lo < hi -> hi < nth i [50; 200; 400] 0 -> 1 < nth i scaled 0)).
Proof.
  apply (fitted_scaler_on_new_data init [100; 250; 175] [50; 200; 400]);
    discriminate.
Defined.

End PreprocessorExtras.

(* ================================================================= *)
(** ** utils/preprocessor.py: the windows of [prepare_lstm_data] *)

Module Windowing.
Import Rollout.

(** The slice [a[start:stop]], for [start <= stop]. *)
Definition slice {A : Type} (a : list A) (start stop : nat) : list A :=
  firstn (stop - start) (skipn start a).

(** [np.concatenate([target_seq.reshape(-1, 1), feature_seq], axis=1)]: both
    blocks must have the same number of rows. *)
Definition concatenate_axis1 (target_seq : list Q) (nf : nat)
  (feature_seq : list (list Q)) : result ndarray2 :=
  if Nat.eqb (length target_seq) (length feature_seq)
  then Ok (mk2d (1 + nf) (zip_with cons target_seq feature_seq))
  else Raise (ValueError "all the input array dimensions except for the concatenation axis must match exactly").

(** The loop that closes [prepare_lstm_data]: one window and one label for
    every [i] in [range(sequence_length, len(scaled_target))]. *)
Definition create_sequences (sequence_length : nat) (scaled_target : list Q)
  (scaled_features : ndarray2) : result (list ndarray2 * list Q) :=
  for_range
    (fun i st =>
       let '(X, y) := st in
       let target_seq := slice scaled_target (i - sequence_length) i in
       let feature_seq := slice (rows scaled_features) (i - sequence_length) i in
       combined_seq <- concatenate_axis1 target_seq (ncols scaled_features)
                         feature_seq ;;
       Ok (X ++ [combined_seq], y ++ [nth i scaled_target 0]))
    sequence_length (length scaled_target - sequence_length) ([], []).

(** The window and the label made at index [i]. *)
Definition window_at (L : nat) (target : list Q) (feats : ndarray2) (i : nat)
  : ndarray2 :=
  mk2d (1 + ncols feats)
       (zip_with cons (slice target (i - L) i) (slice (rows feats) (i - L) i)).

Lemma slice_length {A : Type} (a : list A) (s e : nat) :
  length (slice a s e) = Nat.min (e - s) (length a - s).
Proof. unfold slice. now rewrite length_firstn, length_skipn. Qed.

Lemma slice_nth {A : Type} (a : list A) (s e j : nat) (d : A) :
  (j < e - s)%nat -> nth j (slice a s e) d = nth (s + j) a d.
Proof.
  intro H. unfold slice. rewrite nth_firstn, nth_skipn.
  destruct (Nat.ltb_spec j (e - s)); [reflexivity | lia].
Qed.

Lemma zip_with_cons_nth (ts : list Q) (fs : list (list Q)) (j : nat) :
  (j < length ts)%nat -> (j < length fs)%nat ->
  nth j (zip_with cons ts fs) [] = nth j ts 0 :: nth j fs [].
Proof.
  revert fs j. induction ts as [|t ts IH]; intros [|f fs] [|j] H1 H2;
    simpl in *; try lia; [reflexivity|].
  apply IH; lia.
Qed.

Lemma zip_with_cons_width (ts : list Q) (fs : list (list Q)) (w : nat) :
  Forall (fun r => length r = w) fs ->
  Forall (fun r => length r = S w) (zip_with cons ts fs).
Proof.
  intro H. revert ts. induction H as [|f fs Hf Hfs IH]; intros [|t ts];
    simpl; constructor.
  - simpl. now rewrite Hf.
  - apply IH.
Qed.

Lemma create_sequences_loop (L : nat) (target : list Q) (feats : ndarray2)
  (m i : nat) (X0 : list ndarray2) (y0 : list Q) :
  length (rows feats) = length target ->
  for_range
    (fun i st =>
       let '(X, y) := st in
       let target_seq := slice target (i - L) i in
       let feature_seq := slice (rows feats) (i - L) i in
       combined_seq <- concatenate_axis1 target_seq (ncols feats) feature_seq ;;
       Ok (X ++ [combined_seq], y ++ [nth i target 0]))
    i m (X0, y0)
  = Ok (X0 ++ map (window_at L target feats) (seq i m),
        y0 ++ map (fun i => nth i target 0) (seq i m)).
Proof.
  intro Hlen. revert i X0 y0. induction m as [|m IH]; intros i X0 y0.
  - simpl. now rewrite !app_nil_r.
  - cbn [for_range seq map]. unfold concatenate_axis1.
    rewrite !slice_length, Hlen, Nat.eqb_refl. cbn [bind].
    rewrite IH. fold (window_at L target feats i).
    now rewrite <- !app_assoc.
Qed.

Lemma last_nth {A : Type} (l : list A) (d : A) :
  last l d = nth (length l - 1) l d.
Proof.
  induction l as [|a l IH]; [reflexivity|].
  destruct l as [|b l]; [reflexivity|].
  change (last (a :: b :: l) d) with (last (b :: l) d). rewrite IH.
  cbn [length]. rewrite !Nat.sub_succ, !Nat.sub_0_r. reflexivity.
Qed.

(** X15.  The windows of [prepare_lstm_data].  From [n] scaled targets and
    [n] rows of [F] scaled features the loop makes [n - sequence_length]
    windows and as many labels (none when the table has no more than
    [sequence_length] rows).  Window [k] has the shape
    [(sequence_length, 1 + F)]; its row [j] is the target of row [k + j] of
    the table followed by the features of that row; its label is the target
    of the row after the window.  So the last row of the table is a label
    only: the newest window ends one row before the end of the table. *)
Theorem create_sequences_windows (L : nat) (target : list Q) (feats : ndarray2)
  (F : nat) :
  has_shape feats (length target) F ->
  let n := length target in
  exists X y,
    create_sequences L target feats = Ok (X, y) /\
    length X = (n - L)%nat /\ length y = (n - L)%nat /\
    (forall k, (k < n - L)%nat ->
       nth k y 0 = nth (L + k) target 0 /\
       has_shape (nth k X (mk2d 0 [])) L (1 + F) /\
       forall j, (j < L)%nat ->
         nth j (rows (nth k X (mk2d 0 []))) []
         = nth (k + j) target 0 :: nth (k + j) (rows feats) []) /\
    ((1 <= L)%nat -> (L < n)%nat ->
       last y 0 = nth (n - 1) target 0 /\
       last (rows (last X (mk2d 0 []))) []
       = nth (n - 2) target 0 :: nth (n - 2) (rows feats) []).
Proof.
  intros (Hrows & Hcols & Hwf) n.
  unfold create_sequences. rewrite (create_sequences_loop L target feats _ _ [] [] Hrows).
  cbn [app]. fold n.
  set (X := map (window_at L target feats) (seq L (n - L))).
  set (y := map (fun i => nth i target 0) (seq L (n - L))).
  exists X, y.
  assert (HX : length X = (n - L)%nat) by (unfold X; now rewrite length_map, length_seq).
  assert (Hy : length y = (n - L)%nat) by (unfold y; now rewrite length_map, length_seq).
  assert (HnX : forall k, (k < n - L)%nat ->
            nth k X (mk2d 0 []) = window_at L target feats (L + k)).
  { intros k Hk. unfold X.
    rewrite (nth_indep _ (mk2d 0 []) (window_at L target feats 0))
      by (now rewrite length_map, length_seq).
    rewrite (map_nth (window_at L target feats)), seq_nth by exact Hk.
    reflexivity. }
  assert (Hny : forall k, (k < n - L)%nat -> nth k y 0 = nth (L + k) target 0).
  { intros k Hk. unfold y.
    rewrite (nth_indep _ 0 ((fun i => nth i target 0) 0%nat))
      by (now rewrite length_map, length_seq).
    rewrite (map_nth (fun i => nth i target 0)), seq_nth by exact Hk.
    reflexivity. }
  assert (Hrow : forall k j, (k < n - L)%nat -> (j < L)%nat ->
            nth j (rows (window_at L target feats (L + k))) []
            = nth (k + j) target 0 :: nth (k + j) (rows feats) []).
  { intros k j Hk Hj. unfold window_at. cbn [rows].
    replace (L + k - L)%nat with k by lia.
    rewrite zip_with_cons_nth by (rewrite slice_length; fold n; lia).
    rewrite !slice_nth by lia. reflexivity. }
  split; [reflexivity|]. split; [exact HX|]. split; [exact Hy|]. split.
  - intros k Hk. split; [now apply Hny|]. rewrite (HnX k Hk). split.
    + unfold has_shape, wf2d, window_at. cbn [rows ncols].
      replace (L + k - L)%nat with k by lia.
      split; [|split].
      * rewrite zip_with_length; rewrite !slice_length; fold n; lia.
      * now rewrite Hcols.
      * apply zip_with_cons_width.
        apply AnomalyExtras.Forall_firstn_skipn. exact Hwf.
    + intros j Hj. now apply Hrow.
  - intros HL Hn.
    assert (Hk : (n - L - 1 < n - L)%nat) by lia.
    rewrite (last_nth y 0), (last_nth X (mk2d 0 [])).
    rewrite HX, Hy, (Hny _ Hk), (HnX _ Hk).
    replace (L + (n - L - 1))%nat with (n - 1)%nat by lia.
    split; [reflexivity|].
    set (w := window_at L target feats (n - 1)).
    assert (Hlw : length (rows w) = L).
    { unfold w, window_at. cbn [rows].
      rewrite zip_with_length; rewrite !slice_length; fold n; lia. }
    rewrite (last_nth (rows w) []), Hlw.
    unfold w. replace (n - 1)%nat with (L + (n - L - 1))%nat at 1 by lia.
    rewrite (Hrow _ (L - 1)%nat Hk) by lia.
    replace (n - L - 1 + (L - 1))%nat with (n - 2)%nat by lia.
    reflexivity.
Qed.

Definition four_targets : list Q := [0.1; 0.2; 0.3; 0.4].
Definition four_features : ndarray2 := mk2d 1 [[10]; [20]; [30]; [40]].

Lemma create_sequences_windows_witness :
  exists X y,
    create_sequences 2 four_targets four_features = Ok (X, y) /\
    length X = (length four_targets - 2)%nat /\
    length y = (length four_targets - 2)%nat /\
    (forall k, (k < length four_targets - 2)%nat ->
       nth k y 0 = nth (2 + k) four_targets 0 /\
       has_shape (nth k X (mk2d 0 [])) 2 (1 + 1) /\
       forall j, (j < 2)%nat ->
         nth j (rows (nth k X (mk2d 0 []))) []
         = nth (k + j) four_targets 0 :: nth (k + j) (rows four_features) []) /\
    ((1 <= 2)%nat -> (2 < length four_targets)%nat ->
       last y 0 = nth (length four_targets - 1) four_targets 0 /\
       last (rows (last X (mk2d 0 []))) []
       = nth (length four_targets - 2) four_targets 0
         :: nth (length four_targets - 2) (rows four_features) []).
Proof.
  apply (create_sequences_windows 2 four_targets four_features 1).
  repeat split. repeat constructor.
Defined.

Example create_sequences_example :
  create_sequences 2 four_targets four_features
  = Ok ([mk2d 2 [[0.1; 10]; [0.2; 20]]; mk2d 2 [[0.2; 20]; [0.3; 30]]],
        [0.3; 0.4]) /\
  create_sequences 4 four_targets four_features = Ok ([], []) /\
  is_raise (create_sequences 2 four_targets (mk2d 1 [[10]; [20]])) = true.
Proof. repeat split. Qed.

End Windowing.

(* ================================================================= *)
(** ** models/lstm_model.py: which windows [predict_sequence] accepts *)

Module SequenceExtras.
Import Rollout.

Lemma first_step_ok (step : ndarray2 -> result Q) (nf : nat)
  (features : option (list (list Q))) (n : nat) (w : ndarray2)
  (st : ndarray2 * list Q) :
  rollout_state step nf features (S n) w = Ok st ->
  exists pred, step w = Ok pred /\ nf <> 0%nat /\ ncols w = nf /\
    (features = None -> rows w <> []).
Proof.
  unfold rollout_state. cbn [for_range].
  destruct (rollout_body step nf features 0 (w, [])) as [st1|] eqn:Eb;
    cbn [bind]; [|discriminate].
  intros _. unfold rollout_body in Eb.
  destruct (step w) as [pred|]; cbn [bind] in Eb; [|discriminate].
  destruct (Nat.eqb_spec nf 0) as [H0|H0]; [discriminate|].
  match type of Eb with
  | context [bind ?c _] => destruct c as [cov|] eqn:Ec
  end; cbn [bind] in Eb; [|discriminate].
  destruct (Nat.eqb_spec (ncols w) nf) as [Hc|Hc]; [|discriminate].
  exists pred. repeat split; try assumption.
  intros -> Hr. unfold last_row_tail in Ec. rewrite Hr in Ec. discriminate.
Qed.

(** X16.  [predict_sequence] of the network forecaster returns only for a
    trained forecaster and a window of exactly the shape
    [(sequence_length, n_features)] with at least one column: when a call
    for at least one step returns, the model is set, the window has
    [n_features] columns and [sequence_length] rows, and exactly [n_steps]
    values come back.  Without future covariates the window also has at
    least one row.  A call for zero steps of a trained forecaster returns
    the empty forecast for any window. *)
Theorem predict_sequence_needs_shape (m : LSTM.LSTMForecaster) (w : ndarray2)
  (n : nat) (features : option (list (list Q))) (preds : list Q) :
  LSTM.predict_sequence m w n features = Ok preds ->
  (exists net, LSTM.model m = Some net) /\
  length preds = n /\
  ((1 <= n)%nat ->
     ncols w = LSTM.n_features m /\
     length (rows w) = LSTM.sequence_length m /\
     (1 <= LSTM.n_features m)%nat /\
     (features = None -> (1 <= LSTM.sequence_length m)%nat)) /\
  (n = 0%nat -> preds = []).
Proof.
  intro H. pose proof (Ensemble.predict_sequence_length m w n features preds H) as Hlen.
  unfold LSTM.predict_sequence in H.
  destruct (LSTM.model m) as [net|] eqn:Em; [|discriminate].
  split; [now exists net|]. split; [exact Hlen|]. split.
  - intro Hn. destruct n as [|n]; [lia|].
    destruct (rollout_state _ _ _ _ _) as [st|] eqn:Es; [|discriminate].
    apply first_step_ok in Es. destruct Es as (pred & Hp & Hnf & Hc & Hrows).
    unfold LSTM.predict_one in Hp.
    destruct (Nat.eqb_spec (size w) (LSTM.sequence_length m * LSTM.n_features m))
      as [Hs|Hs]; [|discriminate].
    unfold size in Hs. rewrite Hc in Hs.
    assert (Hr : length (rows w) = LSTM.sequence_length m) by nia.
    repeat split; try assumption; try lia.
    intro Hf. specialize (Hrows Hf).
    destruct (rows w); [congruence|]. simpl in Hr. lia.
  - intros ->. destruct preds; [reflexivity|discriminate].
Qed.

(** The forecast of three steps from the window [[1, 5], [2, 7]] by a
    "network" that sums its input. *)
Definition three_steps : list Q :=
  Eval vm_compute in
    match LSTM.predict_sequence (LSTM.mkLSTM 2 2 (Some sumQ))
            (mk2d 2 [[1; 5]; [2; 7]]) 3 None with
    | Ok l => l
    | Raise _ => []
    end.

Lemma predict_sequence_needs_shape_witness :
  (exists net, LSTM.model (LSTM.mkLSTM 2 2 (Some sumQ)) = Some net) /\
  length three_steps = 3%nat /\
  ((1 <= 3)%nat ->
     ncols (mk2d 2 [[1; 5]; [2; 7]]) = 2%nat /\
     length (rows (mk2d 2 [[1; 5]; [2; 7]])) = 2%nat /\
     (1 <= 2)%nat /\
     (@None (list (list Q)) = None -> (1 <= 2)%nat)) /\
  (3%nat = 0%nat -> three_steps = @nil Q).
Proof.
  apply (predict_sequence_needs_shape (LSTM.mkLSTM 2 2 (Some sumQ))
           (mk2d 2 [[1; 5]; [2; 7]]) 3 None three_steps).
  vm_compute. reflexivity.
Defined.

Example three_steps_values : Forall2 Qeq three_steps [15; 31; 60].
Proof. repeat (constructor; [reflexivity|]). constructor. Qed.

(** A window with the right number of entries but transposed passes the
    reshape and is refused after the first prediction, when its last row is
    copied into the new row. *)
Example transposed_window_example :
  LSTM.predict_sequence (LSTM.mkLSTM 3 2 (Some sumQ))
    (mk2d 3 [[1; 2; 3]; [4; 5; 6]]) 1 None
  = Raise (ValueError "could not broadcast input array").
Proof. reflexivity. Qed.

End SequenceExtras.
